(** * edi_invoice/parser.py: a shallow embedding of the UBL invoice parser

    The parser walks an [xml.etree.ElementTree] element tree and builds
    nested Python dicts; [_post_process_result_dict] then projects them to
    the flat output record.  Python values are embedded as the inductive
    [pyval], dicts as [gmap], exceptions as the error monad [outcome]. *)

From Stdlib Require Import NArith String Ascii.
From stdpp Require Import base option list gmap fin_maps.

Set Warnings "-register-all".
Open Scope N_scope.

(** ** Python strings *)

(** A Python [str] is a sequence of Unicode code points; [bytes] is a
    sequence of octets. *)
Definition char := N.
Abbreviation pystr := (list N).
Abbreviation pybytes := (list N).

(** An ASCII literal of the source as a [pystr]. *)
Definition py (s : string) : pystr := map N_of_ascii (list_ascii_of_string s).
Arguments py : simpl never.

(** [str.isspace] on one character (CPython's [_PyUnicode_IsWhitespace]). *)
Definition isspace (c : char) : bool :=
  ((0x09 <=? c) && (c <=? 0x0D)) || ((0x1C <=? c) && (c <=? 0x20))
  || (c =? 0x85) || (c =? 0xA0) || (c =? 0x1680)
  || ((0x2000 <=? c) && (c <=? 0x200A))
  || (c =? 0x2028) || (c =? 0x2029) || (c =? 0x202F) || (c =? 0x205F)
  || (c =? 0x3000).

(** [s.lstrip()], [s.rstrip()], [s.strip()] *)
Fixpoint lstrip (s : pystr) : pystr :=
  match s with
  | c :: s' => if isspace c then lstrip s' else s
  | [] => []
  end.

Definition rstrip (s : pystr) : pystr := reverse (lstrip (reverse s)).

Definition strip (s : pystr) : pystr := rstrip (lstrip s).

(** [b.lstrip()] on [bytes]: the ASCII whitespace is removed. *)
Fixpoint bytes_lstrip (b : pybytes) : pybytes :=
  match b with
  | c :: b' =>
      if ((0x09 <=? c) && (c <=? 0x0D)) || (c =? 0x20) then bytes_lstrip b'
      else b
  | [] => []
  end.

(** [s.startswith(p)] *)
Fixpoint startswith (p s : pystr) : bool :=
  match p, s with
  | [], _ => true
  | a :: p', b :: s' => (a =? b) && startswith p' s'
  | _ :: _, [] => false
  end.

(** [s.replace(old, '')] for a non-empty [old]: the occurrences of [old]
    are deleted in one scan from the left, without overlap.  [skip] counts
    the characters of a matched occurrence that are still to be dropped. *)
Fixpoint replace_from (old : pystr) (skip : nat) (s : pystr) : pystr :=
  match s with
  | [] => []
  | c :: s' =>
      match skip with
      | S k => replace_from old k s'
      | O => if startswith old s
             then replace_from old (Nat.pred (length old)) s'
             else c :: replace_from old O s'
      end
  end.

Definition replace_del (old s : pystr) : pystr := replace_from old O s.

(** ** Tag normalizer *)

(** [InvoiceParser.ns_filter] *)
Definition ns_filter : list pystr :=
  [ py "{urn:oasis:names:specification:ubl:schema:xsd:CommonExtensionComponents-2}";
    py "{urn:oasis:names:specification:ubl:schema:xsd:CommonBasicComponents-2}";
    py "{urn:oasis:names:specification:ubl:schema:xsd:CommonAggregateComponents-2}";
    py "{urn:oasis:names:specification:ubl:schema:xsd:Invoice-2}" ].

(** [InvoiceParser.prettify_tag]: the loop
    [for ns in self.ns_filter: pretty_tag = pretty_tag.replace(ns, '')]. *)
Definition prettify_tag (tag : pystr) : pystr :=
  fold_left (fun pretty_tag ns => replace_del ns pretty_tag) ns_filter tag.

(** ** Encoding primitives used by [parsePdfDocument] *)

(** [s.encode('utf-8')]: surrogates raise [UnicodeEncodeError]; a Python
    [str] holds no code point above U+10FFFF. *)
Definition utf8_char (c : char) : option pybytes :=
  if c <? 0x80 then Some [c]
  else if c <? 0x800 then
    Some [N.lor 0xC0 (N.shiftr c 6); N.lor 0x80 (N.land c 0x3F)]
  else if c <? 0x10000 then
    if (0xD800 <=? c) && (c <=? 0xDFFF) then None
    else Some [N.lor 0xE0 (N.shiftr c 12);
               N.lor 0x80 (N.land (N.shiftr c 6) 0x3F);
               N.lor 0x80 (N.land c 0x3F)]
  else if c <? 0x110000 then
    Some [N.lor 0xF0 (N.shiftr c 18);
          N.lor 0x80 (N.land (N.shiftr c 12) 0x3F);
          N.lor 0x80 (N.land (N.shiftr c 6) 0x3F);
          N.lor 0x80 (N.land c 0x3F)]
  else None.

Fixpoint encode_utf8 (s : pystr) : option pybytes :=
  match s with
  | [] => Some []
  | c :: s' =>
      match utf8_char c, encode_utf8 s' with
      | Some b, Some bs => Some (b ++ bs)
      | _, _ => None
      end
  end.

(** The base64 alphabet of RFC 4648, as the ASCII code of sextet [n]. *)
Definition b64_char (n : N) : N :=
  if n <? 26 then 65 + n
  else if n <? 52 then 97 + (n - 26)
  else if n <? 62 then 48 + (n - 52)
  else if n =? 62 then 43
  else 47.

(** [base64.b64encode]: three octets give four sextets; a last group of
    one or two octets is padded with [=] (61). *)
Fixpoint b64encode (b : pybytes) : pybytes :=
  match b with
  | [] => []
  | [x] =>
      [b64_char (N.shiftr x 2); b64_char (N.shiftl (N.land x 3) 4); 61; 61]
  | [x; y] =>
      [b64_char (N.shiftr x 2);
       b64_char (N.lor (N.shiftl (N.land x 3) 4) (N.shiftr y 4));
       b64_char (N.shiftl (N.land y 15) 2); 61]
  | x :: y :: z :: rest =>
      [b64_char (N.shiftr x 2);
       b64_char (N.lor (N.shiftl (N.land x 3) 4) (N.shiftr y 4));
       b64_char (N.lor (N.shiftl (N.land y 15) 2) (N.shiftr z 6));
       b64_char (N.land z 63)] ++ b64encode rest
  end.

(** ** Python values and exceptions *)

Inductive pyval :=
| VNone
| VStr (s : pystr)
| VBytes (b : pybytes)
| VInt (n : N)
| VList (l : list pyval)
| VDict (d : gmap pystr pyval).

Inductive exn := AttributeError | KeyError | TypeError | UnicodeEncodeError.

Inductive outcome (A : Type) :=
| Ok (a : A)
| Raise (e : exn).
Arguments Ok {A} a.
Arguments Raise {A} e.

#[global] Instance outcome_ret : MRet outcome := @Ok.
#[global] Instance outcome_bind : MBind outcome := fun A B f m =>
  match m with
  | Ok a => f a
  | Raise e => Raise e
  end.

(** [for x in xs: s = body(s, x)], aborted by the first exception. *)
Fixpoint for_each {A S} (body : S -> A -> outcome S) (xs : list A) (s : S)
  : outcome S :=
  match xs with
  | [] => Ok s
  | x :: xs' => s' ← body s x; for_each body xs' s'
  end.

(** [elem.text] is a [str] or [None]. *)
Definition of_text (t : option pystr) : pyval :=
  match t with
  | Some s => VStr s
  | None => VNone
  end.

(** Truth value of an object, as tested by [if x] and [not x]. *)
Definition truthy (v : pyval) : bool :=
  match v with
  | VNone => false
  | VStr s => negb (bool_decide (s = []))
  | VBytes b => negb (bool_decide (b = []))
  | VInt n => negb (n =? 0)
  | VList l => negb (bool_decide (l = []))
  | VDict d => negb (bool_decide (d = ∅))
  end.

(** [d.get(k, dflt)]: only a dict has the method. *)
Definition get (d : pyval) (k : pystr) (dflt : pyval) : outcome pyval :=
  match d with
  | VDict m => Ok (default dflt (m !! k))
  | _ => Raise AttributeError
  end.

(** [d.get(k1, {}).get(k2, {}) ... .get(k)] *)
Fixpoint chain (d : pyval) (ks : list pystr) (k : pystr) : outcome pyval :=
  match ks with
  | [] => get d k VNone
  | k1 :: ks' => d' ← get d k1 (VDict ∅); chain d' ks' k
  end.

(** [for x in v]: the items a [for] loop visits. *)
Definition py_iter (v : pyval) : outcome (list pyval) :=
  match v with
  | VList l => Ok l
  | VStr s => Ok (map (fun c => VStr [c]) s)
  | VBytes b => Ok (map VInt b)
  | VDict d => Ok (map (fun kv => VStr kv.1) (map_to_list d))
  | VNone | VInt _ => Raise TypeError
  end.

(** ** Element trees *)

Module ET.

(** [xml.etree.ElementTree.Element]: iterating an element visits
    [children] in document order. *)
Inductive Element := mkElement {
  tag : pystr;
  attrib : gmap pystr pystr;
  text : option pystr;
  children : list Element
}.

End ET.

Abbreviation Element := ET.Element.

Abbreviation pydict := (gmap pystr pyval).

(** The loop [for child in elem: d[prettify_tag(child.tag)] = child.text],
    which the handlers below repeat for every block of plain leaves. *)
Definition text_fields (d : pydict) (elem : Element) : pydict :=
  fold_left
    (fun d child => <[prettify_tag (ET.tag child) := of_text (ET.text child)]> d)
    (ET.children elem) d.

(** ** Section handlers of [InvoiceParser] *)

(** [InvoiceParser._parseInvoiceLineItem] *)
Definition _parseInvoiceLineItem (xml_element : Element) : pyval :=
  let nested_fields :=
    [py "SellersItemIdentification"; py "ClassifiedTaxCategory"] in
  VDict (fold_left
    (fun item_data sub =>
       let tag := prettify_tag (ET.tag sub) in
       if decide (tag ∈ nested_fields) then
         if decide (tag = py "SellersItemIdentification") then
           text_fields item_data sub
         else if decide (tag = py "ClassifiedTaxCategory") then
           let tax_dict :=
             fold_left
               (fun tax_dict child =>
                  let child_tag := prettify_tag (ET.tag child) in
                  if decide (child_tag = py "TaxScheme") then
                    <[py "TaxScheme" := VDict (text_fields ∅ child)]> tax_dict
                  else <[child_tag := of_text (ET.text child)]> tax_dict)
               (ET.children sub) ∅ in
           <[py "ClassifiedTaxCategory" := VDict tax_dict]> item_data
         else item_data
       else <[tag := of_text (ET.text sub)]> item_data)
    (ET.children xml_element) ∅).

(** [child.attrib[k]] stored under [k]; a missing attribute raises
    [KeyError]. *)
Definition store_attrib (child : Element) (k : pystr) (d : pydict)
  : outcome pydict :=
  match ET.attrib child !! k with
  | Some v => Ok (<[k := VStr v]> d)
  | None => Raise KeyError
  end.

(** The [TaxTotal] branch of [InvoiceParser.parseInvoiceLine]: four
    nested loops that copy the amount and the category leaves into the
    line's own dict. *)
Definition line_tax_total (invoice_line_dict : pydict) (child : Element)
  : pydict :=
  fold_left
    (fun d sub =>
       let pretty_tag := prettify_tag (ET.tag sub) in
       let d :=
         if decide (pretty_tag = py "TaxAmount")
         then <[py "TaxAmount" := of_text (ET.text sub)]> d else d in
       if decide (pretty_tag = py "TaxSubtotal") then
         fold_left
           (fun d third =>
              if decide (prettify_tag (ET.tag third) = py "TaxCategory") then
                fold_left
                  (fun d fourth =>
                     let p_fourth_tag := prettify_tag (ET.tag fourth) in
                     let d :=
                       if decide (p_fourth_tag = py "ID")
                       then <[py "TaxID" := of_text (ET.text fourth)]> d
                       else d in
                     let d :=
                       if decide (p_fourth_tag = py "Percent")
                       then <[py "TaxPercent" := of_text (ET.text fourth)]> d
                       else d in
                     if decide (p_fourth_tag = py "TaxExemptionReason")
                     then <[py "TaxExemptionReason" := of_text (ET.text fourth)]> d
                     else d)
                  (ET.children third) d
              else d)
           (ET.children sub) d
       else d)
    (ET.children child) invoice_line_dict.

(** [InvoiceParser.parseLegalMonetaryTotal] *)
Definition parseLegalMonetaryTotal (xml_element : Element) : pyval :=
  VDict (text_fields ∅ xml_element).

(** A child block [inner] is flattened into a dict of its own, every
    other child is a plain leaf: the shape shared by [PostalAddress]
    (inner [Country]), [PartyTaxScheme] (inner [TaxScheme]) and
    [PayeeFinancialAccount] (inner [FinancialInstitutionBranch]). *)
Definition fields_with (inner : pystr) (elem : Element) : pydict :=
  fold_left
    (fun d child =>
       let child_tag := prettify_tag (ET.tag child) in
       if decide (child_tag = inner) then
         <[inner := VDict (text_fields ∅ child)]> d
       else <[child_tag := of_text (ET.text child)]> d)
    (ET.children elem) ∅.

(** [InvoiceParser.parseTaxTotal] *)
Definition parseTaxTotal (xml_element : Element) : pyval :=
  VDict (fold_left
    (fun tax_total elem =>
       let tag := prettify_tag (ET.tag elem) in
       if decide (tag = py "TaxSubtotal") then
         let tax_subtotal :=
           fold_left
             (fun tax_subtotal child =>
                let child_tag := prettify_tag (ET.tag child) in
                if decide (child_tag = py "TaxCategory") then
                  let category :=
                    fold_left
                      (fun category sub =>
                         let sub_tag := prettify_tag (ET.tag sub) in
                         let category :=
                           <[sub_tag := of_text (ET.text sub)]> category in
                         if decide (sub_tag = py "TaxScheme") then
                           <[py "TaxScheme" := VDict (text_fields ∅ sub)]> category
                         else category)
                      (ET.children child) ∅ in
                  <[py "TaxCategory" := VDict category]> tax_subtotal
                else <[child_tag := of_text (ET.text child)]> tax_subtotal)
             (ET.children elem) ∅ in
         <[py "TaxSubtotal" := VDict tax_subtotal]> tax_total
       else <[tag := of_text (ET.text elem)]> tax_total)
    (ET.children xml_element) ∅).

(** [InvoiceParser.parsePaymentMeans] *)
Definition parsePaymentMeans (xml_element : Element) : pyval :=
  VDict (fold_left
    (fun payment_means elem =>
       let tag := prettify_tag (ET.tag elem) in
       if decide (tag = py "PayeeFinancialAccount") then
         <[py "PayeeFinancialAccount" :=
             VDict (fields_with (py "FinancialInstitutionBranch") elem)]>
           payment_means
       else <[tag := of_text (ET.text elem)]> payment_means)
    (ET.children xml_element) ∅).

(** [InvoiceParser._parse_payment_id]; the argument is the [PaymentID]
    leaf of the payment-means dict, a [str] or [None].  Of the other
    objects, [bytes] can be sliced and stripped too, a list can be sliced
    but has no [lstrip], an int and a dict cannot be sliced. *)
Definition _parse_payment_id (string : pyval) : outcome (pyval * pyval) :=
  match string with
  | VNone => Ok (VNone, VNone)
  | VStr s => Ok (VStr (take 4 s), VStr (lstrip (drop 4 s)))
  | VBytes b => Ok (VBytes (take 4 b), VBytes (bytes_lstrip (drop 4 b)))
  | VList _ => Raise AttributeError
  | VInt _ | VDict _ => Raise TypeError
  end.

(** [InvoiceParser.parseAccountingParty] *)
Definition parseAccountingParty (xml_element : Element) : pyval :=
  let single_child_tags :=
    [py "PartyIdentification"; py "PartyName"; py "PartyLegalEntity";
     py "Contact"] in
  VDict (fold_left
    (fun party elem =>
       if decide (prettify_tag (ET.tag elem) = py "Party") then
         fold_left
           (fun party sub_elem =>
              let sub_elem_tag := prettify_tag (ET.tag sub_elem) in
              if decide (sub_elem_tag ∈ single_child_tags) then
                <[sub_elem_tag := VDict (text_fields ∅ sub_elem)]> party
              else if decide (sub_elem_tag = py "PostalAddress") then
                <[sub_elem_tag := VDict (fields_with (py "Country") sub_elem)]> party
              else if decide (sub_elem_tag = py "PartyTaxScheme") then
                <[sub_elem_tag := VDict (fields_with (py "TaxScheme") sub_elem)]> party
              else <[sub_elem_tag := of_text (ET.text sub_elem)]> party)
           (ET.children elem) party
       else party)
    (ET.children xml_element) ∅).

(** [InvoiceParser.parseInvoicePeriod] *)
Definition parseInvoicePeriod (xml_element : Element) : pyval :=
  VDict (text_fields ∅ xml_element).

(** [child.text.strip().encode('utf-8')] then [base64.b64encode]; a
    [None] text has no [strip]. *)
Definition encode_attachment (t : option pystr) : outcome pyval :=
  match t with
  | None => Raise AttributeError
  | Some s =>
      match encode_utf8 (strip s) with
      | Some b => Ok (VBytes (b64encode b))
      | None => Raise UnicodeEncodeError
      end
  end.

(** [InvoiceParser.parsePdfDocument] *)
Definition parsePdfDocument (xml_element : Element) : outcome pyval :=
  pdf_doc ← for_each
    (fun pdf_doc elem =>
       if decide (prettify_tag (ET.tag elem) = py "Attachment") then
         for_each
           (fun pdf_doc child =>
              if decide (prettify_tag (ET.tag child)
                         = py "EmbeddedDocumentBinaryObject")
              then encode_attachment (ET.text child)
              else Ok pdf_doc)
           (ET.children elem) pdf_doc
       else Ok pdf_doc)
    (ET.children xml_element) (VStr []);
  if truthy pdf_doc then Ok pdf_doc else Ok VNone.

(** ** Output records

    The projector returns a dict of five dicts with fixed keys; each is a
    record here.  Every field holds what a [.get] returned. *)

Module Party.
(** The [supplier] and [customer] dicts: field [edi_X] stands for the key
    [edi_supplier_X], respectively [edi_customer_X]. *)
Record t := mk {
  edi_id : pyval;
  edi_identificator : pyval;
  edi_name : pyval;
  edi_street : pyval;
  edi_city : pyval;
  edi_postal_code : pyval;
  edi_country_code : pyval;
  edi_company_id : pyval;
  edi_tax_scheme_code : pyval;
  edi_registration_name : pyval;
  edi_telephone : pyval;
  edi_email : pyval
}.
End Party.

Module Header.
Record t := mk {
  document_reference : pyval;
  currency : pyval;
  due_date : pyval;
  customization_id : pyval;
  edi_supplier_invoice_id : pyval;
  tax_amount : pyval;
  tax_percent : pyval;
  tax_exemption_reason : pyval;
  taxable_amount : pyval;
  iban : pyval;
  instruction_note : pyval;
  payment_means_code : pyval;
  payment_id : pyval;
  payable_amount : pyval;
  payment_model : pyval;
  payment_reference : pyval
}.

(** [header["due_date"] = v] *)
Definition set_due_date (v : pyval) (h : t) : t :=
  mk (document_reference h) (currency h) v (customization_id h)
     (edi_supplier_invoice_id h) (tax_amount h) (tax_percent h)
     (tax_exemption_reason h) (taxable_amount h) (iban h)
     (instruction_note h) (payment_means_code h) (payment_id h)
     (payable_amount h) (payment_model h) (payment_reference h).
End Header.

Module Line.
Record t := mk {
  edi_line_id : pyval;
  edi_line_name : pyval;
  edi_line_description : pyval;
  invoiced_quantity : pyval;
  invoiced_amount : pyval;
  single_unit_price : pyval;
  tax_category_id : pyval;
  tax_percent : pyval;
  tax_exemption_reason : pyval;
  tax_scheme_code : pyval
}.
End Line.

Record ParsedDocument := mkParsedDocument {
  supplier : Party.t;
  customer : Party.t;
  invoice_header : Header.t;
  invoice_lines : list Line.t;
  pdf_document : pyval
}.

(** ** Result projector *)

(** The twelve entries of the [supplier] dict ([slot] is
    ['AccountingSupplierParty']) and of the [customer] dict ([slot] is
    ['AccountingCustomerParty']), evaluated in the order of the source. *)
Definition party_fields (result : pydict) (slot : pystr) : outcome Party.t :=
  let r := VDict result in
  v1 ← chain r [slot] (py "EndpointID");
  v2 ← chain r [slot; py "PartyIdentification"] (py "ID");
  v3 ← chain r [slot; py "PartyName"] (py "Name");
  v4 ← chain r [slot; py "PostalAddress"] (py "StreetName");
  v5 ← chain r [slot; py "PostalAddress"] (py "CityName");
  v6 ← chain r [slot; py "PostalAddress"] (py "PostalZone");
  v7 ← chain r [slot; py "PostalAddress"; py "Country"] (py "IdentificationCode");
  v8 ← chain r [slot; py "PartyTaxScheme"] (py "CompanyID");
  v9 ← chain r [slot; py "PartyTaxScheme"; py "TaxScheme"] (py "ID");
  v10 ← chain r [slot; py "PartyLegalEntity"] (py "RegistrationName");
  v11 ← chain r [slot; py "Contact"] (py "Telephone");
  v12 ← chain r [slot; py "Contact"] (py "ElectronicMail");
  Ok (Party.mk v1 v2 v3 v4 v5 v6 v7 v8 v9 v10 v11 v12).

(** The [invoice_header] dict of [_post_process_result_dict], after the
    call of [_parse_payment_id]. *)
Definition header_fields (result : pydict) : outcome Header.t :=
  let r := VDict result in
  raw ← chain r [py "PaymentMeans"] (py "PaymentID");
  pm ← _parse_payment_id raw;
  let '(payment_model, payment_reference) := pm in
  h1 ← chain r [] (py "InvoiceDocumentReference");
  h2 ← chain r [] (py "TaxCurrencyCode");
  h3 ← chain r [] (py "DueDate");
  h4 ← chain r [] (py "CustomizationID");
  h5 ← chain r [] (py "ID");
  h6 ← chain r [py "TaxTotal"] (py "TaxAmount");
  h7 ← chain r [py "TaxTotal"; py "TaxSubtotal"; py "TaxCategory"] (py "Percent");
  h8 ← chain r [py "TaxTotal"; py "TaxSubtotal"; py "TaxCategory"]
         (py "TaxExemptionReason");
  h9 ← chain r [py "TaxTotal"; py "TaxSubtotal"] (py "TaxableAmount");
  h10 ← chain r [py "PaymentMeans"; py "PayeeFinancialAccount"] (py "ID");
  h11 ← chain r [py "PaymentMeans"] (py "InstructionNote");
  h12 ← chain r [py "PaymentMeans"] (py "PaymentMeansCode");
  h13 ← chain r [py "PaymentMeans"] (py "PaymentID");
  h14 ← chain r [py "LegalMonetaryTotal"] (py "PayableAmount");
  Ok (Header.mk h1 h2 h3 h4 h5 h6 h7 h8 h9 h10 h11 h12 h13 h14
        payment_model payment_reference).

(** [x = i.get(... item-level ...); if not x: x = i.get(line_key)] *)
Definition item_or_line (i : pyval) (item_key line_key : pystr)
  : outcome pyval :=
  x ← chain i [py "Items"; py "ClassifiedTaxCategory"] item_key;
  if negb (truthy x) then chain i [] line_key else Ok x.

(** The body of the loop of [_flatten_invoice_lines] for one line [i]. *)
Definition flatten_invoice_line (i : pyval) : outcome Line.t :=
  tax_id ← item_or_line i (py "ID") (py "TaxID");
  tax_percent ← item_or_line i (py "Percent") (py "TaxPercent");
  tax_exempt ← item_or_line i (py "TaxExemptionReason") (py "TaxExemptionReason");
  l1 ← chain i [] (py "ID");
  l2 ← chain i [py "Items"] (py "Name");
  l3 ← chain i [py "Items"] (py "Description");
  l4 ← chain i [] (py "InvoicedQuantity");
  l5 ← chain i [] (py "LineExtensionAmount");
  l6 ← chain i [py "Price"] (py "PriceAmount");
  l10 ← chain i [py "Items"; py "ClassifiedTaxCategory"; py "TaxScheme"] (py "ID");
  Ok (Line.mk l1 l2 l3 l4 l5 l6 tax_id tax_percent tax_exempt l10).

(** [InvoiceParser._flatten_invoice_lines] *)
Definition _flatten_invoice_lines (result : pydict) : outcome (list Line.t) :=
  match result !! py "InvoiceLines" with
  | Some lines =>
      items ← py_iter lines;
      for_each
        (fun flattened_invoice_lines i =>
           line ← flatten_invoice_line i;
           Ok (flattened_invoice_lines ++ [line]))
        items []
  | None => Ok []
  end.

(** ** Document walker *)

(** [sol[k]] on the [defaultdict(dict)] accumulator. *)
Definition getitem (sol : pydict) (k : pystr) : pyval :=
  default (VDict ∅) (sol !! k).

(** The accumulator before the loop of [Run]. *)
Definition sol_init : pydict :=
  <[py "AccountingCustomerParty" := VList []]>
  (<[py "AccountingSupplierParty" := VList []]>
  (<[py "InvoiceLines" := VList []]>
  (<[py "Note" := VStr []]> ∅))).

(** [x += s] for a string [s]: a string is extended, a list takes the
    characters of [s] as new items, nothing else can be added to. *)
Definition iadd_str (x : pyval) (s : pystr) : outcome pyval :=
  match x with
  | VStr n => Ok (VStr (n ++ s))
  | VList l => Ok (VList (l ++ map (fun c => VStr [c]) s))
  | _ => Raise TypeError
  end.

(** The [Note] branch of [Run]:
    [if elem.text is not None: if not sol["Note"]: sol["Note"] = elem.text
     else: sol["Note"] += "\n" + str(elem.text)]. *)
Definition add_note (sol : pydict) (elem : Element) : outcome pydict :=
  match ET.text elem with
  | Some t =>
      let note := getitem sol (py "Note") in
      if negb (truthy note) then Ok (<[py "Note" := VStr t]> sol)
      else note' ← iadd_str note ([10] ++ t); Ok (<[py "Note" := note']> sol)
  | None => Ok sol
  end.

Section Walker.

(** The two [Run] methods have the same text but for the tag of a line
    element; [self.parseInvoiceLine] is the method of the class. *)
Variable line_tag : pystr.
Variable parseInvoiceLine : Element -> outcome pyval.

(** One turn of the loop [for elem in self.xml_root]. *)
Definition Run_step (sol : pydict) (elem : Element) : outcome pydict :=
  let tag := prettify_tag (ET.tag elem) in
  if decide (tag = py "UBLExtensions") then Ok sol
  else if decide (tag = line_tag) then
    match getitem sol (py "InvoiceLines") with
    | VList lines =>
        line ← parseInvoiceLine elem;
        Ok (<[py "InvoiceLines" := VList (lines ++ [line])]> sol)
    | _ => Raise AttributeError
    end
  else if decide (tag = py "LegalMonetaryTotal") then
    Ok (<[py "LegalMonetaryTotal" := parseLegalMonetaryTotal elem]> sol)
  else if decide (tag = py "TaxTotal") then
    Ok (<[py "TaxTotal" := parseTaxTotal elem]> sol)
  else if decide (tag = py "PaymentMeans") then
    Ok (<[py "PaymentMeans" := parsePaymentMeans elem]> sol)
  else if decide (tag = py "AccountingSupplierParty") then
    Ok (<[py "AccountingSupplierParty" := parseAccountingParty elem]> sol)
  else if decide (tag = py "AccountingCustomerParty") then
    Ok (<[py "AccountingCustomerParty" := parseAccountingParty elem]> sol)
  else if decide (tag = py "InvoicePeriod") then
    Ok (<[py "InvoicePeriod" := parseInvoicePeriod elem]> sol)
  else if decide (tag = py "AdditionalDocumentReference") then
    pdf ← parsePdfDocument elem;
    Ok (<[py "PdfDocument" := pdf]> sol)
  else if decide (tag = py "Note") then add_note sol elem
  else Ok (<[tag := of_text (ET.text elem)]> sol).

(** The accumulator [sol] when the loop of [Run] ends. *)
Definition walk (xml_root : Element) : outcome pydict :=
  for_each Run_step (ET.children xml_root) sol_init.

End Walker.

(** ** The two parser classes *)

Module InvoiceParser.

(** [InvoiceParser.parseInvoiceLine] *)
Definition parseInvoiceLine (xml_element : Element) : outcome pyval :=
  d ← for_each
    (fun invoice_line_dict child =>
       let tag := prettify_tag (ET.tag child) in
       if decide (tag = py "Item") then
         Ok (<[py "Items" := _parseInvoiceLineItem child]> invoice_line_dict)
       else if decide (tag = py "Price") then
         Ok (<[py "Price" := VDict (text_fields ∅ child)]> invoice_line_dict)
       else if decide (tag = py "InvoicedQuantity") then
         store_attrib child (py "unitCode")
           (<[py "InvoicedQuantity" := of_text (ET.text child)]> invoice_line_dict)
       else if decide (tag = py "LineExtensionAmount") then
         store_attrib child (py "currencyID")
           (<[py "LineExtensionAmount" := of_text (ET.text child)]> invoice_line_dict)
       else if decide (tag = py "TaxTotal") then
         Ok (line_tax_total invoice_line_dict child)
       else Ok (<[tag := of_text (ET.text child)]> invoice_line_dict))
    (ET.children xml_element) ∅;
  Ok (VDict d).

(** [InvoiceParser._post_process_result_dict] *)
Definition _post_process_result_dict (result : pydict)
  : outcome ParsedDocument :=
  supplier ← party_fields result (py "AccountingSupplierParty");
  customer ← party_fields result (py "AccountingCustomerParty");
  invoice_header ← header_fields result;
  pdf_document ← chain (VDict result) [] (py "PdfDocument");
  invoice_lines ← _flatten_invoice_lines result;
  Ok (mkParsedDocument supplier customer invoice_header invoice_lines
        pdf_document).

(** [InvoiceParser.Run] on [self.xml_root] *)
Definition Run (xml_root : Element) : outcome ParsedDocument :=
  sol ← walk (py "InvoiceLine") parseInvoiceLine xml_root;
  _post_process_result_dict sol.

End InvoiceParser.

Module CreditNoteParser.

(** [CreditNoteParser.parseInvoiceLine] (the override) *)
Definition parseInvoiceLine (xml_element : Element) : outcome pyval :=
  d ← for_each
    (fun invoice_line_dict child =>
       let tag := prettify_tag (ET.tag child) in
       if decide (tag = py "Item") then
         Ok (<[py "Items" := _parseInvoiceLineItem child]> invoice_line_dict)
       else if decide (tag = py "Price") then
         Ok (<[py "Price" := VDict (text_fields ∅ child)]> invoice_line_dict)
       else if decide (tag = py "CreditedQuantity") then
         store_attrib child (py "unitCode")
           (<[py "InvoicedQuantity" := of_text (ET.text child)]> invoice_line_dict)
       else if decide (tag = py "LineExtensionAmount") then
         store_attrib child (py "currencyID")
           (<[py "LineExtensionAmount" := of_text (ET.text child)]> invoice_line_dict)
       else Ok (<[tag := of_text (ET.text child)]> invoice_line_dict))
    (ET.children xml_element) ∅;
  Ok (VDict d).

(** [CreditNoteParser._post_process_result_dict] (the override) *)
Definition _post_process_result_dict (result : pydict)
  : outcome ParsedDocument :=
  res ← InvoiceParser._post_process_result_dict result;
  issue_date ← chain (VDict result) [] (py "IssueDate");
  Ok (mkParsedDocument (supplier res) (customer res)
        (Header.set_due_date issue_date (invoice_header res))
        (invoice_lines res) (pdf_document res)).

(** [CreditNoteParser.Run] on [self.xml_root] *)
Definition Run (xml_root : Element) : outcome ParsedDocument :=
  sol ← walk (py "CreditNoteLine") parseInvoiceLine xml_root;
  _post_process_result_dict sol.

End CreditNoteParser.

(** ** The two variants, side by side *)

(** The two document variants, to state a property of both classes. *)
Inductive variant := Invoice | CreditNote.

Definition line_tag_of (v : variant) : pystr :=
  match v with
  | Invoice => py "InvoiceLine"
  | CreditNote => py "CreditNoteLine"
  end.

Definition quantity_tag_of (v : variant) : pystr :=
  match v with
  | Invoice => py "InvoicedQuantity"
  | CreditNote => py "CreditedQuantity"
  end.

Definition parseInvoiceLine_of (v : variant) : Element -> outcome pyval :=
  match v with
  | Invoice => InvoiceParser.parseInvoiceLine
  | CreditNote => CreditNoteParser.parseInvoiceLine
  end.

Definition post_process_of (v : variant) : pydict -> outcome ParsedDocument :=
  match v with
  | Invoice => InvoiceParser._post_process_result_dict
  | CreditNote => CreditNoteParser._post_process_result_dict
  end.

Definition Run_of (v : variant) : Element -> outcome ParsedDocument :=
  match v with
  | Invoice => InvoiceParser.Run
  | CreditNote => CreditNoteParser.Run
  end.

(** The other variant. *)
Definition other (v : variant) : variant :=
  match v with
  | Invoice => CreditNote
  | CreditNote => Invoice
  end.

(** ** Definitions used to state the properties *)

(** A tag in which a known prefix is nested inside another occurrence. *)
Definition nested_tag : pystr :=
  py ("{urn:oasis:names:specification:ubl:schema:xsd:Inv"
      ++ "{urn:oasis:names:specification:ubl:schema:xsd:Invoice-2}"
      ++ "oice-2}Note").

(** The character [{], with which each known prefix starts. *)
Definition lbrace : char := 123.

(** The number of [{] in a tag. *)
Definition braces (s : pystr) : nat := length (filter (fun c => c = lbrace) s).

(** [prettify_tag] over any list of prefixes that start with [{]. *)
Definition strip_all (nss : list pystr) (t : pystr) : pystr :=
  fold_left (fun pretty_tag ns => replace_del ns pretty_tag) nss t.

(** The party record that the output carries for a slot of the
    accumulator. *)
Definition party_of (slot : pystr) (out : ParsedDocument) : Party.t :=
  if decide (slot = py "AccountingSupplierParty") then supplier out
  else customer out.

(** The texts of the top-level [Note] elements that have one, in document
    order. *)
Fixpoint note_texts (xs : list Element) : list pystr :=
  match xs with
  | [] => []
  | elem :: xs' =>
      if decide (prettify_tag (ET.tag elem) = py "Note") then
        match ET.text elem with
        | Some t => t :: note_texts xs'
        | None => note_texts xs'
        end
      else note_texts xs'
  end.

(** ["\n".join(ts)] *)
Fixpoint join_lines (ts : list pystr) : pystr :=
  match ts with
  | [] => []
  | [t] => t
  | t :: ts' => t ++ [10] ++ join_lines ts'
  end.

(** The texts without the empty ones at the front. *)
Fixpoint drop_empty (ts : list pystr) : list pystr :=
  match ts with
  | [] :: ts' => drop_empty ts'
  | _ => ts
  end.

(** The note after the texts [ts], starting from the note [n]. *)
Definition note_fold (n : pystr) (ts : list pystr) : pystr :=
  fold_left (fun n t => if decide (n = []) then t else n ++ [10] ++ t) ts n.

(** Two accumulators with the same entries but for the key [K]. *)
Definition agree (K : pystr) (s1 s2 : pydict) : Prop :=
  forall k, k <> K -> s1 !! k = s2 !! k.

(** Two outcomes raise the same exception, or return related values. *)
Definition outcome_rel {A} (R : A -> A -> Prop) (o1 o2 : outcome A) : Prop :=
  match o1, o2 with
  | Ok a, Ok b => R a b
  | Raise e1, Raise e2 => e1 = e2
  | _, _ => False
  end.

(** The document without its top-level children of tag [K]. *)
Definition without (K : pystr) (xml_root : Element) : Element :=
  ET.mkElement (ET.tag xml_root) (ET.attrib xml_root) (ET.text xml_root)
    (filter (fun elem => prettify_tag (ET.tag elem) <> K) (ET.children xml_root)).

(** The keys of the accumulator that the projectors read. *)
Definition read_keys : list pystr :=
  [py "AccountingSupplierParty"; py "AccountingCustomerParty";
   py "PaymentMeans"; py "InvoiceDocumentReference"; py "TaxCurrencyCode";
   py "DueDate"; py "CustomizationID"; py "ID"; py "TaxTotal";
   py "LegalMonetaryTotal"; py "PdfDocument"; py "InvoiceLines";
   py "IssueDate"].

(** The accumulator always holds a string under ['Note']. *)
Definition note_is_str (sol : pydict) : Prop :=
  exists n, sol !! py "Note" = Some (VStr n).

(** What the ['InvoiceLines'] entry can hold when no line element of the
    walker's variant was met: the seeded empty list, or the text of a leaf
    of that very tag. *)
Definition no_lines (sol : pydict) : Prop :=
  sol !! py "InvoiceLines" = Some (VList [])
  \/ exists t, sol !! py "InvoiceLines" = Some (of_text t).

(** The embedded binary objects of a document reference: the children of
    tag [EmbeddedDocumentBinaryObject] of its children of tag
    [Attachment], in document order. *)
Definition embedded_objects (xml_element : Element) : list Element :=
  filter (fun child =>
            prettify_tag (ET.tag child) = py "EmbeddedDocumentBinaryObject")
    (concat (map ET.children
       (filter (fun elem => prettify_tag (ET.tag elem) = py "Attachment")
          (ET.children xml_element)))).

(** The UTF-8 octets of a stripped text, when the text is there and has
    an encoding. *)
Definition stripped_octets (t : option pystr) : option pybytes :=
  match t with
  | Some s => encode_utf8 (strip s)
  | None => None
  end.

(** ** Sample documents *)

Definition cbc : string :=
  "{urn:oasis:names:specification:ubl:schema:xsd:CommonBasicComponents-2}".
Definition cac : string :=
  "{urn:oasis:names:specification:ubl:schema:xsd:CommonAggregateComponents-2}".

(** [<cbc:name>text</cbc:name>] *)
Definition leaf (name text : string) : Element :=
  ET.mkElement (py (cbc ++ name)) ∅ (Some (py text)) [].

(** [<cbc:name/>], whose text is [None] *)
Definition empty_leaf (name : string) : Element :=
  ET.mkElement (py (cbc ++ name)) ∅ None [].

(** [<cbc:name k="v">text</cbc:name>] *)
Definition leaf_attr (name k v text : string) : Element :=
  ET.mkElement (py (cbc ++ name)) {[py k := py v]} (Some (py text)) [].

(** [<cac:name> children </cac:name>] *)
Definition node (name : string) (children : list Element) : Element :=
  ET.mkElement (py (cac ++ name)) ∅ None children.

(** The root element of an envelope. *)
Definition envelope (children : list Element) : Element :=
  ET.mkElement (py "{urn:oasis:names:specification:ubl:schema:xsd:Invoice-2}Invoice")
    ∅ None children.

Definition party (endpoint name : string) : Element :=
  node "Party" [leaf "EndpointID" endpoint;
                node "PartyName" [leaf "Name" name]].

(** An accumulator as [Run] leaves it for a document with two parties
    and a payment-means block whose [PaymentID] text is [pid]. *)
Definition sol_payment (pid : pyval) : pydict :=
  <[py "PaymentMeans" := VDict {[py "PaymentID" := pid]}]>
  (<[py "AccountingSupplierParty" := VDict ∅]>
  (<[py "AccountingCustomerParty" := VDict ∅]> sol_init)).

(** An invoice with both parties and one line whose quantity has no
    [unitCode]. *)
Definition doc_no_unit (v : variant) : Element :=
  envelope
    [node "AccountingSupplierParty" [party "1" "S"];
     node "AccountingCustomerParty" [party "2" "C"];
     ET.mkElement (py cac ++ line_tag_of v) ∅ None
       [leaf "ID" "1";
        ET.mkElement (py cbc ++ quantity_tag_of v) ∅ (Some (py "5")) []]].

(** Both parties and a payment-means block of payment id ["HR02 3"]. *)
Definition doc_payment : Element :=
  envelope
    [node "AccountingSupplierParty" [party "1" "S"];
     node "AccountingCustomerParty" [party "2" "C"];
     leaf "IssueDate" "2020-01-14";
     leaf "DueDate" "2020-02-14";
     node "PaymentMeans" [leaf "PaymentMeansCode" "42";
                          leaf "PaymentID" "HR02 3"]].

(** Two supplier blocks, then one customer block. *)
Definition doc_two_suppliers : Element :=
  envelope
    [node "AccountingSupplierParty" [party "1" "First"];
     leaf "ID" "7";
     node "AccountingSupplierParty" [party "2" "Second"];
     node "AccountingCustomerParty" [party "3" "Buyer"]].

(** A document with both parties and two notes of texts [a] and [b]. *)
Definition doc_notes (a b : pystr) : Element :=
  envelope
    [node "AccountingSupplierParty" [party "1" "S"];
     node "AccountingCustomerParty" [party "2" "C"];
     ET.mkElement (py (cbc ++ "Note")) ∅ (Some a) [];
     ET.mkElement (py (cbc ++ "Note")) ∅ (Some b) []].

(** Notes ["A"], none, ["B"], among other leaves. *)
Definition doc_notes_AB : Element :=
  envelope [leaf "Note" "A"; leaf "ID" "7"; empty_leaf "Note"; leaf "Note" "B"].

(** Both parties and one [InvoiceLine]. *)
Definition doc_mismatch : Element :=
  envelope
    [node "AccountingSupplierParty" [party "1" "S"];
     node "AccountingCustomerParty" [party "2" "C"];
     node "InvoiceLine"
       [leaf "ID" "1"; leaf_attr "InvoicedQuantity" "unitCode" "KOM" "5"]].

(** An invoice line whose item-level block holds the id only, and whose
    line-level block holds an id and a percent. *)
Definition line_merged : Element :=
  node "InvoiceLine"
    [leaf "ID" "1";
     node "Item" [leaf "Name" "n";
                  node "ClassifiedTaxCategory" [leaf "ID" "E"]];
     node "TaxTotal"
       [node "TaxSubtotal"
          [node "TaxCategory" [leaf "ID" "S"; leaf "Percent" "25"]]]].

Definition doc_merged : Element :=
  envelope
    [node "AccountingSupplierParty" [party "1" "S"];
     node "AccountingCustomerParty" [party "2" "C"];
     line_merged].

(** The dict of a line with item-level id ["E"] and percent ["0"], and
    line-level id ["S"] and percent ["25"]. *)
Definition line_dict_E0 : pydict :=
  <[py "Items" :=
      VDict {[py "ClassifiedTaxCategory" :=
                VDict (<[py "ID" := VStr (py "E")]>
                       {[py "Percent" := VStr (py "0")]})]}]>
  (<[py "TaxID" := VStr (py "S")]> {[py "TaxPercent" := VStr (py "25")]}).

(** A document reference whose embedded object holds whitespace only. *)
Definition ref_blank : Element :=
  node "AdditionalDocumentReference"
    [node "Attachment" [leaf "EmbeddedDocumentBinaryObject" "  "]].

(** A document reference with two embedded objects. *)
Definition ref_two : Element :=
  node "AdditionalDocumentReference"
    [node "Attachment" [leaf "EmbeddedDocumentBinaryObject" "AB=="];
     node "Attachment" [leaf "EmbeddedDocumentBinaryObject" "CD=="]].

(** The document reference of the example: the text ["AB==  \n"]. *)
Definition ref_AB : Element :=
  node "AdditionalDocumentReference"
    [leaf "ID" "1";
     node "Attachment"
       [ET.mkElement (py (cbc ++ "EmbeddedDocumentBinaryObject")) ∅
          (Some (py "AB==  " ++ [10])) []]].

(** ** Definitions used to state the further properties *)

(** The last element of tag [k] in a list of siblings. *)
Fixpoint last_tagged (k : pystr) (xs : list Element) : option Element :=
  match xs with
  | [] => None
  | x :: xs' =>
      match last_tagged k xs' with
      | Some y => Some y
      | None => if decide (prettify_tag (ET.tag x) = k) then Some x else None
      end
  end.

(** The text found by going down from the siblings [xs] through the last
    element of each tag of [path] to the last element of tag [k]; null
    when an element of the way is absent. *)
Fixpoint leaf_at (xs : list Element) (path : list pystr) (k : pystr) : pyval :=
  match path with
  | [] =>
      match last_tagged k xs with
      | Some c => of_text (ET.text c)
      | None => VNone
      end
  | p :: path' =>
      match last_tagged p xs with
      | Some c => leaf_at (ET.children c) path' k
      | None => VNone
      end
  end.

(** The children of the children of tag [k]. *)
Definition children_under (k : pystr) (xml_element : Element) : list Element :=
  concat (map ET.children
    (filter (fun elem => prettify_tag (ET.tag elem) = k)
       (ET.children xml_element))).

(** The value that [fields_with inner] stores for a child. *)
Definition fields_with_value (inner : pystr) (child : Element) : pyval :=
  if decide (prettify_tag (ET.tag child) = inner)
  then VDict (text_fields ∅ child)
  else of_text (ET.text child).

(** The value that [parseAccountingParty] stores for a child of a
    [Party] wrapper. *)
Definition party_value (sub_elem : Element) : pyval :=
  let sub_elem_tag := prettify_tag (ET.tag sub_elem) in
  if decide (sub_elem_tag ∈ [py "PartyIdentification"; py "PartyName";
                             py "PartyLegalEntity"; py "Contact"])
  then VDict (text_fields ∅ sub_elem)
  else if decide (sub_elem_tag = py "PostalAddress")
  then VDict (fields_with (py "Country") sub_elem)
  else if decide (sub_elem_tag = py "PartyTaxScheme")
  then VDict (fields_with (py "TaxScheme") sub_elem)
  else of_text (ET.text sub_elem).

(** The party record read off the children [pc] of the [Party] wrappers
    of a trading-party block. *)
Definition party_record (pc : list Element) : Party.t :=
  Party.mk
    (leaf_at pc [] (py "EndpointID"))
    (leaf_at pc [py "PartyIdentification"] (py "ID"))
    (leaf_at pc [py "PartyName"] (py "Name"))
    (leaf_at pc [py "PostalAddress"] (py "StreetName"))
    (leaf_at pc [py "PostalAddress"] (py "CityName"))
    (leaf_at pc [py "PostalAddress"] (py "PostalZone"))
    (leaf_at pc [py "PostalAddress"; py "Country"] (py "IdentificationCode"))
    (leaf_at pc [py "PartyTaxScheme"] (py "CompanyID"))
    (leaf_at pc [py "PartyTaxScheme"; py "TaxScheme"] (py "ID"))
    (leaf_at pc [py "PartyLegalEntity"] (py "RegistrationName"))
    (leaf_at pc [py "Contact"] (py "Telephone"))
    (leaf_at pc [py "Contact"] (py "ElectronicMail")).

(** The value that [Run] stores under the tag of a top-level element
    which is neither skipped, nor a line, a document reference or a note. *)
Definition top_value (elem : Element) : pyval :=
  let tag := prettify_tag (ET.tag elem) in
  if decide (tag = py "LegalMonetaryTotal") then parseLegalMonetaryTotal elem
  else if decide (tag = py "TaxTotal") then parseTaxTotal elem
  else if decide (tag = py "PaymentMeans") then parsePaymentMeans elem
  else if decide (tag = py "AccountingSupplierParty") then parseAccountingParty elem
  else if decide (tag = py "AccountingCustomerParty") then parseAccountingParty elem
  else if decide (tag = py "InvoicePeriod") then parseInvoicePeriod elem
  else of_text (ET.text elem).

(** The top-level tags whose turn of the loop does not store a value
    under the tag itself. *)
Definition special_tags (v : variant) : list pystr :=
  [py "UBLExtensions"; line_tag_of v; py "AdditionalDocumentReference";
   py "Note"].

(** A dict with one entry per child tag: the child of tag [inner] gives
    the dict [sub] of its own children, every other child its text. *)
Definition nest_value (inner : pystr) (sub : Element -> pydict)
    (child : Element) : pyval :=
  if decide (prettify_tag (ET.tag child) = inner)
  then VDict (sub child)
  else of_text (ET.text child).

Definition nest_dict (inner : pystr) (sub : Element -> pydict)
    (elem : Element) : pydict :=
  fold_left
    (fun d child => <[prettify_tag (ET.tag child) := nest_value inner sub child]> d)
    (ET.children elem) ∅.

(** What [_parse_payment_id] returns for a text or null. *)
Definition payment_split (raw : pyval) : pyval * pyval :=
  match raw with
  | VStr s => (VStr (take 4 s), VStr (lstrip (drop 4 s)))
  | _ => (VNone, VNone)
  end.

(** The tag of the top-level leaf that the header's due date is read
    from. *)
Definition due_date_tag (v : variant) : pystr :=
  match v with
  | Invoice => py "DueDate"
  | CreditNote => py "IssueDate"
  end.

(** The header read off the top-level children [xs] of a document. *)
Definition header_record (v : variant) (xs : list Element) : Header.t :=
  let raw := leaf_at xs [py "PaymentMeans"] (py "PaymentID") in
  Header.mk
    (leaf_at xs [] (py "InvoiceDocumentReference"))
    (leaf_at xs [] (py "TaxCurrencyCode"))
    (leaf_at xs [] (due_date_tag v))
    (leaf_at xs [] (py "CustomizationID"))
    (leaf_at xs [] (py "ID"))
    (leaf_at xs [py "TaxTotal"] (py "TaxAmount"))
    (leaf_at xs [py "TaxTotal"; py "TaxSubtotal"; py "TaxCategory"] (py "Percent"))
    (leaf_at xs [py "TaxTotal"; py "TaxSubtotal"; py "TaxCategory"]
       (py "TaxExemptionReason"))
    (leaf_at xs [py "TaxTotal"; py "TaxSubtotal"] (py "TaxableAmount"))
    (leaf_at xs [py "PaymentMeans"; py "PayeeFinancialAccount"] (py "ID"))
    (leaf_at xs [py "PaymentMeans"] (py "InstructionNote"))
    (leaf_at xs [py "PaymentMeans"] (py "PaymentMeansCode"))
    raw
    (leaf_at xs [py "LegalMonetaryTotal"] (py "PayableAmount"))
    (payment_split raw).1 (payment_split raw).2.

(** The quantity and amount children of a line carry the attribute that
    [parseInvoiceLine] indexes. *)
Definition line_child_ok (v : variant) (child : Element) : Prop :=
  (prettify_tag (ET.tag child) = quantity_tag_of v ->
   is_Some (ET.attrib child !! py "unitCode"))
  /\ (prettify_tag (ET.tag child) = py "LineExtensionAmount" ->
      is_Some (ET.attrib child !! py "currencyID")).

#[global] Instance line_child_ok_dec (v : variant) (child : Element) :
  Decision (line_child_ok v child).
Proof. unfold line_child_ok. apply _. Defined.

(** The top-level tags of which the output keeps a trace: the keys that
    the projectors read, the line tag, and the tags of the document
    reference and of the notes. *)
Definition traced_tags (v : variant) : list pystr :=
  read_keys ++ [line_tag_of v; py "AdditionalDocumentReference"; py "Note"].

(** The keys of a line dict that [_flatten_invoice_lines] reads. *)
Definition line_read_keys : list pystr :=
  [py "Items"; py "TaxID"; py "TaxPercent"; py "TaxExemptionReason";
   py "ID"; py "InvoicedQuantity"; py "LineExtensionAmount"; py "Price"].

(** The line elements of a document, in document order. *)
Definition line_elements (v : variant) (xml_root : Element) : list Element :=
  filter (fun elem => prettify_tag (ET.tag elem) = line_tag_of v)
    (ET.children xml_root).

(** What a line dict holds under the tag of a [Price] block or of a
    leaf. *)
Definition line_value (child : Element) : pyval :=
  if decide (prettify_tag (ET.tag child) = py "Price")
  then VDict (text_fields ∅ child)
  else of_text (ET.text child).

(** In a credit-note line, no child has the tag [InvoicedQuantity], the
    key under which the credited quantity is stored. *)
Definition quantity_unshadowed (v : variant) (child : Element) : Prop :=
  v = CreditNote -> prettify_tag (ET.tag child) <> py "InvoicedQuantity".

(** An [Item] block without a [SellersItemIdentification] child, whose
    children the item handler would store among the item's own. *)
Definition plain_item (item : Element) : Prop :=
  Forall (fun sub => prettify_tag (ET.tag sub) <> py "SellersItemIdentification")
    (ET.children item).

(** The text of the leaf [k] of the tax category of the item of a line
    with children [xs]. *)
Definition item_tax_leaf (xs : list Element) (k : pystr) : pyval :=
  leaf_at xs [py "Item"; py "ClassifiedTaxCategory"] k.

(** A document with both parties and two document references, the second
    of which holds whitespace only. *)
Definition doc_two_refs : Element :=
  envelope
    [node "AccountingSupplierParty" [party "1" "S"];
     ref_AB;
     node "AccountingCustomerParty" [party "2" "C"];
     ref_blank].

(** An [Item] block in which no [SellersItemIdentification] child has a
    child of tag [ClassifiedTaxCategory], whose text would take the place
    of the tax category dict of the item. *)
Definition item_ok (item : Element) : Prop :=
  Forall
    (fun sub =>
       prettify_tag (ET.tag sub) = py "SellersItemIdentification" ->
       Forall (fun g => prettify_tag (ET.tag g) <> py "ClassifiedTaxCategory")
         (ET.children sub))
    (ET.children item).

(** A line element that [parseInvoiceLine] of the variant accepts and
    whose dict [_flatten_invoice_lines] can read. *)
Definition line_ok (v : variant) (line : Element) : Prop :=
  Forall
    (fun child =>
       line_child_ok v child
       /\ prettify_tag (ET.tag child) <> py "Items"
       /\ (prettify_tag (ET.tag child) = py "Item" -> item_ok child))
    (ET.children line).

(** A top-level element that the loop of [Run] accepts. *)
Definition top_ok (v : variant) (elem : Element) : Prop :=
  prettify_tag (ET.tag elem) <> py "InvoiceLines"
  /\ (prettify_tag (ET.tag elem) = line_tag_of v -> line_ok v elem)
  /\ (prettify_tag (ET.tag elem) = py "AdditionalDocumentReference" ->
      Forall (fun child => is_Some (stripped_octets (ET.text child)))
        (embedded_objects elem)).

(** A line whose quantity and amount carry their attribute. *)
Definition line_units : Element :=
  node "InvoiceLine"
    [leaf "ID" "1";
     leaf_attr "InvoicedQuantity" "unitCode" "KOM" "5";
     leaf_attr "LineExtensionAmount" "currencyID" "HRK" "10"].

(** A line whose amount has no [currencyID]. *)
Definition line_no_currency : Element :=
  node "InvoiceLine"
    [leaf_attr "InvoicedQuantity" "unitCode" "KOM" "5";
     leaf "LineExtensionAmount" "10"].

(** A document with an extensions block, an invoice period and an
    unknown leaf between its parties. *)
Definition doc_period : Element :=
  envelope
    [node "UBLExtensions" [leaf "ExtensionContent" "x"];
     node "AccountingSupplierParty" [party "1" "S"];
     node "InvoicePeriod" [leaf "StartDate" "2020-01-01";
                           leaf "EndDate" "2020-01-31"];
     node "AccountingCustomerParty" [party "2" "C"];
     leaf "DueDate" "2020-02-14"].

(** The elements reached from the siblings [xs] through every element of
    each tag of [path] down to the elements of tag [k], in document
    order. *)
Fixpoint all_at (xs : list Element) (path : list pystr) (k : pystr)
  : list Element :=
  match path with
  | [] => filter (fun c => prettify_tag (ET.tag c) = k) xs
  | p :: path' =>
      all_at
        (concat (map ET.children
           (filter (fun c => prettify_tag (ET.tag c) = p) xs)))
        path' k
  end.

(** Whether [parseInvoiceLine] of the variant has a branch for the
    [TaxTotal] block of a line: the override for credit notes has none. *)
Definition reads_line_tax (v : variant) : bool :=
  match v with
  | Invoice => true
  | CreditNote => false
  end.

(** The elements of a line with children [xs] that give its line-level
    value for the tax field of leaf tag [key] and of line key [K], in
    document order: the [key] leaves of every tax category of every tax
    subtotal of the [TaxTotal] children, where the variant reads them,
    and the children of tag [K] themselves. *)
Definition line_tax_writers (v : variant) (key K : pystr) (xs : list Element)
  : list Element :=
  flat_map
    (fun c =>
       if decide (prettify_tag (ET.tag c) = py "TaxTotal") then
         if reads_line_tax v
         then all_at (ET.children c) [py "TaxSubtotal"; py "TaxCategory"] key
         else []
       else if decide (prettify_tag (ET.tag c) = K) then [c]
       else [])
    xs.

(** The line-level value: the text of the last of these elements, null
    when there is none. *)
Definition line_tax (v : variant) (key K : pystr) (xs : list Element) : pyval :=
  match last (line_tax_writers v key K xs) with
  | Some l => of_text (ET.text l)
  | None => VNone
  end.

(** One tax field of a line record from its item-level and line-level
    values: the item-level value when it is a non-empty text, the
    line-level value otherwise. *)
Definition tax_choice (item line : pyval) : pyval :=
  if truthy item then item else line.

(** The pairs of a leaf tag of a tax category and of the key under which
    the line handler stores its text. *)
Definition tax_keys : list (pystr * pystr) :=
  [(py "ID", py "TaxID"); (py "Percent", py "TaxPercent");
   (py "TaxExemptionReason", py "TaxExemptionReason")].

(** What the turns of a line loop write under ['Items']. *)
Definition items_writes (c : Element) : list pyval :=
  if decide (prettify_tag (ET.tag c) = py "Item") then [_parseInvoiceLineItem c]
  else if decide (prettify_tag (ET.tag c) = py "Items") then [of_text (ET.text c)]
  else [].

(** What the turns of the item loop write under
    ['ClassifiedTaxCategory']. *)
Definition category_writes (sub : Element) : list pyval :=
  if decide (prettify_tag (ET.tag sub) = py "SellersItemIdentification") then
    map (fun c => of_text (ET.text c))
      (filter (fun c => prettify_tag (ET.tag c) = py "ClassifiedTaxCategory")
         (ET.children sub))
  else if decide (prettify_tag (ET.tag sub) = py "ClassifiedTaxCategory") then
    [VDict (fields_with (py "TaxScheme") sub)]
  else [].

(** The line of the example: an item-level block with id ["E"] and
    percent ["0"], and a line-level block with other values. *)
Definition line_E0 : Element :=
  node "InvoiceLine"
    [node "Item" [node "ClassifiedTaxCategory"
                    [leaf "ID" "E"; leaf "Percent" "0"]];
     node "TaxTotal"
       [node "TaxSubtotal"
          [node "TaxCategory" [leaf "ID" "S"; leaf "Percent" "25"]]]].

(** A line without an item-level block, with two line-level blocks. *)
Definition line_two_totals : Element :=
  node "InvoiceLine"
    [node "Item" [leaf "Name" "n"];
     node "TaxTotal"
       [node "TaxSubtotal"
          [node "TaxCategory" [leaf "ID" "S"; leaf "Percent" "25"]]];
     node "TaxTotal"
       [node "TaxSubtotal" [node "TaxCategory" [leaf "Percent" "13"]]]].

(** * Properties *)

(** ** The error monad *)

Lemma bind_Ok {A B} (m : outcome A) (k : A -> outcome B) (b : B) :
  m ≫= k = Ok b -> exists a, m = Ok a /\ k a = Ok b.
Proof. destruct m as [a|e]; [|discriminate]. intros H. by exists a. Qed.

(** Splits a successful run of binds into its steps. *)
Ltac binds H :=
  repeat (let x := fresh "v" in
          let Hx := fresh "Hv" in
          apply bind_Ok in H as (x & Hx & H)).

Lemma Run_of_unfold (v : variant) (xml_root : Element) :
  Run_of v xml_root =
  walk (line_tag_of v) (parseInvoiceLine_of v) xml_root ≫= post_process_of v.
Proof. destruct v; reflexivity. Qed.

(** ** Strings *)

Lemma lstrip_split (s : pystr) :
  exists ws, s = ws ++ lstrip s /\ forallb isspace ws = true.
Proof.
  induction s as [|c s IH]; simpl.
  - exists []. split; reflexivity.
  - destruct (isspace c) eqn:Hc.
    + destruct IH as (ws & Hs & Hws). exists (c :: ws). simpl.
      rewrite Hc, Hws. split; [f_equal; exact Hs | reflexivity].
    + exists []. split; reflexivity.
Qed.

Lemma lstrip_head (s : pystr) c r : lstrip s = c :: r -> isspace c = false.
Proof.
  induction s as [|a s IH]; simpl; [discriminate|].
  destruct (isspace a) eqn:Ha; [exact IH|].
  intros [= -> _]. exact Ha.
Qed.

Lemma startswith_cons a p b s :
  startswith (a :: p) (b :: s) = (a =? b) && startswith p s.
Proof. reflexivity. Qed.

Lemma startswith_app p t : startswith p (p ++ t) = true.
Proof.
  induction p as [|b p IHp]; [reflexivity|].
  rewrite <- app_comm_cons, startswith_cons, N.eqb_refl. exact IHp.
Qed.

Lemma replace_from_skip old k s :
  replace_from old k s = replace_from old O (drop k s).
Proof.
  revert s. induction k as [|k IH]; intros [|c s]; simpl; try reflexivity.
  apply IH.
Qed.

(** The two equations of [str.replace(old, '')]. *)
Lemma replace_del_match old s :
  old <> [] -> replace_del old (old ++ s) = replace_del old s.
Proof.
  intros Hold. destruct old as [|a old]; [congruence|]. unfold replace_del.
  rewrite <- app_comm_cons. cbn [replace_from].
  rewrite (app_comm_cons old s a), startswith_app, replace_from_skip.
  cbn [length Nat.pred]. rewrite drop_app_length. reflexivity.
Qed.

Lemma replace_del_skip old c s :
  startswith old (c :: s) = false ->
  replace_del old (c :: s) = c :: replace_del old s.
Proof. unfold replace_del. simpl replace_from. intros ->. reflexivity. Qed.

Lemma braces_cons c s :
  braces (c :: s) = if decide (c = lbrace) then S (braces s) else braces s.
Proof.
  unfold braces. rewrite filter_cons.
  repeat case_decide; done.
Qed.

Lemma braces_drop k s : (braces (drop k s) <= braces s)%nat.
Proof.
  revert s. induction k as [|k IH]; intros [|c s]; simpl; try lia.
  rewrite braces_cons. specialize (IH s). case_decide; lia.
Qed.

Lemma replace_del_no_brace p s :
  braces s = O -> replace_del (lbrace :: p) s = s.
Proof.
  induction s as [|c s IH]; [reflexivity|].
  rewrite braces_cons. case_decide as Hc; [discriminate|]. intros Hs.
  rewrite replace_del_skip, IH; [reflexivity | exact Hs |].
  rewrite startswith_cons. destruct (N.eqb_spec lbrace c) as [<-|]; [done | reflexivity].
Qed.

Lemma replace_del_one_brace p s :
  (braces s <= 1)%nat ->
  replace_del (lbrace :: p) s = s \/ braces (replace_del (lbrace :: p) s) = O.
Proof.
  induction s as [|c s IH]; [by left|].
  rewrite braces_cons. intros Hs.
  destruct (startswith (lbrace :: p) (c :: s)) eqn:Hm.
  - right.
    assert (c = lbrace) as ->.
    { rewrite startswith_cons in Hm.
      destruct (N.eqb_spec lbrace c); [done | discriminate]. }
    rewrite decide_True in Hs by done.
    unfold replace_del. cbn [replace_from]. rewrite Hm, replace_from_skip.
    assert (Hd : braces (drop (Nat.pred (length (lbrace :: p))) s) = O).
    { pose proof (braces_drop (Nat.pred (length (lbrace :: p))) s) as Hd.
      revert Hd. generalize (braces (drop (Nat.pred (length (lbrace :: p))) s)).
      intros n Hn. lia. }
    change (replace_from ?o O ?u) with (replace_del o u).
    rewrite replace_del_no_brace; exact Hd.
  - rewrite replace_del_skip by exact Hm. case_decide as Hc.
    + left. rewrite replace_del_no_brace; [reflexivity | lia].
    + destruct (IH Hs) as [-> | H0]; [by left | right].
      rewrite braces_cons, decide_False; done.
Qed.

Lemma strip_all_no_brace nss t :
  Forall (fun ns => exists p, ns = lbrace :: p) nss ->
  braces t = O -> strip_all nss t = t.
Proof.
  intros Hnss. revert t.
  induction Hnss as [|ns l [p ->] _ IH]; intros t Ht; [reflexivity|].
  cbn [strip_all fold_left]. rewrite replace_del_no_brace by exact Ht.
  by apply IH.
Qed.

Lemma strip_all_one_brace nss t :
  Forall (fun ns => exists p, ns = lbrace :: p) nss ->
  (braces t <= 1)%nat ->
  strip_all nss t = t \/ braces (strip_all nss t) = O.
Proof.
  intros Hnss. revert t.
  induction Hnss as [|ns l [p ->] Hl IH]; intros t Ht; [by left|].
  cbn [strip_all fold_left].
  destruct (replace_del_one_brace p t Ht) as [-> | H0].
  - by apply IH.
  - right. change (fold_left _ l ?u) with (strip_all l u).
    by rewrite strip_all_no_brace.
Qed.

Lemma ns_filter_brace : Forall (fun ns => exists p, ns = lbrace :: p) ns_filter.
Proof. repeat constructor; eexists; vm_compute; reflexivity. Qed.

(** ** Tag normalizer *)

(** C4, as the claim states it, fails: stripping a tag in which one known
    prefix is nested inside another occurrence leaves a known prefix, which
    a second stripping removes. *)
Lemma C4_prettify_tag_not_idempotent :
  prettify_tag (prettify_tag nested_tag) <> prettify_tag nested_tag.
Proof. vm_compute. discriminate. Qed.

(** C4 (amended): on every tag with at most one [{], as an element tree
    gives them (one [{uri}] prefix before the local name), stripping twice
    equals stripping once. *)
Theorem C4_prettify_tag_idempotent (t : pystr) :
  (braces t <= 1)%nat ->
  prettify_tag (prettify_tag t) = prettify_tag t.
Proof.
  intros Ht. change prettify_tag with (strip_all ns_filter).
  destruct (strip_all_one_brace ns_filter t ns_filter_brace Ht) as [Heq | H0].
  - rewrite Heq. exact Heq.
  - by apply strip_all_no_brace; [apply ns_filter_brace|].
Qed.

Lemma C4_prettify_tag_idempotent_witness :
  (braces (py (cbc ++ "Note")) <= 1)%nat
  /\ prettify_tag (prettify_tag (py (cbc ++ "Note"))) = py "Note".
Proof.
  split; [vm_compute; lia|].
  rewrite (C4_prettify_tag_idempotent (py (cbc ++ "Note"))).
  - vm_compute. reflexivity.
  - vm_compute. lia.
Defined.

(** ** Payment id *)

Lemma post_process_header (result : pydict) (out : ParsedDocument) :
  InvoiceParser._post_process_result_dict result = Ok out ->
  header_fields result = Ok (invoice_header out).
Proof.
  unfold InvoiceParser._post_process_result_dict.
  destruct (party_fields result (py "AccountingSupplierParty")); [|discriminate].
  destruct (party_fields result (py "AccountingCustomerParty")); [|discriminate].
  destruct (header_fields result) as [h|]; [|discriminate].
  cbn. destruct (_flatten_invoice_lines result); [|discriminate].
  cbn. intros [= <-]. reflexivity.
Qed.

Lemma post_process_of_header (v : variant) (result : pydict) out :
  post_process_of v result = Ok out ->
  exists h, header_fields result = Ok h
    /\ Header.payment_id (invoice_header out) = Header.payment_id h
    /\ Header.payment_model (invoice_header out) = Header.payment_model h
    /\ Header.payment_reference (invoice_header out) = Header.payment_reference h.
Proof.
  destruct v; cbn [post_process_of].
  - intros H%post_process_header. eauto.
  - unfold CreditNoteParser._post_process_result_dict. intros H. binds H.
    injection H as <-. apply post_process_header in Hv. eauto.
Qed.

Lemma header_fields_payment (result : pydict) (h : Header.t) :
  header_fields result = Ok h ->
  chain (VDict result) [py "PaymentMeans"] (py "PaymentID")
  = Ok (Header.payment_id h)
  /\ _parse_payment_id (Header.payment_id h)
     = Ok (Header.payment_model h, Header.payment_reference h).
Proof.
  unfold header_fields. intros H.
  apply bind_Ok in H as (raw & Hraw & H).
  apply bind_Ok in H as ([pm pr] & Hpm & H).
  binds H. injection H as <-. cbn.
  match goal with
  | H2 : chain _ [py "PaymentMeans"] (py "PaymentID") = Ok _ |- _ =>
      rewrite Hraw in H2; injection H2 as <-
  end.
  split; [exact Hraw | exact Hpm].
Qed.

(** C5: in every projected document of either variant, the raw payment id
    is what the accumulator holds under [PaymentMeans], [PaymentID] (null
    when absent), and the header carries it; when it is a string [s], the
    payment model is [s[0:4]] and the payment reference is [s[4:]] without
    its leading whitespace (the rest of [s] is some whitespace followed by
    the reference, which does not start with whitespace); when it is
    null, the model and the reference are null. *)
Theorem C5_payment_id_split (v : variant) (result : pydict) (out : ParsedDocument) :
  post_process_of v result = Ok out ->
  let h := invoice_header out in
  exists raw,
    chain (VDict result) [py "PaymentMeans"] (py "PaymentID") = Ok raw
    /\ Header.payment_id h = raw
    /\ (forall s, raw = VStr s ->
          Header.payment_model h = VStr (take 4 s)
          /\ exists ws ref,
               Header.payment_reference h = VStr ref
               /\ drop 4 s = ws ++ ref
               /\ forallb isspace ws = true
               /\ (forall c r, ref = c :: r -> isspace c = false))
    /\ (raw = VNone ->
        Header.payment_model h = VNone /\ Header.payment_reference h = VNone).
Proof.
  intros Hout h.
  destruct (post_process_of_header v result out Hout) as (h' & Hh' & Hid & Hm & Hr).
  apply header_fields_payment in Hh' as [Hraw Hsplit].
  subst h. rewrite Hid, Hm, Hr.
  exists (Header.payment_id h'). split; [exact Hraw|]. split; [reflexivity|].
  split.
  - intros s Hs. rewrite Hs in Hsplit. cbn in Hsplit.
    injection Hsplit as <- <-. split; [reflexivity|].
    destruct (lstrip_split (drop 4 s)) as (ws & Hws & Hspace).
    exists ws, (lstrip (drop 4 s)). repeat split; try done.
    intros c r. apply lstrip_head.
  - intros Hn. rewrite Hn in Hsplit. cbn in Hsplit. by injection Hsplit as <- <-.
Qed.

Lemma C5_payment_id_split_witness :
  exists out,
    post_process_of Invoice (sol_payment (VStr (py "HR02 3"))) = Ok out
    /\ Header.payment_id (invoice_header out) = VStr (py "HR02 3")
    /\ Header.payment_model (invoice_header out) = VStr (py "HR02")
    /\ Header.payment_reference (invoice_header out) = VStr (py "3").
Proof.
  eexists. split; [vm_compute; reflexivity|].
  destruct (C5_payment_id_split Invoice (sol_payment (VStr (py "HR02 3"))) _
              ltac:(vm_compute; reflexivity)) as (raw & Hraw & Hid & Hs & _).
  assert (Hr : raw = VStr (py "HR02 3"))
    by (vm_compute in Hraw; by injection Hraw as <-).
  destruct (Hs (py "HR02 3") Hr) as (Hm & ws & ref & Href & _).
  split; [by rewrite Hid|]. split; [exact Hm|]. vm_compute. reflexivity.
Defined.

Example Run_payment :
  exists out,
    CreditNoteParser.Run doc_payment = Ok out
    /\ Header.payment_id (invoice_header out) = VStr (py "HR02 3")
    /\ Header.payment_model (invoice_header out) = VStr (py "HR02")
    /\ Header.payment_reference (invoice_header out) = VStr (py "3")
    /\ Header.due_date (invoice_header out) = VStr (py "2020-01-14").
Proof. eexists. split; [vm_compute; reflexivity|]. by vm_compute. Qed.

(** C10: a string of fewer than 4 characters is split into itself, as the
    payment model, and the empty string (not null), as the payment
    reference; so in every projected document of either variant whose
    accumulator holds such a string under [PaymentMeans], [PaymentID], the
    header carries that string as payment id and as payment model, and
    the empty string as payment reference. *)
Theorem C10_short_payment_id (v : variant) (result : pydict) (out : ParsedDocument)
    (s : pystr) :
  (length s < 4)%nat ->
  _parse_payment_id (VStr s) = Ok (VStr s, VStr [])
  /\ (post_process_of v result = Ok out ->
      chain (VDict result) [py "PaymentMeans"] (py "PaymentID") = Ok (VStr s) ->
      Header.payment_id (invoice_header out) = VStr s
      /\ Header.payment_model (invoice_header out) = VStr s
      /\ Header.payment_reference (invoice_header out) = VStr []).
Proof.
  intros Hlen.
  assert (Hsplit : _parse_payment_id (VStr s) = Ok (VStr s, VStr [])).
  { cbn. by rewrite take_ge, drop_ge by lia. }
  split; [exact Hsplit|]. intros Hout Hraw.
  destruct (post_process_of_header v result out Hout) as (h' & Hh' & Hid & Hm & Hr).
  apply header_fields_payment in Hh' as [Hraw' Hsplit'].
  rewrite Hraw in Hraw'. injection Hraw' as Hs. rewrite <- Hs in Hsplit'.
  rewrite Hsplit in Hsplit'. injection Hsplit' as Hm' Hr'.
  rewrite Hid, Hm, Hr, <- Hs, <- Hm', <- Hr'. done.
Qed.

Lemma C10_short_payment_id_witness :
  exists out,
    post_process_of CreditNote (sol_payment (VStr (py "HR0"))) = Ok out
    /\ Header.payment_id (invoice_header out) = VStr (py "HR0")
    /\ Header.payment_model (invoice_header out) = VStr (py "HR0")
    /\ Header.payment_reference (invoice_header out) = VStr [].
Proof.
  eexists. split; [vm_compute; reflexivity|].
  apply (C10_short_payment_id CreditNote (sol_payment (VStr (py "HR0")))).
  - vm_compute. lia.
  - vm_compute. reflexivity.
  - vm_compute. reflexivity.
Defined.

(** ** Loops *)

Lemma for_each_app {A S} (body : S -> A -> outcome S) xs ys s :
  for_each body (xs ++ ys) s = for_each body xs s ≫= for_each body ys.
Proof.
  revert s. induction xs as [|x xs IH]; intros s; [reflexivity|].
  cbn [for_each app]. destruct (body s x) as [s'|e]; [apply IH | reflexivity].
Qed.

(** A turn that raises from every state aborts the loop. *)
Lemma for_each_raise {A S} (body : S -> A -> outcome S) xs x :
  x ∈ xs -> (forall s, exists e, body s x = Raise e) ->
  forall s, exists e, for_each body xs s = Raise e.
Proof.
  intros Hin Hx. induction Hin as [x xs | x y xs _ IH]; intros s; cbn [for_each].
  - destruct (Hx s) as [e ->]. by exists e.
  - destruct (body s y) as [s'|e]; [apply IH, Hx | by exists e].
Qed.

(** Closes a goal that two distinct literals are equal, or not. *)
Ltac py_neq :=
  match goal with
  | |- _ <> _ => let H := fresh in intros H; py_neq
  | H : ?a = py ?x, H' : ?a = py ?y |- _ =>
      rewrite H in H'; vm_compute in H'; discriminate H'
  | H : ?a = py ?x, H' : ?a <> py ?x |- _ => destruct (H' H)
  | H : py ?x = py ?y |- _ => vm_compute in H; discriminate H
  | H : ?a = ?b, H' : ?a <> ?b |- _ => destruct (H' H)
  | H : ?a = ?b, H' : ?b <> ?a |- _ => destruct (H' (eq_sym H))
  | H : _ = _ |- _ => vm_compute in H; discriminate H
  end.

(** ** The walker's accumulator *)

Section WalkerFacts.

Variable line_tag : pystr.
Variable parseInvoiceLine : Element -> outcome pyval.

Local Abbreviation step := (Run_step line_tag parseInvoiceLine).

(** A turn of the loop writes at most one key: the element's own tag,
    ['InvoiceLines'] or ['PdfDocument']. *)
Lemma Run_step_frame sol elem sol' k :
  step sol elem = Ok sol' ->
  k <> prettify_tag (ET.tag elem) ->
  k <> py "InvoiceLines" -> k <> py "PdfDocument" ->
  sol' !! k = sol !! k.
Proof.
  unfold Run_step. intros H Hk Hl Hp.
  repeat case_decide;
    try (injection H as <-; first [reflexivity | apply lookup_insert_ne; congruence]).
  - destruct (getitem sol (py "InvoiceLines")); try discriminate.
    binds H. injection H as <-. by apply lookup_insert_ne.
  - binds H. injection H as <-. by apply lookup_insert_ne.
  - unfold add_note in H. destruct (ET.text elem); [|by injection H as <-].
    destruct (negb _).
    + injection H as <-. apply lookup_insert_ne; congruence.
    + binds H. injection H as <-. apply lookup_insert_ne; congruence.
Qed.

Lemma walk_frame xs sol sol' k :
  for_each step xs sol = Ok sol' ->
  Forall (fun elem => prettify_tag (ET.tag elem) <> k) xs ->
  k <> py "InvoiceLines" -> k <> py "PdfDocument" ->
  sol' !! k = sol !! k.
Proof.
  intros H Hxs Hl Hp. revert sol H.
  induction Hxs as [|x xs Hx _ IH]; intros sol H; cbn [for_each] in H.
  - by injection H as <-.
  - apply bind_Ok in H as (s1 & H1 & H). rewrite (IH _ H).
    eapply Run_step_frame; eauto.
Qed.

End WalkerFacts.

(** ** Absent trading party *)

Lemma party_fields_not_dict (result : pydict) (slot : pystr) l :
  result !! slot = Some (VList l) ->
  party_fields result slot = Raise AttributeError.
Proof. intros H. unfold party_fields. cbn. rewrite H. reflexivity. Qed.

Lemma post_process_of_raise (v : variant) (result : pydict) (slot : pystr) l :
  slot = py "AccountingSupplierParty" \/ slot = py "AccountingCustomerParty" ->
  result !! slot = Some (VList l) ->
  exists e, post_process_of v result = Raise e.
Proof.
  intros Hslot H.
  assert (exists e, InvoiceParser._post_process_result_dict result = Raise e)
    as [e He].
  { unfold InvoiceParser._post_process_result_dict.
    destruct Hslot as [-> | ->].
    - rewrite (party_fields_not_dict _ _ _ H). by eexists.
    - destruct (party_fields result (py "AccountingSupplierParty"));
        [|by eexists].
      rewrite (party_fields_not_dict _ _ _ H). by eexists. }
  exists e. destruct v; cbn [post_process_of]; [exact He|].
  unfold CreditNoteParser._post_process_result_dict. by rewrite He.
Qed.

(** C1 (the code departs from the claim): a document without an
    [AccountingSupplierParty] child, or without an [AccountingCustomerParty]
    child, is never parsed: [Run] of either class raises, because the slot
    still holds the list [[]] that [Run] seeded it with, and a list has no
    [get]. *)
Theorem C1_absent_party_raises (v : variant) (xml_root : Element) (slot : pystr) :
  slot = py "AccountingSupplierParty" \/ slot = py "AccountingCustomerParty" ->
  Forall (fun elem => prettify_tag (ET.tag elem) <> slot) (ET.children xml_root) ->
  exists e, Run_of v xml_root = Raise e.
Proof.
  intros Hslot Hno. rewrite Run_of_unfold. unfold walk.
  destruct (for_each _ _ sol_init) as [sol|e] eqn:Hwalk; [|by exists e].
  cbn. apply (post_process_of_raise v sol slot []); [exact Hslot|].
  rewrite (walk_frame _ _ _ _ _ _ Hwalk Hno).
  - destruct Hslot as [-> | ->]; vm_compute; reflexivity.
  - destruct Hslot as [-> | ->]; py_neq.
  - destruct Hslot as [-> | ->]; py_neq.
Qed.

Lemma C1_absent_party_raises_witness :
  exists e, Run_of Invoice (envelope [leaf "ID" "1"]) = Raise e.
Proof.
  apply (C1_absent_party_raises Invoice (envelope [leaf "ID" "1"])
           (py "AccountingSupplierParty")).
  - left. reflexivity.
  - repeat constructor. vm_compute. discriminate.
Defined.

Example Run_empty_envelope :
  InvoiceParser.Run (envelope []) = Raise AttributeError
  /\ CreditNoteParser.Run (envelope []) = Raise AttributeError.
Proof. split; vm_compute; reflexivity. Qed.

(** ** Quantity without a unit code *)

Lemma store_attrib_missing child k d :
  ET.attrib child !! k = None -> store_attrib child k d = Raise KeyError.
Proof. unfold store_attrib. intros ->. reflexivity. Qed.

Lemma parseInvoiceLine_of_raise (v : variant) (line q : Element) :
  q ∈ ET.children line ->
  prettify_tag (ET.tag q) = quantity_tag_of v ->
  ET.attrib q !! py "unitCode" = None ->
  exists e, parseInvoiceLine_of v line = Raise e.
Proof.
  intros Hin Htag Hattr.
  destruct v; cbn [parseInvoiceLine_of quantity_tag_of] in *;
    [unfold InvoiceParser.parseInvoiceLine
    |unfold CreditNoteParser.parseInvoiceLine].
  all: match goal with
       | |- exists e, for_each ?body _ ?s0 ≫= _ = _ =>
           assert (Hb : forall d, exists e, body d q = Raise e);
           [|destruct (for_each_raise body _ q Hin Hb s0) as [e He];
             rewrite He; by exists e]
       end.
  all: intros d; cbn beta zeta; rewrite Htag.
  all: rewrite !decide_False by py_neq; rewrite decide_True by reflexivity.
  all: rewrite store_attrib_missing by exact Hattr; by eexists.
Qed.

(** C6: a document with a line element of the walker's variant, one of
    whose children is the variant's quantity element without a [unitCode]
    attribute, is not parsed: [Run] raises and returns no document. *)
Theorem C6_quantity_without_unit_raises (v : variant)
    (xml_root line q : Element) :
  line ∈ ET.children xml_root ->
  prettify_tag (ET.tag line) = line_tag_of v ->
  q ∈ ET.children line ->
  prettify_tag (ET.tag q) = quantity_tag_of v ->
  ET.attrib q !! py "unitCode" = None ->
  exists e, Run_of v xml_root = Raise e.
Proof.
  intros Hline Hltag Hq Hqtag Hattr. rewrite Run_of_unfold. unfold walk.
  assert (Hb : forall sol, exists e,
             Run_step (line_tag_of v) (parseInvoiceLine_of v) sol line = Raise e).
  { intros sol. unfold Run_step. rewrite Hltag.
    rewrite decide_False by (destruct v; py_neq).
    rewrite decide_True by reflexivity.
    destruct (getitem sol (py "InvoiceLines")); try by eexists.
    destruct (parseInvoiceLine_of_raise v line q Hq Hqtag Hattr) as [e ->].
    by exists e. }
  destruct (for_each_raise _ _ line Hline Hb sol_init) as [e He].
  rewrite He. by exists e.
Qed.

Lemma C6_quantity_without_unit_raises_witness :
  exists e, Run_of CreditNote (doc_no_unit CreditNote) = Raise e.
Proof.
  eapply (C6_quantity_without_unit_raises CreditNote (doc_no_unit CreditNote)).
  - cbn [doc_no_unit envelope ET.children]. do 2 apply list_elem_of_further.
    apply list_elem_of_here.
  - vm_compute. reflexivity.
  - cbn [ET.children]. apply list_elem_of_further, list_elem_of_here.
  - vm_compute. reflexivity.
  - vm_compute. reflexivity.
Defined.

Example Run_no_unit :
  Run_of Invoice (doc_no_unit Invoice) = Raise KeyError
  /\ Run_of CreditNote (doc_no_unit CreditNote) = Raise KeyError.
Proof. split; vm_compute; reflexivity. Qed.

(** ** Last trading party wins *)

(** A [get] chain reads the dict at its first key only. *)
Lemma chain_ext (r1 r2 : pydict) (ks : list pystr) (k : pystr) :
  r1 !! hd k ks = r2 !! hd k ks ->
  chain (VDict r1) ks k = chain (VDict r2) ks k.
Proof. destruct ks as [|k1 ks]; cbn; intros ->; reflexivity. Qed.

Lemma party_fields_ext (r1 r2 : pydict) (slot : pystr) :
  r1 !! slot = r2 !! slot -> party_fields r1 slot = party_fields r2 slot.
Proof.
  intros H. unfold party_fields. cbn zeta.
  rewrite !(chain_ext r1 r2) by exact H. reflexivity.
Qed.

Lemma post_process_of_parties (v : variant) (result : pydict) out :
  post_process_of v result = Ok out ->
  party_fields result (py "AccountingSupplierParty") = Ok (supplier out)
  /\ party_fields result (py "AccountingCustomerParty") = Ok (customer out).
Proof.
  assert (Hinv : forall o, InvoiceParser._post_process_result_dict result = Ok o ->
            party_fields result (py "AccountingSupplierParty") = Ok (supplier o)
            /\ party_fields result (py "AccountingCustomerParty") = Ok (customer o)).
  { unfold InvoiceParser._post_process_result_dict. intros o H. binds H.
    injection H as Ho. subst o. cbn. split; assumption. }
  destruct v; cbn [post_process_of]; [apply Hinv|].
  unfold CreditNoteParser._post_process_result_dict. intros H. binds H.
  injection H as <-. cbn [supplier customer]. by apply Hinv.
Qed.

Lemma Run_step_party (v : variant) (sol : pydict) (elem : Element) (slot : pystr) :
  slot = py "AccountingSupplierParty" \/ slot = py "AccountingCustomerParty" ->
  prettify_tag (ET.tag elem) = slot ->
  Run_step (line_tag_of v) (parseInvoiceLine_of v) sol elem
  = Ok (<[slot := parseAccountingParty elem]> sol).
Proof.
  intros Hslot Htag. unfold Run_step. rewrite Htag.
  destruct Hslot as [-> | ->].
  - rewrite !decide_False by (destruct v; py_neq).
    by rewrite decide_True.
  - rewrite !decide_False by (destruct v; py_neq).
    by rewrite decide_True.
Qed.

Example Run_two_suppliers :
  exists out,
    InvoiceParser.Run doc_two_suppliers = Ok out
    /\ Party.edi_id (supplier out) = VStr (py "2")
    /\ Party.edi_name (supplier out) = VStr (py "Second")
    /\ Party.edi_id (customer out) = VStr (py "3").
Proof. eexists. split; [vm_compute; reflexivity|]. by vm_compute. Qed.

(** ** Notes *)

Lemma join_lines_cons t u ts :
  join_lines (t :: u :: ts) = t ++ [10] ++ join_lines (u :: ts).
Proof. reflexivity. Qed.

Lemma note_fold_nonempty n ts :
  n <> [] -> note_fold n ts = join_lines (n :: ts).
Proof.
  revert n. induction ts as [|t ts IH]; intros n Hn; [reflexivity|].
  cbn [note_fold fold_left]. rewrite decide_False by exact Hn.
  change (fold_left _ ts ?m) with (note_fold m ts).
  rewrite IH by (destruct n; [done | discriminate]).
  rewrite join_lines_cons. destruct ts as [|u ts]; [reflexivity|].
  rewrite !join_lines_cons, <- !app_assoc. reflexivity.
Qed.

Lemma note_fold_join ts : note_fold [] ts = join_lines (drop_empty ts).
Proof.
  induction ts as [|t ts IH]; [reflexivity|].
  cbn [note_fold fold_left]. rewrite decide_True by reflexivity.
  change (fold_left _ ts ?m) with (note_fold m ts).
  destruct t as [|c t]; [exact IH|].
  by rewrite note_fold_nonempty.
Qed.

Lemma add_note_str (sol : pydict) (elem : Element) (n : pystr) :
  sol !! py "Note" = Some (VStr n) ->
  add_note sol elem
  = Ok (match ET.text elem with
        | Some t => <[py "Note" := VStr (note_fold n [t])]> sol
        | None => sol
        end).
Proof.
  intros Hn. unfold add_note, getitem. rewrite Hn. cbn [default].
  destruct (ET.text elem) as [t|]; [|reflexivity].
  unfold truthy. cbn [note_fold fold_left].
  destruct n; reflexivity.
Qed.

Lemma Run_step_note (v : variant) (sol : pydict) (elem : Element) :
  prettify_tag (ET.tag elem) = py "Note" ->
  Run_step (line_tag_of v) (parseInvoiceLine_of v) sol elem = add_note sol elem.
Proof.
  intros Htag. unfold Run_step. rewrite Htag.
  rewrite !decide_False by (destruct v; py_neq). by rewrite decide_True.
Qed.

Lemma walk_note (v : variant) xs sol sol' n :
  for_each (Run_step (line_tag_of v) (parseInvoiceLine_of v)) xs sol = Ok sol' ->
  sol !! py "Note" = Some (VStr n) ->
  sol' !! py "Note" = Some (VStr (note_fold n (note_texts xs))).
Proof.
  revert sol n. induction xs as [|x xs IH]; intros sol n H Hn; cbn [for_each] in H.
  - injection H as <-. exact Hn.
  - apply bind_Ok in H as (s1 & H1 & H). cbn [note_texts].
    destruct (decide (prettify_tag (ET.tag x) = py "Note")) as [Hx|Hx].
    + rewrite (Run_step_note v _ _ Hx), (add_note_str _ _ _ Hn) in H1.
      injection H1 as <-. destruct (ET.text x) as [t|].
      * apply (IH _ _ H). apply lookup_insert_eq.
      * by apply (IH _ _ H).
    + apply (IH _ _ H).
      rewrite (Run_step_frame _ _ _ _ _ _ H1) by (try py_neq; congruence).
      exact Hn.
Qed.

Lemma walk_note_slot (v : variant) (xml_root : Element) (sol : pydict) :
  walk (line_tag_of v) (parseInvoiceLine_of v) xml_root = Ok sol ->
  sol !! py "Note"
  = Some (VStr (join_lines (drop_empty (note_texts (ET.children xml_root))))).
Proof.
  intros H. rewrite <- note_fold_join. by apply (walk_note v _ sol_init).
Qed.

(** ** Elements that leave no trace in the output *)

Lemma agree_insert K k v s1 s2 :
  agree K s1 s2 -> agree K (<[k := v]> s1) (<[k := v]> s2).
Proof.
  intros H k' Hk'. destruct (decide (k = k')) as [->|Hne].
  - by rewrite !lookup_insert_eq.
  - rewrite !lookup_insert_ne by done. by apply H.
Qed.

Lemma agree_insert_l K v s1 s2 : agree K s1 s2 -> agree K (<[K := v]> s1) s2.
Proof. intros H k Hk. rewrite lookup_insert_ne by done. by apply H. Qed.

Lemma outcome_rel_bind {A B} (R : A -> A -> Prop) (o1 o2 : outcome A)
    (f : A -> outcome B) :
  outcome_rel R o1 o2 -> (forall a b, R a b -> f a = f b) ->
  o1 ≫= f = o2 ≫= f.
Proof.
  destruct o1, o2; cbn; try done.
  - intros HR Hf. by apply Hf.
  - by intros ->.
Qed.

Section Agree.

Variable line_tag : pystr.
Variable parseInvoiceLine : Element -> outcome pyval.
Variable K : pystr.
Hypothesis K_lines : K <> py "InvoiceLines".

Local Abbreviation step := (Run_step line_tag parseInvoiceLine).

(** A turn reads the accumulator at ['InvoiceLines'] and ['Note'] only. *)
Lemma Run_step_agree s1 s2 elem :
  K <> py "Note" \/ prettify_tag (ET.tag elem) <> py "Note" ->
  agree K s1 s2 ->
  outcome_rel (agree K) (step s1 elem) (step s2 elem).
Proof using K_lines.
  intros Hnote Hag. unfold Run_step.
  repeat case_decide; cbn [outcome_rel]; try (by apply agree_insert); try done.
  - unfold getitem. rewrite (Hag (py "InvoiceLines")) by done.
    destruct (default _ _); cbn; try done.
    destruct (parseInvoiceLine elem); cbn; [by apply agree_insert | done].
  - destruct (parsePdfDocument elem); cbn; [by apply agree_insert | done].
  - destruct Hnote as [Hnote|Hnote]; [|done].
    unfold add_note, getitem. rewrite (Hag (py "Note")) by done.
    destruct (ET.text elem); cbn; [|done].
    destruct (negb _); cbn; [by apply agree_insert|].
    destruct (iadd_str _ _); cbn; [by apply agree_insert | done].
Qed.

Variable Inv : pydict -> Prop.
Hypothesis Inv_step : forall s elem s', Inv s -> step s elem = Ok s' -> Inv s'.
Hypothesis skip_step : forall s elem,
  Inv s -> prettify_tag (ET.tag elem) = K ->
  exists v, step s elem = Ok (<[K := v]> s) \/ step s elem = Ok s.

(** The elements of tag [K] can be left out: the loop ends the same way,
    with the same accumulator but for the key [K]. *)
Lemma walk_skip xs s1 s2 :
  Inv s1 -> agree K s1 s2 ->
  outcome_rel (agree K)
    (for_each step xs s1)
    (for_each step (filter (fun elem => prettify_tag (ET.tag elem) <> K) xs) s2).
Proof using K_lines Inv_step skip_step.
  revert s1 s2. induction xs as [|x xs IH]; intros s1 s2 Hinv Hag; [exact Hag|].
  rewrite filter_cons. case_decide as Hx; cbn [for_each].
  - assert (Hn : K <> py "Note" \/ prettify_tag (ET.tag x) <> py "Note").
    { destruct (decide (K = py "Note")) as [->|]; [by right | by left]. }
    pose proof (Run_step_agree s1 s2 x Hn Hag) as Hstep.
    pose proof (Inv_step s1 x) as Hinv'.
    destruct (step s1 x) as [s1'|e1], (step s2 x) as [s2'|e2]; cbn in *; try done.
    apply IH; [by eapply Hinv' | exact Hstep].
  - destruct (skip_step s1 x Hinv Hx) as [v [Hs|Hs]]; pose proof (Inv_step s1 x _ Hinv Hs);
      rewrite Hs; cbn; apply IH; try done.
    by apply agree_insert_l.
Qed.

End Agree.

Lemma post_process_of_ext (v : variant) (r1 r2 : pydict) :
  Forall (fun k => r1 !! k = r2 !! k) read_keys ->
  post_process_of v r1 = post_process_of v r2.
Proof.
  intros H. unfold read_keys in H.
  repeat match type of H with
         | Forall _ (_ :: _) => apply Forall_cons in H as [? H]
         end.
  assert (Hinv : InvoiceParser._post_process_result_dict r1
                 = InvoiceParser._post_process_result_dict r2).
  { unfold InvoiceParser._post_process_result_dict, header_fields,
      _flatten_invoice_lines.
    rewrite !(party_fields_ext r1 r2) by assumption.
    cbn zeta. rewrite !(chain_ext r1 r2) by (cbn [hd]; assumption).
    by replace (r1 !! py "InvoiceLines") with (r2 !! py "InvoiceLines"). }
  destruct v; cbn [post_process_of]; [exact Hinv|].
  unfold CreditNoteParser._post_process_result_dict.
  rewrite Hinv, !(chain_ext r1 r2) by (cbn [hd]; assumption). reflexivity.
Qed.

Lemma post_process_of_agree (v : variant) (K : pystr) (r1 r2 : pydict) :
  Forall (fun k => k <> K) read_keys -> agree K r1 r2 ->
  post_process_of v r1 = post_process_of v r2.
Proof.
  intros HK Hag. apply post_process_of_ext.
  eapply Forall_impl; [exact HK|]. intros k Hk. by apply Hag.
Qed.

Lemma note_is_str_step (v : variant) sol elem sol' :
  note_is_str sol ->
  Run_step (line_tag_of v) (parseInvoiceLine_of v) sol elem = Ok sol' ->
  note_is_str sol'.
Proof.
  intros [n Hn] H.
  destruct (decide (prettify_tag (ET.tag elem) = py "Note")) as [Hx|Hx].
  - rewrite (Run_step_note v _ _ Hx), (add_note_str _ _ _ Hn) in H.
    injection H as <-. destruct (ET.text elem); [|by exists n].
    eexists. apply lookup_insert_eq.
  - exists n. rewrite (Run_step_frame _ _ _ _ _ _ H) by (try py_neq; congruence).
    exact Hn.
Qed.

Lemma note_skip_step (v : variant) sol elem :
  note_is_str sol -> prettify_tag (ET.tag elem) = py "Note" ->
  exists w,
    Run_step (line_tag_of v) (parseInvoiceLine_of v) sol elem
      = Ok (<[py "Note" := w]> sol)
    \/ Run_step (line_tag_of v) (parseInvoiceLine_of v) sol elem = Ok sol.
Proof.
  intros [n Hn] Hx. rewrite (Run_step_note v _ _ Hx), (add_note_str _ _ _ Hn).
  destruct (ET.text elem); [eexists; by left | exists VNone; by right].
Qed.

Lemma Run_of_without_notes (v : variant) (xml_root : Element) :
  Run_of v xml_root = Run_of v (without (py "Note") xml_root).
Proof.
  rewrite !Run_of_unfold. apply (outcome_rel_bind (agree (py "Note"))).
  - unfold walk, without. cbn [ET.children].
    apply (walk_skip _ _ (py "Note") ltac:(py_neq) note_is_str).
    + apply note_is_str_step.
    + apply note_skip_step.
    + exists []. vm_compute. reflexivity.
    + by intros k _.
  - intros r1 r2. apply post_process_of_agree.
    unfold read_keys. repeat constructor; py_neq.
Qed.

(** C2, as the claim states it, fails twice.  No field of the parse
    result is the joined note: whatever projection of [ParsedDocument] is
    taken for the note field, it cannot equal [a + "\n" + b] for all notes
    [a] and [b], since the result does not depend on them.  And a note
    element with an empty text, met after a first note, is not skipped: it
    appends a newline to the accumulated note. *)
Lemma C2_note_not_projected_nor_skipped :
  (~ exists note_field : ParsedDocument -> pyval,
       forall a b, exists out,
         InvoiceParser.Run (doc_notes a b) = Ok out
         /\ note_field out = VStr (a ++ [10] ++ b))
  /\ (exists sol,
        walk (py "InvoiceLine") InvoiceParser.parseInvoiceLine
          (doc_notes (py "A") []) = Ok sol
        /\ sol !! py "Note" = Some (VStr (py "A" ++ [10]))).
Proof.
  split.
  - intros [f Hf].
    destruct (Hf (py "A") (py "B")) as (o1 & H1 & Hn1).
    destruct (Hf (py "C") (py "D")) as (o2 & H2 & Hn2).
    pose proof (Run_of_without_notes Invoice (doc_notes (py "A") (py "B"))) as E1.
    pose proof (Run_of_without_notes Invoice (doc_notes (py "C") (py "D"))) as E2.
    cbn [Run_of] in E1, E2. rewrite H1 in E1. rewrite H2 in E2.
    assert (Ok o1 = Ok o2) as [= ->] by (rewrite E1, E2; reflexivity).
    rewrite Hn1 in Hn2. vm_compute in Hn2. discriminate Hn2.
  - eexists. split; vm_compute; reflexivity.
Qed.

(** C2 (amended): when the walker of either variant passes a document,
    its accumulated [Note] entry is the texts of the top-level [Note]
    elements that have one, in document order, without the empty texts at
    the front, joined by single newlines; notes without a text are
    skipped.  The entry is not projected: the parse result is that of the
    document without its [Note] elements. *)
Theorem C2_notes_joined (v : variant) (xml_root : Element) (sol : pydict) :
  walk (line_tag_of v) (parseInvoiceLine_of v) xml_root = Ok sol ->
  sol !! py "Note"
  = Some (VStr (join_lines (drop_empty (note_texts (ET.children xml_root)))))
  /\ Run_of v xml_root = Run_of v (without (py "Note") xml_root).
Proof.
  intros H. split; [by apply (walk_note_slot v) | apply Run_of_without_notes].
Qed.

Lemma C2_notes_joined_witness :
  exists sol,
    walk (line_tag_of Invoice) (parseInvoiceLine_of Invoice) doc_notes_AB = Ok sol
    /\ sol !! py "Note" = Some (VStr (py "A" ++ [10] ++ py "B")).
Proof.
  eexists. split; [vm_compute; reflexivity|].
  destruct (C2_notes_joined Invoice doc_notes_AB _ ltac:(vm_compute; reflexivity))
    as [Hnote _].
  rewrite Hnote. vm_compute. reflexivity.
Defined.

(** ** Variant mismatch *)

(** A line element of the other variant is stored like any unknown leaf. *)
Lemma Run_step_mismatch (v : variant) (sol : pydict) (elem : Element) :
  prettify_tag (ET.tag elem) = line_tag_of (other v) ->
  Run_step (line_tag_of v) (parseInvoiceLine_of v) sol elem
  = Ok (<[line_tag_of (other v) := of_text (ET.text elem)]> sol).
Proof.
  intros Htag. unfold Run_step. rewrite Htag.
  rewrite !decide_False by (destruct v; py_neq). reflexivity.
Qed.

Lemma Run_step_no_lines line_tag parse sol elem sol' :
  prettify_tag (ET.tag elem) <> line_tag ->
  Run_step line_tag parse sol elem = Ok sol' ->
  no_lines sol -> no_lines sol'.
Proof.
  intros Htag H Hinv.
  destruct (decide (prettify_tag (ET.tag elem) = py "InvoiceLines")) as [Hx|Hx].
  - unfold Run_step in H. rewrite Hx in H.
    rewrite decide_False in H by py_neq.
    rewrite decide_False in H by (rewrite <- Hx; congruence).
    rewrite !decide_False in H by py_neq.
    injection H as <-. right. eexists. apply lookup_insert_eq.
  - unfold no_lines. revert H. unfold Run_step.
    rewrite (decide_False (P := _ = line_tag)) by exact Htag.
    intros H.
    assert (sol' !! py "InvoiceLines" = sol !! py "InvoiceLines") as ->;
      [|exact Hinv].
    repeat case_decide;
      try (injection H as <-;
           first [reflexivity | apply lookup_insert_ne; py_neq | idtac]).
    + binds H. injection H as <-. apply lookup_insert_ne. py_neq.
    + unfold add_note in H. destruct (ET.text elem); [|by injection H as <-].
      destruct (negb _).
      * injection H as <-. apply lookup_insert_ne. py_neq.
      * binds H. injection H as <-. apply lookup_insert_ne. py_neq.
Qed.

Lemma walk_no_lines line_tag parse xs sol sol' :
  Forall (fun elem => prettify_tag (ET.tag elem) <> line_tag) xs ->
  for_each (Run_step line_tag parse) xs sol = Ok sol' ->
  no_lines sol -> no_lines sol'.
Proof.
  intros Hxs. revert sol.
  induction Hxs as [|x xs Hx _ IH]; intros sol H Hinv; cbn [for_each] in H.
  - by injection H as <-.
  - apply bind_Ok in H as (s1 & H1 & H). apply (IH _ H).
    by eapply Run_step_no_lines.
Qed.

Lemma flatten_no_lines (result : pydict) (ls : list Line.t) :
  no_lines result -> _flatten_invoice_lines result = Ok ls -> ls = [].
Proof.
  unfold _flatten_invoice_lines. intros [Hl | [[s|] Hl]]; rewrite Hl; cbn.
  - by intros [= <-].
  - destruct s as [|c s]; cbn; [by intros [= <-] | discriminate].
  - discriminate.
Qed.

Lemma post_process_of_lines (v : variant) (result : pydict) out :
  post_process_of v result = Ok out ->
  _flatten_invoice_lines result = Ok (invoice_lines out).
Proof.
  assert (Hinv : forall o, InvoiceParser._post_process_result_dict result = Ok o ->
            _flatten_invoice_lines result = Ok (invoice_lines o)).
  { unfold InvoiceParser._post_process_result_dict. intros o H. binds H.
    injection H as <-. assumption. }
  destruct v; cbn [post_process_of]; [apply Hinv|].
  unfold CreditNoteParser._post_process_result_dict. intros H. binds H.
  injection H as <-. cbn [invoice_lines]. by apply Hinv.
Qed.

Lemma Run_of_without_mismatch (v : variant) (xml_root : Element) :
  Run_of v xml_root = Run_of v (without (line_tag_of (other v)) xml_root).
Proof.
  rewrite !Run_of_unfold.
  apply (outcome_rel_bind (agree (line_tag_of (other v)))).
  - unfold walk, without. cbn [ET.children].
    apply (walk_skip _ _ (line_tag_of (other v)) ltac:(destruct v; py_neq)
             (fun _ => True)); try done.
    intros s elem _ Htag. eexists. left. by apply Run_step_mismatch.
  - intros r1 r2. apply post_process_of_agree.
    unfold read_keys. destruct v; repeat constructor; py_neq.
Qed.

(** ** Tax category of a line *)

(** C3, as the claim states it, fails: the two blocks are merged field by
    field.  With an item-level block that holds the id only, the line
    record takes its id from the item-level block and its percent from the
    line-level block. *)
Lemma C3_blocks_are_merged :
  exists out line,
    InvoiceParser.Run doc_merged = Ok out
    /\ invoice_lines out = [line]
    /\ Line.tax_category_id line = VStr (py "E")
    /\ Line.tax_percent line = VStr (py "25").
Proof. do 2 eexists. split; [vm_compute; reflexivity|]. by vm_compute. Qed.

Example parseInvoiceLine_E0 :
  InvoiceParser.parseInvoiceLine
    (node "InvoiceLine"
       [node "Item" [node "ClassifiedTaxCategory"
                       [leaf "ID" "E"; leaf "Percent" "0"]];
        node "TaxTotal"
          [node "TaxSubtotal"
             [node "TaxCategory" [leaf "ID" "S"; leaf "Percent" "25"]]]])
  = Ok (VDict line_dict_E0).
Proof. vm_compute. reflexivity. Qed.

(** ** Attachment *)

Lemma rstrip_split (s : pystr) :
  exists ws, s = rstrip s ++ ws /\ forallb isspace ws = true.
Proof.
  unfold rstrip. destruct (lstrip_split (reverse s)) as (ws & Hs & Hws).
  exists (reverse ws). split.
  - rewrite <- reverse_app, <- Hs. by rewrite reverse_involutive.
  - apply forallb_forall. intros c Hc. rewrite forallb_forall in Hws.
    apply Hws, list_elem_of_In, elem_of_reverse. by apply list_elem_of_In.
Qed.

(** [strip] removes whitespace, and nothing else, at both ends. *)
Lemma strip_split (s : pystr) :
  exists l r,
    s = l ++ strip s ++ r
    /\ forallb isspace l = true /\ forallb isspace r = true.
Proof.
  destruct (lstrip_split s) as (l & Hl & Hlws).
  destruct (rstrip_split (lstrip s)) as (r & Hr & Hrws).
  exists l, r. unfold strip. by rewrite <- Hr, <- Hl.
Qed.

Lemma b64encode_nil (b : pybytes) : b64encode b = [] <-> b = [].
Proof.
  split; [|by intros ->].
  destruct b as [|x [|y [|z rest]]]; [done | discriminate..].
Qed.

Lemma pdf_inner_loop (xs : list Element) (pdf_doc : pyval) :
  for_each
    (fun pdf_doc child =>
       if decide (prettify_tag (ET.tag child) = py "EmbeddedDocumentBinaryObject")
       then encode_attachment (ET.text child)
       else Ok pdf_doc) xs pdf_doc
  = for_each (fun _ child => encode_attachment (ET.text child))
      (filter (fun child =>
                 prettify_tag (ET.tag child) = py "EmbeddedDocumentBinaryObject")
         xs) pdf_doc.
Proof.
  revert pdf_doc. induction xs as [|x xs IH]; intros pdf_doc; [reflexivity|].
  rewrite filter_cons. cbn [for_each]. case_decide; cbn [for_each].
  - destruct (encode_attachment _); cbn; [apply IH | reflexivity].
  - apply IH.
Qed.

Lemma pdf_outer_loop (xs : list Element) (pdf_doc : pyval) :
  for_each
    (fun pdf_doc elem =>
       if decide (prettify_tag (ET.tag elem) = py "Attachment") then
         for_each
           (fun pdf_doc child =>
              if decide (prettify_tag (ET.tag child)
                         = py "EmbeddedDocumentBinaryObject")
              then encode_attachment (ET.text child)
              else Ok pdf_doc)
           (ET.children elem) pdf_doc
       else Ok pdf_doc) xs pdf_doc
  = for_each (fun _ child => encode_attachment (ET.text child))
      (filter (fun child =>
                 prettify_tag (ET.tag child) = py "EmbeddedDocumentBinaryObject")
         (concat (map ET.children
            (filter (fun elem => prettify_tag (ET.tag elem) = py "Attachment")
               xs)))) pdf_doc.
Proof.
  revert pdf_doc. induction xs as [|x xs IH]; intros pdf_doc; [reflexivity|].
  rewrite filter_cons. cbn [for_each]. case_decide.
  - cbn [map concat]. rewrite filter_app, for_each_app, pdf_inner_loop.
    destruct (for_each _ _ pdf_doc); cbn; [apply IH | reflexivity].
  - apply IH.
Qed.

Lemma encode_attachment_octets t b :
  stripped_octets t = Some b -> encode_attachment t = Ok (VBytes (b64encode b)).
Proof. destruct t as [s|]; cbn; [|discriminate]. by intros ->. Qed.

(** Every embedded object overwrites the attachment of the ones before. *)
Lemma pdf_last_object (xs : list Element) (last : Element) (pdf_doc : pyval) :
  Forall (fun child => is_Some (stripped_octets (ET.text child))) xs ->
  for_each (fun _ child => encode_attachment (ET.text child))
    (xs ++ [last]) pdf_doc
  = encode_attachment (ET.text last).
Proof.
  intros Hxs. revert pdf_doc.
  induction Hxs as [|x xs [b Hb] _ IH]; intros pdf_doc; cbn [app for_each].
  - by destruct (encode_attachment _).
  - rewrite (encode_attachment_octets _ _ Hb). apply IH.
Qed.

(** C8, as the claim states it, fails twice.  An embedded object whose
    text is whitespace only gives a null attachment, not the base64
    encoding (the empty [bytes]) of its stripped text.  And of two embedded
    objects, the attachment is the encoding of the second: the first one,
    of text ["AB=="], is not what comes out. *)
Lemma C8_attachment_not_of_every_object :
  (stripped_octets (Some (py "  ")) = Some []
   /\ parsePdfDocument ref_blank = Ok VNone
   /\ parsePdfDocument ref_blank <> Ok (VBytes (b64encode [])))
  /\ (exists b,
        stripped_octets (Some (py "AB==")) = Some b
        /\ parsePdfDocument ref_two <> Ok (VBytes (b64encode b))).
Proof.
  split; [|eexists]; repeat split; try (vm_compute; reflexivity);
    vm_compute; discriminate.
Qed.

(** C8 (amended): the attachment of an [AdditionalDocumentReference]
    element is decided by the last embedded binary object under its
    [Attachment] children: when every earlier one has a text that encodes,
    and the last one's text, stripped of surrounding whitespace, encodes to
    the octets [b], the attachment is the base64 encoding of [b] if [b] is
    not empty, and null if it is; without any embedded binary object the
    attachment is null. *)
Theorem C8_attachment_of_last_object (xml_element : Element) :
  (embedded_objects xml_element = [] ->
   parsePdfDocument xml_element = Ok VNone)
  /\ (forall xs last b,
        embedded_objects xml_element = xs ++ [last] ->
        Forall (fun child => is_Some (stripped_octets (ET.text child))) xs ->
        stripped_octets (ET.text last) = Some b ->
        parsePdfDocument xml_element
        = Ok (if decide (b = []) then VNone else VBytes (b64encode b))).
Proof.
  unfold parsePdfDocument. rewrite pdf_outer_loop.
  change (filter _ (concat _)) with (embedded_objects xml_element).
  split.
  - intros ->. reflexivity.
  - intros xs last b -> Hxs Hb.
    rewrite (pdf_last_object _ _ _ Hxs), (encode_attachment_octets _ _ Hb).
    cbn. destruct b as [|x b]; [reflexivity|].
    rewrite decide_False by discriminate.
    destruct (b64encode (x :: b)) eqn:E; [|reflexivity].
    apply (proj1 (b64encode_nil _)) in E. discriminate E.
Qed.

Lemma C8_attachment_of_last_object_witness :
  parsePdfDocument ref_AB = Ok (VBytes (py "QUI9PQ==")).
Proof.
  destruct (C8_attachment_of_last_object ref_AB) as [_ H].
  rewrite (H [] (ET.mkElement (py (cbc ++ "EmbeddedDocumentBinaryObject")) ∅
                   (Some (py "AB==  " ++ [10])) [])
             (py "AB==")).
  - vm_compute. reflexivity.
  - vm_compute. reflexivity.
  - constructor.
  - vm_compute. reflexivity.
Defined.

(** The test vectors of RFC 4648 for [b64encode]. *)
Example b64encode_rfc4648 :
  b64encode [] = []
  /\ b64encode (py "f") = py "Zg=="
  /\ b64encode (py "fo") = py "Zm8="
  /\ b64encode (py "foo") = py "Zm9v"
  /\ b64encode (py "foob") = py "Zm9vYg=="
  /\ b64encode (py "fooba") = py "Zm9vYmE="
  /\ b64encode (py "foobar") = py "Zm9vYmFy".
Proof. repeat split; vm_compute; reflexivity. Qed.

(** The UTF-8 octets of U+0161, U+20AC and U+1F600. *)
Example encode_utf8_samples :
  encode_utf8 [0x161; 0x20AC; 0x1F600]
  = Some [0xC5; 0xA1; 0xE2; 0x82; 0xAC; 0xF0; 0x9F; 0x98; 0x80].
Proof. vm_compute. reflexivity. Qed.

(** * Properties read off the element tree *)

(** ** Dicts built by one assignment per child *)

Lemma fold_left_ext {A B} (f g : A -> B -> A) (xs : list B) (a : A) :
  (forall a x, f a x = g a x) -> fold_left f xs a = fold_left g xs a.
Proof.
  intros Hfg. revert a. induction xs as [|x xs IH]; intros a; [reflexivity|].
  cbn [fold_left]. rewrite Hfg. apply IH.
Qed.

(** A loop that assigns [d[tag] = val(child)] for every child leaves,
    under each key, the value of the last child of that tag. *)
Lemma fold_insert_lookup (val : Element -> pyval) (xs : list Element)
    (d0 : pydict) (k : pystr) :
  fold_left (fun d x => <[prettify_tag (ET.tag x) := val x]> d) xs d0 !! k
  = match last_tagged k xs with
    | Some x => Some (val x)
    | None => d0 !! k
    end.
Proof.
  revert d0. induction xs as [|x xs IH]; intros d0; [reflexivity|].
  cbn [fold_left last_tagged]. rewrite IH.
  destruct (last_tagged k xs); [reflexivity|].
  case_decide as Hx.
  - rewrite <- Hx. apply lookup_insert_eq.
  - by apply lookup_insert_ne.
Qed.

Lemma last_tagged_tag (k : pystr) (xs : list Element) (c : Element) :
  last_tagged k xs = Some c -> prettify_tag (ET.tag c) = k /\ c ∈ xs.
Proof.
  induction xs as [|x xs IH]; cbn [last_tagged]; [discriminate|].
  destruct (last_tagged k xs) as [y|].
  - intros [= ->]. destruct (IH eq_refl) as [? ?]. split; [done|].
    by apply list_elem_of_further.
  - case_decide; [|discriminate]. intros [= ->]. split; [done|].
    apply list_elem_of_here.
Qed.

Lemma last_tagged_none (k : pystr) (xs : list Element) :
  last_tagged k xs = None <->
  Forall (fun x => prettify_tag (ET.tag x) <> k) xs.
Proof.
  induction xs as [|x xs IH]; cbn [last_tagged].
  - split; [constructor | done].
  - destruct (last_tagged k xs) as [y|].
    + split; [discriminate|]. intros H. apply Forall_cons in H as [_ H].
      by apply IH in H.
    + case_decide as Hx.
      * split; [discriminate|]. by intros [? _]%Forall_cons.
      * split; [|done]. intros _. constructor; [done|]. by apply IH.
Qed.

Lemma text_fields_lookup (d : pydict) (elem : Element) (k : pystr) :
  text_fields d elem !! k
  = match last_tagged k (ET.children elem) with
    | Some c => Some (of_text (ET.text c))
    | None => d !! k
    end.
Proof.
  unfold text_fields.
  apply (fold_insert_lookup (fun c => of_text (ET.text c))).
Qed.

(** X1: the dict of [parseLegalMonetaryTotal], and of
    [parseInvoicePeriod], has one key per tag among the children of the
    element, and holds under it the text of the last child of that tag; an
    element without children gives the empty dict. *)
Theorem X1_plain_handler_last_wins (xml_element : Element) :
  exists d,
    parseLegalMonetaryTotal xml_element = VDict d
    /\ parseInvoicePeriod xml_element = VDict d
    /\ (forall k,
          d !! k = (fun c => of_text (ET.text c))
                     <$> last_tagged k (ET.children xml_element))
    /\ (ET.children xml_element = [] -> d = ∅).
Proof.
  exists (text_fields ∅ xml_element). repeat split.
  - intros k. rewrite text_fields_lookup.
    by destruct (last_tagged k (ET.children xml_element)).
  - unfold text_fields. by intros ->.
Qed.

Lemma text_fields_get (elem : Element) (k : pystr) :
  get (VDict (text_fields ∅ elem)) k VNone
  = Ok (leaf_at (ET.children elem) [] k).
Proof.
  cbn [get leaf_at]. rewrite text_fields_lookup.
  by destruct (last_tagged k (ET.children elem)).
Qed.

Lemma get_empty (k : pystr) (dflt : pyval) : get (VDict ∅) k dflt = Ok dflt.
Proof. cbn [get]. by rewrite lookup_empty. Qed.

Lemma chain_empty (ks : list pystr) (k : pystr) : chain (VDict ∅) ks k = Ok VNone.
Proof.
  induction ks as [|k1 ks IH]; cbn [chain]; rewrite get_empty; [done | exact IH].
Qed.

Lemma fields_with_lookup (inner : pystr) (elem : Element) (k : pystr) :
  fields_with inner elem !! k
  = fields_with_value inner <$> last_tagged k (ET.children elem).
Proof.
  unfold fields_with.
  rewrite (fold_left_ext _
    (fun d x => <[prettify_tag (ET.tag x) := fields_with_value inner x]> d)).
  - rewrite fold_insert_lookup, lookup_empty.
    by destruct (last_tagged k (ET.children elem)).
  - intros d x. unfold fields_with_value. cbn zeta.
    case_decide as Hx; [by rewrite Hx | reflexivity].
Qed.

Lemma fields_with_get (inner : pystr) (elem : Element) (k : pystr) :
  k <> inner ->
  get (VDict (fields_with inner elem)) k VNone
  = Ok (leaf_at (ET.children elem) [] k).
Proof.
  intros Hk. cbn [get leaf_at]. rewrite fields_with_lookup.
  destruct (last_tagged k (ET.children elem)) as [c|] eqn:Hc; [|reflexivity].
  apply last_tagged_tag in Hc as [Hc _]. cbn. unfold fields_with_value.
  by rewrite decide_False by congruence.
Qed.

Lemma fields_with_chain (inner : pystr) (elem : Element) (k : pystr) :
  chain (VDict (fields_with inner elem)) [inner] k
  = Ok (leaf_at (ET.children elem) [inner] k).
Proof.
  cbn [chain get leaf_at]. rewrite fields_with_lookup.
  destruct (last_tagged inner (ET.children elem)) as [c|] eqn:Hc; cbn.
  - apply last_tagged_tag in Hc as [Hc _]. unfold fields_with_value.
    rewrite decide_True by exact Hc. apply text_fields_get.
  - by rewrite lookup_empty.
Qed.

(** ** Trading party *)

Lemma fold_left_under {A} (P : Element -> Prop) `{!forall x, Decision (P x)}
    (f : A -> Element -> A) (xs : list Element) (a : A) :
  fold_left (fun a x => if decide (P x) then fold_left f (ET.children x) a else a)
    xs a
  = fold_left f (concat (map ET.children (filter P xs))) a.
Proof.
  revert a. induction xs as [|x xs IH]; intros a; [reflexivity|].
  rewrite filter_cons. cbn [fold_left]. case_decide.
  - cbn [map concat]. rewrite fold_left_app. apply IH.
  - apply IH.
Qed.

(** Closes a goal that two literals differ, by evaluating them. *)
Ltac lit_neq :=
  let H := fresh in
  intros H; vm_compute in H; discriminate H.

(** Closes a goal that a literal is not in a list of literals. *)
Ltac py_notin :=
  let H := fresh in
  intros H;
  repeat (apply elem_of_cons in H as [H|H]; [vm_compute in H; discriminate H|]);
  by apply elem_of_nil in H.

Lemma parseAccountingParty_lookup (xml_element : Element) :
  exists d,
    parseAccountingParty xml_element = VDict d
    /\ forall k,
         d !! k = party_value <$> last_tagged k (children_under (py "Party") xml_element).
Proof.
  eexists. split; [reflexivity|]. intros k.
  rewrite (fold_left_under (fun elem => prettify_tag (ET.tag elem) = py "Party")).
  rewrite (fold_left_ext _
    (fun d x => <[prettify_tag (ET.tag x) := party_value x]> d)).
  - rewrite fold_insert_lookup, lookup_empty. unfold children_under.
    by destruct (last_tagged k _).
  - intros d x. unfold party_value. cbn zeta. by repeat case_decide.
Qed.

Section PartyDict.

Variable d : pydict.
Variable pc : list Element.
Hypothesis d_pc : forall k, d !! k = party_value <$> last_tagged k pc.

Lemma party_get_plain k :
  k ∉ [py "PartyIdentification"; py "PartyName"; py "PartyLegalEntity";
       py "Contact"; py "PostalAddress"; py "PartyTaxScheme"] ->
  chain (VDict d) [] k = Ok (leaf_at pc [] k).
Proof using d_pc.
  intros Hk. cbn [chain get leaf_at]. rewrite d_pc.
  destruct (last_tagged k pc) as [c|] eqn:Hc; [|reflexivity].
  apply last_tagged_tag in Hc as [Hc _]. cbn. unfold party_value. cbn zeta.
  rewrite Hc. rewrite !elem_of_cons, elem_of_nil in Hk.
  rewrite decide_False by (rewrite !elem_of_cons, elem_of_nil; tauto).
  rewrite !decide_False by tauto. reflexivity.
Qed.

Lemma party_chain_single p k :
  p ∈ [py "PartyIdentification"; py "PartyName"; py "PartyLegalEntity";
       py "Contact"] ->
  chain (VDict d) [p] k = Ok (leaf_at pc [p] k).
Proof using d_pc.
  intros Hp. cbn [chain get leaf_at]. rewrite d_pc.
  destruct (last_tagged p pc) as [c|] eqn:Hc; cbn.
  - apply last_tagged_tag in Hc as [Hc _]. unfold party_value. cbn zeta.
    rewrite Hc, decide_True by exact Hp. apply text_fields_get.
  - by rewrite lookup_empty.
Qed.

Lemma party_value_nested c p inner :
  (p = py "PostalAddress" /\ inner = py "Country")
  \/ (p = py "PartyTaxScheme" /\ inner = py "TaxScheme") ->
  prettify_tag (ET.tag c) = p ->
  party_value c = VDict (fields_with inner c).
Proof.
  intros Hp Hc. unfold party_value. cbn zeta. rewrite Hc.
  destruct Hp as [[-> ->]|[-> ->]].
  - rewrite decide_False by py_notin. by rewrite decide_True.
  - rewrite decide_False by py_notin. rewrite decide_False by py_neq.
    by rewrite decide_True.
Qed.

Lemma party_chain_nested p inner k :
  (p = py "PostalAddress" /\ inner = py "Country")
  \/ (p = py "PartyTaxScheme" /\ inner = py "TaxScheme") ->
  (k <> inner -> chain (VDict d) [p] k = Ok (leaf_at pc [p] k))
  /\ chain (VDict d) [p; inner] k = Ok (leaf_at pc [p; inner] k).
Proof using d_pc.
  intros Hp. cbn [chain get leaf_at]. rewrite d_pc.
  destruct (last_tagged p pc) as [c|] eqn:Hc; cbn.
  - apply last_tagged_tag in Hc as [Hc _].
    rewrite (party_value_nested c p inner Hp Hc). split.
    + intros Hk. by apply fields_with_get.
    + apply (fields_with_chain inner c k).
  - rewrite !lookup_empty. cbn. by rewrite lookup_empty.
Qed.

End PartyDict.

Lemma party_fields_of_block (result : pydict) (slot : pystr)
    (xml_element : Element) :
  result !! slot = Some (parseAccountingParty xml_element) ->
  party_fields result slot
  = Ok (party_record (children_under (py "Party") xml_element)).
Proof.
  destruct (parseAccountingParty_lookup xml_element) as (d & -> & Hd).
  intros Hres.
  set (pc := children_under (py "Party") xml_element) in *.
  unfold party_fields. cbn zeta.
  assert (Hslot : forall ks k,
            chain (VDict result) (slot :: ks) k = chain (VDict d) ks k).
  { intros ks k. cbn [chain get]. by rewrite Hres. }
  rewrite !Hslot.
  rewrite (party_get_plain d pc Hd) by py_notin.
  rewrite (party_chain_single d pc Hd (py "PartyIdentification"))
    by (rewrite !elem_of_cons; tauto).
  rewrite (party_chain_single d pc Hd (py "PartyName"))
    by (rewrite !elem_of_cons; tauto).
  rewrite (party_chain_single d pc Hd (py "PartyLegalEntity"))
    by (rewrite !elem_of_cons; tauto).
  rewrite !(party_chain_single d pc Hd (py "Contact"))
    by (rewrite !elem_of_cons; tauto).
  rewrite (proj1 (party_chain_nested d pc Hd (py "PostalAddress") (py "Country")
                    (py "StreetName") ltac:(tauto)) ltac:(py_neq)).
  rewrite (proj1 (party_chain_nested d pc Hd (py "PostalAddress") (py "Country")
                    (py "CityName") ltac:(tauto)) ltac:(py_neq)).
  rewrite (proj1 (party_chain_nested d pc Hd (py "PostalAddress") (py "Country")
                    (py "PostalZone") ltac:(tauto)) ltac:(py_neq)).
  rewrite (proj2 (party_chain_nested d pc Hd (py "PostalAddress") (py "Country")
                    (py "IdentificationCode") ltac:(tauto))).
  rewrite (proj1 (party_chain_nested d pc Hd (py "PartyTaxScheme") (py "TaxScheme")
                    (py "CompanyID") ltac:(tauto)) ltac:(py_neq)).
  rewrite (proj2 (party_chain_nested d pc Hd (py "PartyTaxScheme") (py "TaxScheme")
                    (py "ID") ltac:(tauto))).
  reflexivity.
Qed.

(** X2: the projection of a parsed trading-party block never raises, and
    each field of the party record is the text reached in the element
    tree by the last element of each tag on its path, below the [Party]
    wrappers of the block (null when an element of the path is absent):
    [EndpointID], [PartyIdentification/ID], [PartyName/Name],
    [PostalAddress/StreetName], ..., [Contact/ElectronicMail]. *)
Theorem X2_party_record_of_tree (xml_element : Element) (slot : pystr) :
  party_fields {[slot := parseAccountingParty xml_element]} slot
  = Ok (party_record (children_under (py "Party") xml_element)).
Proof. apply party_fields_of_block. apply lookup_singleton_eq. Qed.

(** ** What the walker leaves under a key *)

Lemma Run_step_own (v : variant) (sol : pydict) (elem : Element) :
  prettify_tag (ET.tag elem) ∉ special_tags v ->
  Run_step (line_tag_of v) (parseInvoiceLine_of v) sol elem
  = Ok (<[prettify_tag (ET.tag elem) := top_value elem]> sol).
Proof.
  unfold special_tags. rewrite !elem_of_cons, elem_of_nil. intros Htag.
  unfold Run_step, top_value. cbn zeta.
  rewrite (decide_False (P := _ = py "UBLExtensions")) by tauto.
  rewrite (decide_False (P := _ = line_tag_of v)) by tauto.
  rewrite (decide_False (P := _ = py "AdditionalDocumentReference")) by tauto.
  rewrite (decide_False (P := _ = py "Note")) by tauto.
  repeat case_decide; congruence.
Qed.

(** Under a key that is neither a special tag nor ['InvoiceLines'] nor
    ['PdfDocument'], the accumulator holds the value of the last
    top-level element of that tag. *)
Lemma walk_slot (v : variant) (xs : list Element) (sol sol' : pydict) (k : pystr) :
  for_each (Run_step (line_tag_of v) (parseInvoiceLine_of v)) xs sol = Ok sol' ->
  k ∉ special_tags v -> k <> py "InvoiceLines" -> k <> py "PdfDocument" ->
  sol' !! k = match last_tagged k xs with
              | Some elem => Some (top_value elem)
              | None => sol !! k
              end.
Proof.
  intros H Hk Hl Hp. revert sol H.
  induction xs as [|x xs IH]; intros sol H; cbn [for_each] in H.
  - by injection H as <-.
  - apply bind_Ok in H as (s1 & H1 & H). rewrite (IH _ H).
    cbn [last_tagged]. destruct (last_tagged k xs); [reflexivity|].
    case_decide as Hx.
    + rewrite Run_step_own in H1 by (by rewrite Hx).
      injection H1 as <-. rewrite Hx. apply lookup_insert_eq.
    + by apply (Run_step_frame _ _ _ _ _ _ H1).
Qed.

(** ** Nested handler dicts *)

Lemma nest_dict_lookup inner sub (elem : Element) (k : pystr) :
  nest_dict inner sub elem !! k
  = nest_value inner sub <$> last_tagged k (ET.children elem).
Proof.
  unfold nest_dict. rewrite fold_insert_lookup, lookup_empty.
  by destruct (last_tagged k (ET.children elem)).
Qed.

Lemma nest_dict_get inner sub (elem : Element) (k : pystr) :
  k <> inner ->
  chain (VDict (nest_dict inner sub elem)) [] k
  = Ok (leaf_at (ET.children elem) [] k).
Proof.
  intros Hk. cbn [chain get leaf_at]. rewrite nest_dict_lookup.
  destruct (last_tagged k (ET.children elem)) as [c|] eqn:Hc; [|reflexivity].
  apply last_tagged_tag in Hc as [Hc _]. cbn. unfold nest_value.
  by rewrite decide_False by congruence.
Qed.

Lemma nest_dict_chain inner sub (elem : Element) (ps : list pystr) (k : pystr) :
  (forall c, chain (VDict (sub c)) ps k = Ok (leaf_at (ET.children c) ps k)) ->
  chain (VDict (nest_dict inner sub elem)) (inner :: ps) k
  = Ok (leaf_at (ET.children elem) (inner :: ps) k).
Proof.
  intros Hsub. cbn [chain get leaf_at]. rewrite nest_dict_lookup.
  destruct (last_tagged inner (ET.children elem)) as [c|] eqn:Hc; cbn.
  - apply last_tagged_tag in Hc as [Hc _]. unfold nest_value.
    rewrite decide_True by exact Hc. apply Hsub.
  - apply chain_empty.
Qed.

Lemma fields_with_nest (inner : pystr) (elem : Element) :
  fields_with inner elem = nest_dict inner (text_fields ∅) elem.
Proof.
  unfold fields_with, nest_dict. apply fold_left_ext. intros d x.
  unfold nest_value. cbn zeta. case_decide as Hx; [by rewrite Hx | reflexivity].
Qed.

Lemma text_fields_chain (elem : Element) (k : pystr) :
  chain (VDict (text_fields ∅ elem)) [] k = Ok (leaf_at (ET.children elem) [] k).
Proof. apply text_fields_get. Qed.

Lemma parsePaymentMeans_nest (xml_element : Element) :
  parsePaymentMeans xml_element
  = VDict (nest_dict (py "PayeeFinancialAccount")
             (fields_with (py "FinancialInstitutionBranch")) xml_element).
Proof.
  unfold parsePaymentMeans, nest_dict. f_equal. apply fold_left_ext.
  intros d x. unfold nest_value. cbn zeta.
  case_decide as Hx; [by rewrite Hx | reflexivity].
Qed.

Lemma parseTaxTotal_nest (xml_element : Element) :
  parseTaxTotal xml_element
  = VDict (nest_dict (py "TaxSubtotal")
             (nest_dict (py "TaxCategory") (fields_with (py "TaxScheme")))
             xml_element).
Proof.
  unfold parseTaxTotal. f_equal. unfold nest_dict at 1. apply fold_left_ext.
  intros d x. unfold nest_value at 1. cbn zeta.
  case_decide as Hx; [rewrite Hx|reflexivity]. do 2 f_equal.
  unfold nest_dict. apply fold_left_ext.
  intros d1 c. unfold nest_value. cbn zeta.
  case_decide as Hc; [rewrite Hc|reflexivity]. do 2 f_equal.
  unfold fields_with. apply fold_left_ext.
  intros d2 sub. cbn zeta. case_decide as Hs; [|reflexivity].
  rewrite Hs. apply insert_insert_eq.
Qed.

(** ** Header *)

Lemma leaf_at_text (xs : list Element) (ps : list pystr) (k : pystr) :
  exists t, leaf_at xs ps k = of_text t.
Proof.
  revert xs. induction ps as [|p ps IH]; intros xs; cbn [leaf_at].
  - destruct (last_tagged k xs) as [c|]; [by eexists | by exists None].
  - destruct (last_tagged p xs) as [c|]; [apply IH | by exists None].
Qed.

Lemma parse_payment_id_leaf (xs : list Element) (ps : list pystr) (k : pystr) :
  _parse_payment_id (leaf_at xs ps k) = Ok (payment_split (leaf_at xs ps k)).
Proof. destruct (leaf_at_text xs ps k) as [[s|] ->]; reflexivity. Qed.

Lemma sol_init_lookup (k : pystr) :
  k ∉ [py "AccountingCustomerParty"; py "AccountingSupplierParty";
       py "InvoiceLines"; py "Note"] ->
  sol_init !! k = None.
Proof.
  rewrite !elem_of_cons, elem_of_nil. intros Hk. unfold sol_init.
  rewrite !lookup_insert_ne by (intros <-; tauto). apply lookup_empty.
Qed.

Section WalkedSol.

Variable v : variant.
Variable xs : list Element.
Variable sol : pydict.
Hypothesis Hwalk :
  for_each (Run_step (line_tag_of v) (parseInvoiceLine_of v)) xs sol_init = Ok sol.

(** A leaf that no handler takes: the text of the last element of the
    tag. *)
Lemma walk_scalar (k : pystr) :
  k ∉ special_tags v ->
  k ∉ [py "InvoiceLines"; py "PdfDocument"; py "LegalMonetaryTotal";
       py "TaxTotal"; py "PaymentMeans"; py "AccountingSupplierParty";
       py "AccountingCustomerParty"; py "InvoicePeriod"] ->
  chain (VDict sol) [] k = Ok (leaf_at xs [] k).
Proof using Hwalk.
  intros Hs Hk. rewrite !elem_of_cons, elem_of_nil in Hk.
  cbn [chain get leaf_at].
  rewrite (walk_slot v xs sol_init sol k Hwalk Hs) by tauto.
  destruct (last_tagged k xs) as [c|] eqn:Hc.
  - apply last_tagged_tag in Hc as [Hc _]. cbn. unfold top_value. cbn zeta.
    rewrite Hc. by rewrite !decide_False by tauto.
  - rewrite sol_init_lookup; [reflexivity|].
    rewrite !elem_of_cons, elem_of_nil. unfold special_tags in Hs.
    rewrite !elem_of_cons, elem_of_nil in Hs. tauto.
Qed.

(** A block that a handler takes: the chain goes on in the dict of the
    last element of the tag. *)
Lemma walk_handler (p : pystr) (ps : list pystr) (k : pystr) :
  p ∈ [py "LegalMonetaryTotal"; py "TaxTotal"; py "PaymentMeans"] ->
  (forall c, prettify_tag (ET.tag c) = p ->
     chain (top_value c) ps k = Ok (leaf_at (ET.children c) ps k)) ->
  chain (VDict sol) (p :: ps) k = Ok (leaf_at xs (p :: ps) k).
Proof using Hwalk.
  intros Hp Hc. cbn [chain get leaf_at].
  assert (Hs : (p ∉ special_tags v) /\ p <> py "InvoiceLines"
               /\ p <> py "PdfDocument"
               /\ (p ∉ [py "AccountingCustomerParty"; py "AccountingSupplierParty";
                        py "InvoiceLines"; py "Note"])).
  { rewrite !elem_of_cons, elem_of_nil in Hp. unfold special_tags.
    clear Hwalk Hc.
    destruct Hp as [->|[->|[->|[]]]]; repeat split;
      first [lit_neq | destruct v; py_notin]. }
  destruct Hs as (Hs & Hl & Hpdf & Hinit).
  rewrite (walk_slot v xs sol_init sol p Hwalk Hs Hl Hpdf).
  destruct (last_tagged p xs) as [c|] eqn:Hlast; cbn.
  - apply last_tagged_tag in Hlast as [Htag _]. by apply Hc.
  - rewrite (sol_init_lookup p Hinit). cbn. apply chain_empty.
Qed.

End WalkedSol.

Lemma top_value_handler (c : Element) :
  (prettify_tag (ET.tag c) = py "LegalMonetaryTotal" ->
   top_value c = VDict (text_fields ∅ c))
  /\ (prettify_tag (ET.tag c) = py "TaxTotal" -> top_value c = parseTaxTotal c)
  /\ (prettify_tag (ET.tag c) = py "PaymentMeans" ->
      top_value c = parsePaymentMeans c).
Proof.
  unfold top_value. cbn zeta. repeat split; intros ->.
  - by rewrite decide_True.
  - rewrite decide_False by lit_neq. by rewrite decide_True.
  - rewrite !decide_False by lit_neq. by rewrite decide_True.
Qed.

Lemma header_fields_walked (v : variant) (xs : list Element) (sol : pydict) :
  for_each (Run_step (line_tag_of v) (parseInvoiceLine_of v)) xs sol_init = Ok sol ->
  header_fields sol = Ok (header_record Invoice xs)
  /\ chain (VDict sol) [] (py "IssueDate") = Ok (leaf_at xs [] (py "IssueDate")).
Proof.
  intros Hwalk.
  assert (Hscalar : forall k,
            k ∈ [py "InvoiceDocumentReference"; py "TaxCurrencyCode";
                 py "DueDate"; py "CustomizationID"; py "ID"; py "IssueDate"] ->
            chain (VDict sol) [] k = Ok (leaf_at xs [] k)).
  { intros k Hk. rewrite !elem_of_cons, elem_of_nil in Hk.
    apply (walk_scalar v xs sol Hwalk); unfold special_tags;
      destruct Hk as [->|[->|[->|[->|[->|[->|[]]]]]]]; destruct v; py_notin. }
  assert (Hpm : forall k,
            k <> py "PayeeFinancialAccount" ->
            chain (VDict sol) [py "PaymentMeans"] k
            = Ok (leaf_at xs [py "PaymentMeans"] k)).
  { intros k Hk. apply (walk_handler v xs sol Hwalk);
      [rewrite !elem_of_cons; tauto|].
    intros c Hc. rewrite (proj2 (proj2 (top_value_handler c)) Hc).
    rewrite parsePaymentMeans_nest. by apply nest_dict_get. }
  split; [|apply Hscalar; rewrite !elem_of_cons; tauto].
  unfold header_fields, header_record. cbn zeta.
  rewrite !Hpm by lit_neq.
  rewrite !Hscalar by (rewrite !elem_of_cons; tauto).
  rewrite (walk_handler v xs sol Hwalk (py "TaxTotal") [] (py "TaxAmount")).
  2: { rewrite !elem_of_cons; tauto. }
  2: { intros c Hc. rewrite (proj1 (proj2 (top_value_handler c)) Hc).
       rewrite parseTaxTotal_nest. apply nest_dict_get. lit_neq. }
  rewrite (walk_handler v xs sol Hwalk (py "TaxTotal")
             [py "TaxSubtotal"; py "TaxCategory"] (py "Percent")).
  2: { rewrite !elem_of_cons; tauto. }
  2: { intros c Hc. rewrite (proj1 (proj2 (top_value_handler c)) Hc).
       rewrite parseTaxTotal_nest. apply nest_dict_chain. intros c1.
       apply nest_dict_chain. intros c2. apply fields_with_get. lit_neq. }
  rewrite (walk_handler v xs sol Hwalk (py "TaxTotal")
             [py "TaxSubtotal"; py "TaxCategory"] (py "TaxExemptionReason")).
  2: { rewrite !elem_of_cons; tauto. }
  2: { intros c Hc. rewrite (proj1 (proj2 (top_value_handler c)) Hc).
       rewrite parseTaxTotal_nest. apply nest_dict_chain. intros c1.
       apply nest_dict_chain. intros c2. apply fields_with_get. lit_neq. }
  rewrite (walk_handler v xs sol Hwalk (py "TaxTotal")
             [py "TaxSubtotal"] (py "TaxableAmount")).
  2: { rewrite !elem_of_cons; tauto. }
  2: { intros c Hc. rewrite (proj1 (proj2 (top_value_handler c)) Hc).
       rewrite parseTaxTotal_nest. apply nest_dict_chain. intros c1.
       apply nest_dict_get. lit_neq. }
  rewrite (walk_handler v xs sol Hwalk (py "PaymentMeans")
             [py "PayeeFinancialAccount"] (py "ID")).
  2: { rewrite !elem_of_cons; tauto. }
  2: { intros c Hc. rewrite (proj2 (proj2 (top_value_handler c)) Hc).
       rewrite parsePaymentMeans_nest. apply nest_dict_chain. intros c1.
       apply fields_with_get. lit_neq. }
  rewrite (walk_handler v xs sol Hwalk (py "LegalMonetaryTotal") []
             (py "PayableAmount")).
  2: { rewrite !elem_of_cons; tauto. }
  2: { intros c Hc. rewrite (proj1 (top_value_handler c) Hc).
       apply text_fields_chain. }
  unfold mbind, outcome_bind. rewrite parse_payment_id_leaf.
  destruct (payment_split _). reflexivity.
Qed.

(** X3: every parsed field of the header of a returned document is the
    text reached in the document by the last element of each tag on its
    path ([TaxTotal/TaxSubtotal/TaxCategory/Percent],
    [PaymentMeans/PayeeFinancialAccount/ID], [LegalMonetaryTotal/PayableAmount],
    the top-level [ID], ...), null when an element of the path is absent;
    the due date is the last top-level [DueDate] for an invoice and the
    last top-level [IssueDate] for a credit note, whatever [DueDate] it
    carries. *)
Theorem X3_header_of_tree (v : variant) (xml_root : Element) (out : ParsedDocument) :
  Run_of v xml_root = Ok out ->
  invoice_header out = header_record v (ET.children xml_root).
Proof.
  rewrite Run_of_unfold. intros H. apply bind_Ok in H as (sol & Hwalk & Hout).
  destruct (header_fields_walked v _ sol Hwalk) as [Hh Hissue].
  destruct v; cbn [post_process_of] in Hout.
  - apply post_process_header in Hout. rewrite Hh in Hout. by injection Hout.
  - unfold CreditNoteParser._post_process_result_dict in Hout. binds Hout.
    injection Hout as <-. cbn [invoice_header].
    apply post_process_header in Hv. rewrite Hh in Hv. injection Hv as <-.
    rewrite Hissue in Hv0. injection Hv0 as <-. reflexivity.
Qed.

Lemma X3_header_of_tree_witness :
  exists out,
    Run_of CreditNote doc_payment = Ok out
    /\ invoice_header out = header_record CreditNote (ET.children doc_payment).
Proof.
  eexists. split; [vm_compute; reflexivity|].
  apply (X3_header_of_tree CreditNote doc_payment). vm_compute. reflexivity.
Defined.

(** ** Parties of a returned document *)

Lemma top_value_party (c : Element) (slot : pystr) :
  slot = py "AccountingSupplierParty" \/ slot = py "AccountingCustomerParty" ->
  prettify_tag (ET.tag c) = slot -> top_value c = parseAccountingParty c.
Proof.
  unfold top_value. cbn zeta. intros [->| ->] ->.
  - rewrite !decide_False by lit_neq. by rewrite decide_True.
  - rewrite !decide_False by lit_neq. by rewrite decide_True.
Qed.

Lemma walked_party (v : variant) (xs : list Element) (sol : pydict)
    (slot : pystr) (p : Party.t) :
  slot = py "AccountingSupplierParty" \/ slot = py "AccountingCustomerParty" ->
  for_each (Run_step (line_tag_of v) (parseInvoiceLine_of v)) xs sol_init = Ok sol ->
  party_fields sol slot = Ok p ->
  exists block,
    last_tagged slot xs = Some block
    /\ p = party_record (children_under (py "Party") block).
Proof.
  intros Hslot Hwalk Hp.
  assert (Hs : (slot ∉ special_tags v) /\ slot <> py "InvoiceLines"
               /\ slot <> py "PdfDocument").
  { unfold special_tags. clear Hwalk Hp.
    destruct Hslot as [->| ->]; repeat split;
      first [lit_neq | destruct v; py_notin]. }
  destruct Hs as (Hs & Hl & Hpdf).
  pose proof (walk_slot v xs sol_init sol slot Hwalk Hs Hl Hpdf) as Hsol.
  destruct (last_tagged slot xs) as [block|] eqn:Hlast.
  - exists block. split; [reflexivity|].
    apply last_tagged_tag in Hlast as [Htag _].
    rewrite (top_value_party block slot Hslot Htag) in Hsol.
    rewrite (party_fields_of_block sol slot block Hsol) in Hp.
    by injection Hp.
  - assert (sol !! slot = Some (VList [])) as Hlist.
    { rewrite Hsol. clear -Hslot. destruct Hslot as [->| ->]; vm_compute; reflexivity. }
    rewrite (party_fields_not_dict _ _ _ Hlist) in Hp. discriminate Hp.
Qed.

(** C7: when a trading-party tag (supplier or customer) occurs at the top
    level, the party record of the output holds the values of the last
    such block alone, whatever stands before it: each field is the text
    reached below the [Party] wrappers of that last block. *)
Theorem C7_last_party_wins (v : variant) (xml_root last : Element)
    (pre post : list Element) (slot : pystr) (out : ParsedDocument) :
  slot = py "AccountingSupplierParty" \/ slot = py "AccountingCustomerParty" ->
  ET.children xml_root = pre ++ last :: post ->
  prettify_tag (ET.tag last) = slot ->
  Forall (fun elem => prettify_tag (ET.tag elem) <> slot) post ->
  Run_of v xml_root = Ok out ->
  party_of slot out = party_record (children_under (py "Party") last).
Proof.
  intros Hslot Hch Htag Hpost. rewrite Run_of_unfold. intros H.
  apply bind_Ok in H as (sol & Hwalk & Hout).
  unfold walk in Hwalk. rewrite Hch, for_each_app in Hwalk.
  apply bind_Ok in Hwalk as (s1 & _ & Hwalk). cbn [for_each] in Hwalk.
  rewrite (Run_step_party v s1 last slot Hslot Htag) in Hwalk. cbn in Hwalk.
  assert (Hsol : sol !! slot = Some (parseAccountingParty last)).
  { rewrite (walk_frame _ _ _ _ _ _ Hwalk Hpost)
      by (destruct Hslot as [-> | ->]; lit_neq).
    apply lookup_insert_eq. }
  destruct (post_process_of_parties v sol out Hout) as [Hsup Hcus].
  pose proof (party_fields_of_block sol slot last Hsol) as Hrec.
  unfold party_of. destruct Hslot as [-> | ->].
  - rewrite decide_True by reflexivity. rewrite Hsup in Hrec. by injection Hrec.
  - rewrite decide_False by lit_neq. rewrite Hcus in Hrec. by injection Hrec.
Qed.

Lemma C7_last_party_wins_witness :
  exists out,
    Run_of Invoice doc_two_suppliers = Ok out
    /\ party_of (py "AccountingSupplierParty") out
       = party_record (children_under (py "Party")
           (node "AccountingSupplierParty" [party "2" "Second"]))
    /\ Party.edi_id (supplier out) = VStr (py "2")
    /\ Party.edi_name (supplier out) = VStr (py "Second").
Proof.
  eexists. split; [vm_compute; reflexivity|].
  split; [|split; vm_compute; reflexivity].
  apply (C7_last_party_wins Invoice doc_two_suppliers
    (node "AccountingSupplierParty" [party "2" "Second"])
    [node "AccountingSupplierParty" [party "1" "First"]; leaf "ID" "7"]
    [node "AccountingCustomerParty" [party "3" "Buyer"]]
    (py "AccountingSupplierParty")).
  - left. reflexivity.
  - reflexivity.
  - vm_compute. reflexivity.
  - repeat constructor. lit_neq.
  - vm_compute. reflexivity.
Defined.

(** X4: a returned document had both trading-party blocks, and its
    supplier and customer records are read off the last block of each
    tag: every field is the text reached below the [Party] wrappers of
    that block by the last element of each tag on its path. *)
Theorem X4_parties_of_tree (v : variant) (xml_root : Element) (out : ParsedDocument) :
  Run_of v xml_root = Ok out ->
  exists s c,
    last_tagged (py "AccountingSupplierParty") (ET.children xml_root) = Some s
    /\ last_tagged (py "AccountingCustomerParty") (ET.children xml_root) = Some c
    /\ supplier out = party_record (children_under (py "Party") s)
    /\ customer out = party_record (children_under (py "Party") c).
Proof.
  rewrite Run_of_unfold. intros H. apply bind_Ok in H as (sol & Hwalk & Hout).
  destruct (post_process_of_parties v sol out Hout) as [Hsup Hcus].
  destruct (walked_party v _ sol _ _ (or_introl eq_refl) Hwalk Hsup)
    as (s & Hs & Hsrec).
  destruct (walked_party v _ sol _ _ (or_intror eq_refl) Hwalk Hcus)
    as (c & Hc & Hcrec).
  by exists s, c.
Qed.

Lemma X4_parties_of_tree_witness :
  exists out s c,
    Run_of Invoice doc_two_suppliers = Ok out
    /\ last_tagged (py "AccountingSupplierParty") (ET.children doc_two_suppliers)
       = Some s
    /\ last_tagged (py "AccountingCustomerParty") (ET.children doc_two_suppliers)
       = Some c
    /\ supplier out = party_record (children_under (py "Party") s)
    /\ customer out = party_record (children_under (py "Party") c).
Proof.
  eexists.
  destruct (X4_parties_of_tree Invoice doc_two_suppliers _
              ltac:(vm_compute; reflexivity)) as (s & c & H).
  exists s, c. split; [vm_compute; reflexivity | exact H].
Defined.

(** ** When a handler raises *)

(** A loop whose turns succeed or raise [e] whatever the state. *)
Lemma for_each_ok_or_raise {A S} (body : S -> A -> outcome S) (P : A -> Prop)
    `{!forall x, Decision (P x)} (e : exn) (xs : list A) (s : S) :
  (forall s x, P x -> exists s', body s x = Ok s') ->
  (forall s x, ~ P x -> body s x = Raise e) ->
  (Forall P xs -> exists s', for_each body xs s = Ok s')
  /\ (~ Forall P xs -> for_each body xs s = Raise e).
Proof.
  intros Hok Hraise. revert s.
  induction xs as [|x xs IH]; intros s; cbn [for_each].
  - split; [by eexists | intros Hall; destruct Hall; constructor].
  - destruct (decide (P x)) as [Hx|Hx].
    + destruct (Hok s x Hx) as [s' ->]. cbn. destruct (IH s') as [IH1 IH2].
      split.
      * intros [_ Hall]%Forall_cons. by apply IH1.
      * intros Hall. apply IH2. intros Hxs. apply Hall. by constructor.
    + rewrite (Hraise s x Hx). split; [|done].
      by intros [? _]%Forall_cons.
Qed.

Lemma store_attrib_present child k d v :
  ET.attrib child !! k = Some v -> store_attrib child k d = Ok (<[k := VStr v]> d).
Proof. unfold store_attrib. by intros ->. Qed.

Lemma not_impl_dec (A B : Prop) `{!Decision A} : ~ (A -> B) -> A /\ ~ B.
Proof.
  intros HAB. destruct (decide A) as [HA|HA].
  - split; [exact HA|]. intros HB. by apply HAB.
  - destruct HAB. intros HA'. destruct (HA HA').
Qed.

(** Settles [parseInvoiceLine] of the variant [V] by the turns of its
    loop. *)
Ltac line_turns V fin :=
  match goal with
  | |- context [for_each ?body ?xs ?s0] =>
      destruct (for_each_ok_or_raise body (line_child_ok V) KeyError xs s0)
        as [Hok Hraise];
      [ intros d c; unfold line_child_ok; cbn [quantity_tag_of]; cbn zeta;
        intros [Hu Hc]; repeat case_decide; try (by eexists);
        [ destruct (Hu ltac:(assumption)) as [u Hu'];
          rewrite (store_attrib_present _ _ _ _ Hu'); by eexists
        | destruct (Hc ltac:(assumption)) as [u Hc'];
          rewrite (store_attrib_present _ _ _ _ Hc'); by eexists ]
      | intros d c; unfold line_child_ok; cbn [quantity_tag_of]; cbn zeta;
        intros Hnot; apply not_and_l in Hnot as [Hnot|Hnot];
        apply not_impl_dec in Hnot as [Htag Hnone]; try apply _;
        rewrite <- eq_None_not_Some in Hnone; rewrite Htag;
        rewrite !decide_False by lit_neq;
        rewrite decide_True by reflexivity;
        by rewrite store_attrib_missing
      | fin ]
  end.

Lemma parseInvoiceLine_of_accepts (v : variant) (line : Element) :
  Forall (line_child_ok v) (ET.children line) ->
  exists d, parseInvoiceLine_of v line = Ok d.
Proof.
  destruct v; cbn [parseInvoiceLine_of].
  - unfold InvoiceParser.parseInvoiceLine.
    line_turns Invoice ltac:(intros H; destruct (Hok H) as [d ->]; by eexists).
  - unfold CreditNoteParser.parseInvoiceLine.
    line_turns CreditNote ltac:(intros H; destruct (Hok H) as [d ->]; by eexists).
Qed.

(** X5: [parseInvoiceLine] of either class returns a dict exactly when
    every quantity child of the line has a [unitCode] attribute and every
    [LineExtensionAmount] child a [currencyID] attribute; otherwise it
    raises [KeyError]. *)
Theorem X5_line_raises_on_missing_attribute (v : variant) (line : Element) :
  (Forall (line_child_ok v) (ET.children line) ->
   exists d, parseInvoiceLine_of v line = Ok (VDict d))
  /\ (~ Forall (line_child_ok v) (ET.children line) ->
      parseInvoiceLine_of v line = Raise KeyError).
Proof.
  destruct v; cbn [parseInvoiceLine_of].
  - unfold InvoiceParser.parseInvoiceLine.
    line_turns Invoice
      ltac:(split;
            [ intros H; destruct (Hok H) as [d ->]; by exists d
            | intros H; by rewrite (Hraise H) ]).
  - unfold CreditNoteParser.parseInvoiceLine.
    line_turns CreditNote
      ltac:(split;
            [ intros H; destruct (Hok H) as [d ->]; by exists d
            | intros H; by rewrite (Hraise H) ]).
Qed.

Lemma X5_line_raises_on_missing_attribute_witness :
  (exists d, parseInvoiceLine_of Invoice line_units = Ok (VDict d))
  /\ parseInvoiceLine_of Invoice line_no_currency = Raise KeyError.
Proof.
  split.
  - apply (proj1 (X5_line_raises_on_missing_attribute Invoice line_units)).
    repeat constructor;
      first [ lit_neq | intros _; eexists; vm_compute; reflexivity ].
  - apply (proj2 (X5_line_raises_on_missing_attribute Invoice line_no_currency)).
    intros H. apply Forall_cons in H as [_ H].
    apply Forall_cons in H as [[_ Hc] _].
    destruct (Hc ltac:(vm_compute; reflexivity)) as [u Hu].
    vm_compute in Hu. discriminate Hu.
Defined.

(** A loop whose turns succeed or raise whatever the state. *)
Lemma for_each_ok_or_raises {A S} (body : S -> A -> outcome S) (P : A -> Prop)
    `{!forall x, Decision (P x)} (Q : exn -> Prop) (xs : list A) (s : S) :
  (forall s x, P x -> exists s', body s x = Ok s') ->
  (forall s x, ~ P x -> exists e, body s x = Raise e /\ Q e) ->
  (Forall P xs -> exists s', for_each body xs s = Ok s')
  /\ (~ Forall P xs -> exists e, for_each body xs s = Raise e /\ Q e).
Proof.
  intros Hok Hraise. revert s.
  induction xs as [|x xs IH]; intros s; cbn [for_each].
  - split; [by eexists | intros Hall; destruct Hall; constructor].
  - destruct (decide (P x)) as [Hx|Hx].
    + destruct (Hok s x Hx) as [s' ->]. cbn. destruct (IH s') as [IH1 IH2].
      split.
      * intros [_ Hall]%Forall_cons. by apply IH1.
      * intros Hall. apply IH2. intros Hxs. apply Hall. by constructor.
    + destruct (Hraise s x Hx) as (e & -> & He). split.
      * by intros [? _]%Forall_cons.
      * intros _. by exists e.
Qed.

Lemma parsePdfDocument_accepts (xml_element : Element) :
  Forall (fun child => is_Some (stripped_octets (ET.text child)))
    (embedded_objects xml_element) ->
  exists r, parsePdfDocument xml_element = Ok r.
Proof.
  intros Hobjs. unfold parsePdfDocument. rewrite pdf_outer_loop.
  change (filter _ (concat _)) with (embedded_objects xml_element).
  assert (Hloop : forall pdf_doc, exists pdf,
            for_each (fun (_ : pyval) child => encode_attachment (ET.text child))
              (embedded_objects xml_element) pdf_doc = Ok pdf).
  { induction Hobjs as [|c cs [b Hb] _ IH]; intros pdf_doc; cbn [for_each].
    - by eexists.
    - rewrite (encode_attachment_octets _ _ Hb). cbn. apply IH. }
  destruct (Hloop (VStr [])) as [pdf ->]. cbn.
  destruct (truthy pdf); by eexists.
Qed.

(** X6: [parsePdfDocument] returns exactly when every embedded binary
    object under the [Attachment] children has a text that encodes;
    otherwise it raises [AttributeError] (an object without text) or
    [UnicodeEncodeError] (a text with a surrogate). *)
Theorem X6_pdf_raises_on_bad_object (xml_element : Element) :
  (Forall (fun child => is_Some (stripped_octets (ET.text child)))
     (embedded_objects xml_element) ->
   exists r, parsePdfDocument xml_element = Ok r)
  /\ (~ Forall (fun child => is_Some (stripped_octets (ET.text child)))
        (embedded_objects xml_element) ->
      exists e, parsePdfDocument xml_element = Raise e
                /\ (e = AttributeError \/ e = UnicodeEncodeError)).
Proof.
  unfold parsePdfDocument. rewrite pdf_outer_loop.
  change (filter _ (concat _)) with (embedded_objects xml_element).
  destruct (for_each_ok_or_raises
              (fun (_ : pyval) child => encode_attachment (ET.text child))
              (fun child => is_Some (stripped_octets (ET.text child)))
              (fun e => e = AttributeError \/ e = UnicodeEncodeError)
              (embedded_objects xml_element) (VStr [])) as [Hok Hraise].
  - intros _ c [b Hb]. rewrite (encode_attachment_octets _ _ Hb). by eexists.
  - intros _ c Hc. rewrite <- eq_None_not_Some in Hc.
    unfold encode_attachment, stripped_octets in *.
    destruct (ET.text c) as [t|]; [rewrite Hc|]; eauto.
  - split.
    + intros H. destruct (Hok H) as [pdf ->]. cbn.
      destruct (truthy pdf); by eexists.
    + intros H. destruct (Hraise H) as (e & -> & He). by exists e.
Qed.

Lemma X6_pdf_raises_on_bad_object_witness :
  exists e, parsePdfDocument
              (node "AdditionalDocumentReference"
                 [node "Attachment" [empty_leaf "EmbeddedDocumentBinaryObject"]])
            = Raise e
            /\ (e = AttributeError \/ e = UnicodeEncodeError).
Proof.
  apply (proj2 (X6_pdf_raises_on_bad_object _)).
  assert (E : embedded_objects
                (node "AdditionalDocumentReference"
                   [node "Attachment" [empty_leaf "EmbeddedDocumentBinaryObject"]])
              = [empty_leaf "EmbeddedDocumentBinaryObject"])
    by (vm_compute; reflexivity).
  rewrite E. intros H. apply Forall_cons in H as [[b Hb] _].
  discriminate Hb.
Defined.

(** ** Elements without a trace, in general *)

Lemma Run_step_extensions (v : variant) (sol : pydict) (elem : Element) :
  prettify_tag (ET.tag elem) = py "UBLExtensions" ->
  Run_step (line_tag_of v) (parseInvoiceLine_of v) sol elem = Ok sol.
Proof. intros Htag. unfold Run_step. rewrite Htag. by rewrite decide_True. Qed.

(** X7: top-level elements of a tag that is neither a key read by the
    projector, nor the line tag, [AdditionalDocumentReference] or [Note],
    raise nothing and leave no trace: the outcome of [Run] is that of the
    document without them.  Such are the [UBLExtensions] block, which the
    loop skips, the [InvoicePeriod] block, which is parsed but never
    projected, and every unknown element. *)
Theorem X7_untraced_elements (v : variant) (xml_root : Element) (K : pystr) :
  K ∉ traced_tags v ->
  Run_of v xml_root = Run_of v (without K xml_root).
Proof.
  unfold traced_tags. rewrite elem_of_app, !elem_of_cons, elem_of_nil.
  intros HK. rewrite !Run_of_unfold.
  assert (Hread : Forall (fun k => k <> K) read_keys).
  { apply Forall_forall. intros k Hk ->. tauto. }
  apply (outcome_rel_bind (agree K)).
  - unfold walk, without. cbn [ET.children].
    apply (walk_skip _ _ K) with (Inv := fun _ => True); try done.
    + intros ->. apply HK. left. unfold read_keys. rewrite !elem_of_cons. tauto.
    + intros s elem _ Htag. exists (top_value elem).
      destruct (decide (K = py "UBLExtensions")) as [HU|HU].
      * right. apply Run_step_extensions. congruence.
      * left. rewrite <- Htag. apply Run_step_own. rewrite Htag.
        unfold special_tags. rewrite !elem_of_cons, elem_of_nil. tauto.
  - intros r1 r2. by apply post_process_of_agree.
Qed.

Lemma X7_untraced_elements_witness :
  Run_of Invoice doc_period
  = Run_of Invoice (without (py "InvoicePeriod") doc_period)
  /\ Run_of Invoice doc_period
     = Run_of Invoice (without (py "UBLExtensions") doc_period).
Proof.
  split; apply X7_untraced_elements;
    unfold traced_tags, read_keys; cbn [app line_tag_of]; py_notin.
Defined.

(** ** What the line record does not read *)

(** X8: the record of a line does not depend on any key of the line dict
    but the eight that [_flatten_invoice_lines] reads; so the [unitCode]
    and the [currencyID] that [parseInvoiceLine] stores in the line dict
    never reach the output. *)
Theorem X8_line_record_frame (d : pydict) (k : pystr) (x : pyval) :
  k ∉ line_read_keys ->
  flatten_invoice_line (VDict (<[k := x]> d)) = flatten_invoice_line (VDict d).
Proof.
  unfold line_read_keys. rewrite !elem_of_cons, elem_of_nil. intros Hk.
  assert (Hne : forall key, key ∈ line_read_keys -> <[k := x]> d !! key = d !! key).
  { intros key Hkey. apply lookup_insert_ne. intros ->.
    unfold line_read_keys in Hkey. rewrite !elem_of_cons, elem_of_nil in Hkey.
    tauto. }
  unfold flatten_invoice_line, item_or_line.
  rewrite !(chain_ext (<[k := x]> d) d)
    by (cbn [hd]; apply Hne; unfold line_read_keys; rewrite !elem_of_cons; tauto).
  reflexivity.
Qed.

Lemma X8_line_record_frame_witness :
  flatten_invoice_line (VDict (<[py "unitCode" := VStr (py "KOM")]> line_dict_E0))
  = flatten_invoice_line (VDict line_dict_E0)
  /\ flatten_invoice_line (VDict (<[py "currencyID" := VStr (py "HRK")]> line_dict_E0))
     = flatten_invoice_line (VDict line_dict_E0).
Proof.
  split; apply X8_line_record_frame; unfold line_read_keys; py_notin.
Defined.

(** ** Lines of a returned document *)

Lemma Run_step_lines_frame (v : variant) (sol sol' : pydict) (elem : Element) :
  prettify_tag (ET.tag elem) <> line_tag_of v ->
  prettify_tag (ET.tag elem) <> py "InvoiceLines" ->
  Run_step (line_tag_of v) (parseInvoiceLine_of v) sol elem = Ok sol' ->
  sol' !! py "InvoiceLines" = sol !! py "InvoiceLines".
Proof.
  intros Hline Htag H.
  destruct (decide (prettify_tag (ET.tag elem) ∈ special_tags v)) as [Hs|Hs].
  - unfold special_tags in Hs. rewrite !elem_of_cons, elem_of_nil in Hs.
    destruct Hs as [Hs|[Hs|[Hs|[Hs|[]]]]]; [|done| |].
    + rewrite (Run_step_extensions v sol elem Hs) in H. by injection H as <-.
    + unfold Run_step in H. rewrite Hs in H.
      rewrite !decide_False in H by (destruct v; lit_neq).
      rewrite decide_True in H by reflexivity.
      binds H. injection H as <-. apply lookup_insert_ne. lit_neq.
    + rewrite (Run_step_note v sol elem Hs) in H. unfold add_note in H.
      destruct (ET.text elem); [|by injection H as <-].
      destruct (negb _).
      * injection H as <-. apply lookup_insert_ne. lit_neq.
      * binds H. injection H as <-. apply lookup_insert_ne. lit_neq.
  - rewrite (Run_step_own v sol elem Hs) in H. injection H as <-.
    by apply lookup_insert_ne.
Qed.

Lemma Run_step_line (v : variant) (sol sol' : pydict) (elem : Element) ls :
  prettify_tag (ET.tag elem) = line_tag_of v ->
  sol !! py "InvoiceLines" = Some (VList ls) ->
  Run_step (line_tag_of v) (parseInvoiceLine_of v) sol elem = Ok sol' ->
  exists d, parseInvoiceLine_of v elem = Ok d
            /\ sol' !! py "InvoiceLines" = Some (VList (ls ++ [d])).
Proof.
  intros Htag Hls. unfold Run_step, getitem. rewrite Htag, Hls.
  rewrite decide_False by (destruct v; lit_neq).
  rewrite decide_True by reflexivity. cbn [default]. intros H.
  apply bind_Ok in H as (d & Hd & H). injection H as <-.
  exists d. split; [exact Hd | apply lookup_insert_eq].
Qed.

Lemma walk_lines (v : variant) (xs : list Element) (sol sol' : pydict) ls :
  for_each (Run_step (line_tag_of v) (parseInvoiceLine_of v)) xs sol = Ok sol' ->
  Forall (fun elem => prettify_tag (ET.tag elem) <> py "InvoiceLines") xs ->
  sol !! py "InvoiceLines" = Some (VList ls) ->
  exists ds,
    sol' !! py "InvoiceLines" = Some (VList (ls ++ ds))
    /\ Forall2 (fun elem d => parseInvoiceLine_of v elem = Ok d)
         (filter (fun elem => prettify_tag (ET.tag elem) = line_tag_of v) xs) ds.
Proof.
  intros H Hxs. revert sol ls H.
  induction Hxs as [|x xs Hx _ IH]; intros sol ls H Hls; cbn [for_each] in H.
  - injection H as <-. exists []. rewrite app_nil_r. split; [done | constructor].
  - apply bind_Ok in H as (s1 & H1 & H). rewrite filter_cons.
    case_decide as Hline.
    + destruct (Run_step_line v sol s1 x ls Hline Hls H1) as (d & Hd & Hs1).
      destruct (IH s1 _ H Hs1) as (ds & Hsol' & Hds).
      exists (d :: ds). rewrite <- app_assoc in Hsol'. split; [exact Hsol'|].
      by constructor.
    + apply (IH s1 ls H).
      by rewrite (Run_step_lines_frame v sol s1 x Hline Hx H1).
Qed.

Lemma flatten_loop (items : list pyval) (acc rs : list Line.t) :
  for_each
    (fun flattened_invoice_lines i =>
       line ← flatten_invoice_line i; Ok (flattened_invoice_lines ++ [line]))
    items acc = Ok rs ->
  exists rs',
    rs = acc ++ rs'
    /\ Forall2 (fun i r => flatten_invoice_line i = Ok r) items rs'.
Proof.
  revert acc. induction items as [|i items IH]; intros acc H; cbn [for_each] in H.
  - injection H as <-. exists []. by rewrite app_nil_r.
  - apply bind_Ok in H as (acc1 & H1 & H).
    apply bind_Ok in H1 as (r & Hr & H1). injection H1 as <-.
    destruct (IH _ H) as (rs' & -> & Hrs').
    exists (r :: rs'). rewrite <- app_assoc. split; [done | by constructor].
Qed.

(** X9: in a returned document, when no top-level element has the tag
    [InvoiceLines], the line sequence holds one record per line element of
    the walker's variant, in document order: the record of each is the
    projection of what [parseInvoiceLine] returns for it. *)
Theorem X9_one_record_per_line (v : variant) (xml_root : Element)
    (out : ParsedDocument) :
  Run_of v xml_root = Ok out ->
  Forall (fun elem => prettify_tag (ET.tag elem) <> py "InvoiceLines")
    (ET.children xml_root) ->
  Forall2
    (fun elem r =>
       exists d, parseInvoiceLine_of v elem = Ok d
                 /\ flatten_invoice_line d = Ok r)
    (line_elements v xml_root) (invoice_lines out)
  /\ length (invoice_lines out) = length (line_elements v xml_root).
Proof.
  rewrite Run_of_unfold. intros H Hno.
  apply bind_Ok in H as (sol & Hwalk & Hout).
  destruct (walk_lines v _ sol_init sol [] Hwalk Hno) as (ds & Hds & Hparse).
  { vm_compute. reflexivity. }
  apply post_process_of_lines in Hout. unfold _flatten_invoice_lines in Hout.
  rewrite Hds in Hout. cbn in Hout.
  apply flatten_loop in Hout as (rs & -> & Hrs). cbn [app].
  assert (HF : Forall2
            (fun elem r =>
               exists d, parseInvoiceLine_of v elem = Ok d
                         /\ flatten_invoice_line d = Ok r)
            (line_elements v xml_root) rs).
  { unfold line_elements. clear Hds.
    revert rs Hrs. induction Hparse as [|e d es ds' He _ IH]; intros rs Hrs.
    - inversion Hrs. constructor.
    - inversion Hrs as [|? r ? rs' Hr Hrs']; subst. constructor; eauto. }
  split; [exact HF|]. symmetry. by eapply Forall2_length.
Qed.

Lemma X9_one_record_per_line_witness :
  exists out,
    Run_of Invoice doc_merged = Ok out
    /\ length (invoice_lines out) = length (line_elements Invoice doc_merged).
Proof.
  eexists. split; [vm_compute; reflexivity|].
  apply (X9_one_record_per_line Invoice doc_merged).
  - vm_compute. reflexivity.
  - repeat constructor; intros H; vm_compute in H; discriminate H.
Defined.

(** ** Fields of a line *)

Lemma fold_left_inv {A B} (P : A -> Prop) (f : A -> B -> A) (xs : list B) (a : A) :
  P a -> (forall a x, P a -> P (f a x)) -> P (fold_left f xs a).
Proof.
  intros Ha Hf. revert a Ha. induction xs as [|x xs IH]; intros a Ha; [done|].
  cbn [fold_left]. apply IH. by apply Hf.
Qed.

Lemma line_tax_total_frame (d : pydict) (child : Element) (K : pystr) :
  K ∉ [py "TaxAmount"; py "TaxID"; py "TaxPercent"; py "TaxExemptionReason"] ->
  line_tax_total d child !! K = d !! K.
Proof.
  rewrite !elem_of_cons, elem_of_nil. intros HK. unfold line_tax_total.
  apply (fold_left_inv (fun d' => d' !! K = d !! K)); [reflexivity|].
  intros d1 sub H1. cbn zeta.
  assert (H2 : (if decide (prettify_tag (ET.tag sub) = py "TaxAmount")
                then <[py "TaxAmount" := of_text (ET.text sub)]> d1 else d1) !! K
               = d !! K).
  { case_decide; [|done]. rewrite lookup_insert_ne by (intros <-; tauto). done. }
  destruct (decide (prettify_tag (ET.tag sub) = py "TaxSubtotal")) as [_|_];
    [|exact H2].
  apply (fold_left_inv (fun d' => d' !! K = d !! K)); [exact H2|].
  intros d2 third H3.
  destruct (decide (prettify_tag (ET.tag third) = py "TaxCategory")) as [_|_];
    [|exact H3].
  apply (fold_left_inv (fun d' => d' !! K = d !! K)); [exact H3|].
  intros d3 fourth H4. cbn zeta.
  repeat (destruct (decide _));
    rewrite ?lookup_insert_ne by (intros <-; tauto); exact H4.
Qed.

(** The loop of a line handler leaves under [K] the value of the last
    child of tag [src], when the turns of the children of that tag store
    it there and the turns of the others do not write [K]. *)
Lemma for_each_slot (body : pydict -> Element -> outcome pydict)
    (src K : pystr) (val : Element -> pyval) (G : Element -> Prop)
    (cs : list Element) (d0 d : pydict) :
  (forall d c d', G c -> prettify_tag (ET.tag c) = src ->
     body d c = Ok d' -> d' !! K = Some (val c)) ->
  (forall d c d', G c -> prettify_tag (ET.tag c) <> src ->
     body d c = Ok d' -> d' !! K = d !! K) ->
  Forall G cs ->
  for_each body cs d0 = Ok d ->
  d !! K = match last_tagged src cs with
           | Some c => Some (val c)
           | None => d0 !! K
           end.
Proof.
  intros Hsrc Hother HG. revert d0.
  induction HG as [|c cs Hc _ IH]; intros d0 H; cbn [for_each] in H.
  - by injection H as <-.
  - apply bind_Ok in H as (d1 & H1 & H). rewrite (IH _ H). cbn [last_tagged].
    destruct (last_tagged src cs); [reflexivity|].
    case_decide as Htag; [by eapply Hsrc | by eapply Hother].
Qed.

Lemma store_attrib_inv child k d d' :
  store_attrib child k d = Ok d' -> exists u, d' = <[k := VStr u]> d.
Proof.
  unfold store_attrib. destruct (ET.attrib child !! k) as [u|]; [|discriminate].
  intros [= <-]. by exists u.
Qed.

(** Ends a case with two literals assumed equal. *)
Ltac lit_absurd :=
  exfalso;
  match goal with
  | H : py _ = py _ |- _ => vm_compute in H; discriminate H
  | H : ?a = py _, H' : ?a = py _ |- _ =>
      rewrite H in H'; vm_compute in H'; discriminate H'
  | H : ?a = ?b, H' : ?a <> ?b |- _ => destruct (H' H)
  end.

(** Reads a key in the dict that a turn of a line loop returns. *)
Ltac line_lookup :=
  repeat first
    [ rewrite lookup_insert_eq
    | rewrite lookup_insert_ne
        by first [ assumption | congruence
                 | match goal with |- py _ <> py _ => lit_neq end ]
    | rewrite line_tax_total_frame by py_notin ];
  first [ reflexivity | assumption | congruence ].

(** Settles one turn of a line loop, given as [Hbody]. *)
Ltac line_turn Htag Hbody :=
  cbn beta zeta in Hbody;
  repeat case_decide;
  try lit_absurd;
  first [ injection Hbody as <-
        | apply store_attrib_inv in Hbody as [? ->] ];
  try rewrite Htag;
  line_lookup.

Lemma line_value_leaf (c : Element) :
  prettify_tag (ET.tag c) <> py "Price" -> line_value c = of_text (ET.text c).
Proof. intros H. unfold line_value. by rewrite decide_False. Qed.

Lemma line_slot (v : variant) (line : Element) (d : pydict) (K : pystr) :
  parseInvoiceLine_of v line = Ok (VDict d) ->
  K ∈ [py "ID"; py "LineExtensionAmount"; py "Price"] ->
  d !! K = line_value <$> last_tagged K (ET.children line).
Proof.
  intros H HK. rewrite !elem_of_cons, elem_of_nil in HK.
  assert (Hgoal : forall body,
            (forall d0 c d', True -> prettify_tag (ET.tag c) = K ->
               body d0 c = Ok d' -> d' !! K = Some (line_value c)) ->
            (forall d0 c d', True -> prettify_tag (ET.tag c) <> K ->
               body d0 c = Ok d' -> d' !! K = d0 !! K) ->
            for_each body (ET.children line) ∅ = Ok d ->
            d !! K = line_value <$> last_tagged K (ET.children line)).
  { intros body H1 H2 Hloop.
    rewrite (for_each_slot body K K line_value (fun _ => True) _ ∅ d H1 H2
               ltac:(by apply Forall_true) Hloop).
    by destruct (last_tagged K (ET.children line)). }
  destruct v; cbn [parseInvoiceLine_of] in H;
    [unfold InvoiceParser.parseInvoiceLine in H
    |unfold CreditNoteParser.parseInvoiceLine in H];
    apply bind_Ok in H as (d1 & Hloop & [= ->]);
    (eapply Hgoal; [| |exact Hloop]);
    clear Hloop Hgoal;
    intros d0 c d' _ Htag Hbody; unfold line_value;
    destruct HK as [->|[->|[->|[]]]]; line_turn Htag Hbody.
Qed.

Lemma line_quantity (v : variant) (line : Element) (d : pydict) :
  parseInvoiceLine_of v line = Ok (VDict d) ->
  Forall (quantity_unshadowed v) (ET.children line) ->
  d !! py "InvoicedQuantity"
  = (fun c => of_text (ET.text c))
      <$> last_tagged (quantity_tag_of v) (ET.children line).
Proof.
  intros H HG.
  assert (Hgoal : forall body,
            (forall d0 c d', quantity_unshadowed v c ->
               prettify_tag (ET.tag c) = quantity_tag_of v ->
               body d0 c = Ok d' ->
               d' !! py "InvoicedQuantity" = Some (of_text (ET.text c))) ->
            (forall d0 c d', quantity_unshadowed v c ->
               prettify_tag (ET.tag c) <> quantity_tag_of v ->
               body d0 c = Ok d' ->
               d' !! py "InvoicedQuantity" = d0 !! py "InvoicedQuantity") ->
            for_each body (ET.children line) ∅ = Ok d ->
            d !! py "InvoicedQuantity"
            = (fun c => of_text (ET.text c))
                <$> last_tagged (quantity_tag_of v) (ET.children line)).
  { intros body H1 H2 Hloop.
    rewrite (for_each_slot body (quantity_tag_of v) (py "InvoicedQuantity")
               (fun c => of_text (ET.text c)) (quantity_unshadowed v)
               _ ∅ d H1 H2 HG Hloop).
    by destruct (last_tagged _ (ET.children line)). }
  destruct v; cbn [parseInvoiceLine_of quantity_tag_of] in *;
    [unfold InvoiceParser.parseInvoiceLine in H
    |unfold CreditNoteParser.parseInvoiceLine in H];
    apply bind_Ok in H as (d1 & Hloop & [= ->]);
    (eapply Hgoal; [| |exact Hloop]);
    clear Hloop Hgoal HG;
    intros d0 c d' Hc Htag Hbody;
    try (specialize (Hc eq_refl));
    line_turn Htag Hbody.
Qed.

Lemma parseInvoiceLine_of_dict (v : variant) (line : Element) (d : pyval) :
  parseInvoiceLine_of v line = Ok d -> exists d', d = VDict d'.
Proof.
  destruct v; cbn [parseInvoiceLine_of];
    [unfold InvoiceParser.parseInvoiceLine
    |unfold CreditNoteParser.parseInvoiceLine];
    intros H; apply bind_Ok in H as (d1 & _ & [= <-]); by eexists.
Qed.

(** X10: when a line element is parsed and projected, the line id, the
    amount and the unit price of its record are the texts of the last
    [ID] child, of the last [LineExtensionAmount] child and of the last
    [PriceAmount] child of the last [Price] child (null when absent); the
    quantity is the text of the last quantity child of the variant
    ([InvoicedQuantity], resp. [CreditedQuantity]), provided that a
    credit-note line has no child of tag [InvoicedQuantity]. *)
Theorem X10_line_fields_of_tree (v : variant) (line : Element) (d : pyval)
    (r : Line.t) :
  parseInvoiceLine_of v line = Ok d ->
  flatten_invoice_line d = Ok r ->
  Line.edi_line_id r = leaf_at (ET.children line) [] (py "ID")
  /\ Line.invoiced_amount r
     = leaf_at (ET.children line) [] (py "LineExtensionAmount")
  /\ Line.single_unit_price r
     = leaf_at (ET.children line) [py "Price"] (py "PriceAmount")
  /\ (Forall (quantity_unshadowed v) (ET.children line) ->
      Line.invoiced_quantity r
      = leaf_at (ET.children line) [] (quantity_tag_of v)).
Proof.
  intros Hparse Hflat.
  destruct (parseInvoiceLine_of_dict v line d Hparse) as [d' ->].
  pose proof (line_slot v line d' (py "ID") Hparse
                ltac:(rewrite !elem_of_cons; tauto)) as Hid.
  pose proof (line_slot v line d' (py "LineExtensionAmount") Hparse
                ltac:(rewrite !elem_of_cons; tauto)) as Hamount.
  pose proof (line_slot v line d' (py "Price") Hparse
                ltac:(rewrite !elem_of_cons; tauto)) as Hprice.
  pose proof (line_quantity v line d' Hparse) as Hquantity.
  clear Hparse. unfold flatten_invoice_line in Hflat.
  apply bind_Ok in Hflat as (tax_id & _ & Hflat).
  apply bind_Ok in Hflat as (tax_percent & _ & Hflat).
  apply bind_Ok in Hflat as (tax_exempt & _ & Hflat).
  apply bind_Ok in Hflat as (l1 & H1 & Hflat).
  apply bind_Ok in Hflat as (l2 & _ & Hflat).
  apply bind_Ok in Hflat as (l3 & _ & Hflat).
  apply bind_Ok in Hflat as (l4 & H4 & Hflat).
  apply bind_Ok in Hflat as (l5 & H5 & Hflat).
  apply bind_Ok in Hflat as (l6 & H6 & Hflat).
  apply bind_Ok in Hflat as (l10 & _ & Hflat).
  injection Hflat as <-. cbn [Line.edi_line_id Line.invoiced_amount
    Line.single_unit_price Line.invoiced_quantity].
  assert (Hp : chain (VDict d') [py "Price"] (py "PriceAmount")
               = Ok (leaf_at (ET.children line) [py "Price"] (py "PriceAmount"))).
  { cbn [chain get leaf_at]. rewrite Hprice.
    destruct (last_tagged (py "Price") _) as [c|] eqn:Hc; cbn.
    - apply last_tagged_tag in Hc as [Hc _]. unfold line_value.
      rewrite decide_True by exact Hc. apply text_fields_get.
    - by rewrite lookup_empty. }
  rewrite Hp in H6. injection H6 as <-.
  cbn [chain get] in H1, H4, H5. cbn [leaf_at].
  rewrite Hid in H1. rewrite Hamount in H5.
  injection H1 as <-. injection H5 as <-.
  split; [|split; [|split]].
  - destruct (last_tagged (py "ID") _) as [c|] eqn:Hc; [|reflexivity].
    apply last_tagged_tag in Hc as [Hc _]. cbn.
    apply line_value_leaf. rewrite Hc. lit_neq.
  - destruct (last_tagged (py "LineExtensionAmount") _) as [c|] eqn:Hc;
      [|reflexivity].
    apply last_tagged_tag in Hc as [Hc _]. cbn.
    apply line_value_leaf. rewrite Hc. lit_neq.
  - reflexivity.
  - intros HG. rewrite (Hquantity HG) in H4. injection H4 as <-.
    by destruct (last_tagged (quantity_tag_of v) _).
Qed.

Lemma X10_line_fields_of_tree_witness :
  exists d r,
    parseInvoiceLine_of Invoice line_merged = Ok d
    /\ flatten_invoice_line d = Ok r
    /\ Line.edi_line_id r = leaf_at (ET.children line_merged) [] (py "ID").
Proof.
  do 2 eexists. split; [vm_compute; reflexivity|].
  split; [vm_compute; reflexivity|].
  eapply (X10_line_fields_of_tree Invoice line_merged);
    vm_compute; reflexivity.
Defined.

(** ** Item of a line *)

Lemma line_items (v : variant) (line : Element) (d : pydict) :
  parseInvoiceLine_of v line = Ok (VDict d) ->
  Forall (fun c => prettify_tag (ET.tag c) <> py "Items") (ET.children line) ->
  d !! py "Items"
  = _parseInvoiceLineItem <$> last_tagged (py "Item") (ET.children line).
Proof.
  intros H HG.
  assert (Hgoal : forall body,
            (forall d0 c d', prettify_tag (ET.tag c) <> py "Items" ->
               prettify_tag (ET.tag c) = py "Item" ->
               body d0 c = Ok d' ->
               d' !! py "Items" = Some (_parseInvoiceLineItem c)) ->
            (forall d0 c d', prettify_tag (ET.tag c) <> py "Items" ->
               prettify_tag (ET.tag c) <> py "Item" ->
               body d0 c = Ok d' ->
               d' !! py "Items" = d0 !! py "Items") ->
            for_each body (ET.children line) ∅ = Ok d ->
            d !! py "Items"
            = _parseInvoiceLineItem <$> last_tagged (py "Item") (ET.children line)).
  { intros body H1 H2 Hloop.
    rewrite (for_each_slot body (py "Item") (py "Items") _parseInvoiceLineItem
               (fun c => prettify_tag (ET.tag c) <> py "Items")
               _ ∅ d H1 H2 HG Hloop).
    by destruct (last_tagged _ (ET.children line)). }
  destruct v; cbn [parseInvoiceLine_of] in *;
    [unfold InvoiceParser.parseInvoiceLine in H
    |unfold CreditNoteParser.parseInvoiceLine in H];
    apply bind_Ok in H as (d1 & Hloop & [= ->]);
    (eapply Hgoal; [| |exact Hloop]);
    clear Hloop Hgoal HG;
    intros d0 c d' Hc Htag Hbody;
    line_turn Htag Hbody.
Qed.

Lemma fold_left_ext_on {A B} (f g : A -> B -> A) (xs : list B) (a : A) :
  Forall (fun x => forall a, f a x = g a x) xs ->
  fold_left f xs a = fold_left g xs a.
Proof.
  intros Hfg. revert a. induction Hfg as [|x xs Hx _ IH]; intros a;
    [reflexivity|].
  cbn [fold_left]. rewrite Hx. apply IH.
Qed.

(** Without a [SellersItemIdentification] child, the item dict has one
    entry per child tag. *)
Lemma parseInvoiceLineItem_plain (item : Element) :
  plain_item item ->
  _parseInvoiceLineItem item
  = VDict (nest_dict (py "ClassifiedTaxCategory") (fields_with (py "TaxScheme"))
             item).
Proof.
  intros Hplain. unfold _parseInvoiceLineItem, nest_dict. cbn zeta. f_equal.
  apply fold_left_ext_on.
  eapply Forall_impl; [exact Hplain|]. cbn beta. intros x Hx d0.
  unfold nest_value, fields_with. cbn beta zeta.
  repeat case_decide; try reflexivity; try contradiction.
  - congruence.
  - exfalso. rewrite !elem_of_cons, elem_of_nil in *. tauto.
  - exfalso. rewrite !elem_of_cons, elem_of_nil in *. tauto.
Qed.

Lemma chain_items (v : variant) (line : Element) (d : pydict)
    (ps : list pystr) (k : pystr) :
  parseInvoiceLine_of v line = Ok (VDict d) ->
  Forall (fun c => prettify_tag (ET.tag c) <> py "Items") (ET.children line) ->
  (forall item, last_tagged (py "Item") (ET.children line) = Some item ->
     plain_item item) ->
  (forall item,
     chain (VDict (nest_dict (py "ClassifiedTaxCategory")
                     (fields_with (py "TaxScheme")) item)) ps k
     = Ok (leaf_at (ET.children item) ps k)) ->
  chain (VDict d) (py "Items" :: ps) k
  = Ok (leaf_at (ET.children line) (py "Item" :: ps) k).
Proof.
  intros Hparse HG Hplain Hsub.
  cbn [chain get leaf_at]. rewrite (line_items v line d Hparse HG).
  destruct (last_tagged (py "Item") (ET.children line)) as [item|]; cbn.
  - rewrite (parseInvoiceLineItem_plain item (Hplain item eq_refl)).
    apply Hsub.
  - apply chain_empty.
Qed.

Lemma item_or_line_truthy (i x : pyval) (item_key line_key : pystr) :
  chain i [py "Items"; py "ClassifiedTaxCategory"] item_key = Ok x ->
  forall y, item_or_line i item_key line_key = Ok y ->
  truthy x = true -> y = x.
Proof.
  intros Hx y Hy Ht. unfold item_or_line in Hy. rewrite Hx in Hy.
  cbn in Hy. rewrite Ht in Hy. cbn in Hy. congruence.
Qed.

(** X11: when a line element without a child of tag [Items] is parsed and
    projected, and its last [Item] child has no [SellersItemIdentification]
    child, the name, the description and the tax scheme code of the record
    are the texts of the last [Name] and [Description] children of that
    item and of the [ID] of the [TaxScheme] of its last
    [ClassifiedTaxCategory] (null when absent); and each of the tax
    category id, percent and exemption reason of the record is the text
    of that leaf of the item's tax category whenever that text is not
    empty. *)
Theorem X11_item_fields_of_tree (v : variant) (line : Element) (d : pyval)
    (r : Line.t) :
  parseInvoiceLine_of v line = Ok d ->
  flatten_invoice_line d = Ok r ->
  Forall (fun c => prettify_tag (ET.tag c) <> py "Items") (ET.children line) ->
  (forall item, last_tagged (py "Item") (ET.children line) = Some item ->
     plain_item item) ->
  Line.edi_line_name r = leaf_at (ET.children line) [py "Item"] (py "Name")
  /\ Line.edi_line_description r
     = leaf_at (ET.children line) [py "Item"] (py "Description")
  /\ Line.tax_scheme_code r
     = leaf_at (ET.children line)
         [py "Item"; py "ClassifiedTaxCategory"; py "TaxScheme"] (py "ID")
  /\ (truthy (item_tax_leaf (ET.children line) (py "ID")) = true ->
      Line.tax_category_id r = item_tax_leaf (ET.children line) (py "ID"))
  /\ (truthy (item_tax_leaf (ET.children line) (py "Percent")) = true ->
      Line.tax_percent r = item_tax_leaf (ET.children line) (py "Percent"))
  /\ (truthy (item_tax_leaf (ET.children line) (py "TaxExemptionReason")) = true ->
      Line.tax_exemption_reason r
      = item_tax_leaf (ET.children line) (py "TaxExemptionReason")).
Proof.
  intros Hparse Hflat HG Hplain.
  destruct (parseInvoiceLine_of_dict v line d Hparse) as [d' ->].
  pose proof (fun ps k => chain_items v line d' ps k Hparse HG Hplain) as Hitems.
  clear Hparse.
  assert (Htax : forall k, k <> py "TaxScheme" ->
            chain (VDict d') [py "Items"; py "ClassifiedTaxCategory"] k
            = Ok (item_tax_leaf (ET.children line) k)).
  { intros k Hk. apply Hitems. intros item.
    apply nest_dict_chain. intros c. by apply fields_with_get. }
  unfold flatten_invoice_line in Hflat.
  apply bind_Ok in Hflat as (tax_id & Hid & Hflat).
  apply bind_Ok in Hflat as (tax_percent & Hpercent & Hflat).
  apply bind_Ok in Hflat as (tax_exempt & Hexempt & Hflat).
  apply bind_Ok in Hflat as (l1 & _ & Hflat).
  apply bind_Ok in Hflat as (l2 & H2 & Hflat).
  apply bind_Ok in Hflat as (l3 & H3 & Hflat).
  apply bind_Ok in Hflat as (l4 & _ & Hflat).
  apply bind_Ok in Hflat as (l5 & _ & Hflat).
  apply bind_Ok in Hflat as (l6 & _ & Hflat).
  apply bind_Ok in Hflat as (l10 & H10 & Hflat).
  injection Hflat as <-.
  cbn [Line.edi_line_name Line.edi_line_description Line.tax_scheme_code
       Line.tax_category_id Line.tax_percent Line.tax_exemption_reason].
  rewrite Hitems in H2
    by (intros item; apply nest_dict_get; lit_neq).
  rewrite Hitems in H3
    by (intros item; apply nest_dict_get; lit_neq).
  rewrite Hitems in H10
    by (intros item; apply nest_dict_chain; intros c; apply fields_with_chain).
  injection H2 as <-. injection H3 as <-. injection H10 as <-.
  split; [reflexivity|]. split; [reflexivity|]. split; [reflexivity|].
  split; [|split].
  - apply (item_or_line_truthy _ _ _ _
             (Htax (py "ID") ltac:(lit_neq)) _ Hid).
  - apply (item_or_line_truthy _ _ _ _
             (Htax (py "Percent") ltac:(lit_neq)) _ Hpercent).
  - apply (item_or_line_truthy _ _ _ _
             (Htax (py "TaxExemptionReason") ltac:(lit_neq)) _ Hexempt).
Qed.

Lemma X11_item_fields_of_tree_witness :
  exists d r,
    parseInvoiceLine_of Invoice line_merged = Ok d
    /\ flatten_invoice_line d = Ok r
    /\ Line.edi_line_name r
       = leaf_at (ET.children line_merged) [py "Item"] (py "Name").
Proof.
  do 2 eexists. split; [vm_compute; reflexivity|].
  split; [vm_compute; reflexivity|].
  eapply (X11_item_fields_of_tree Invoice line_merged).
  - vm_compute; reflexivity.
  - vm_compute; reflexivity.
  - repeat constructor; lit_neq.
  - intros item Hitem. vm_compute in Hitem. injection Hitem as <-.
    repeat constructor; lit_neq.
Defined.

(** ** Tax fields of a line *)

Lemma last_map {A B} (f : A -> B) (l : list A) :
  last (map f l) = f <$> last l.
Proof.
  induction l as [|a [|b l] IH]; [reflexivity | reflexivity |].
  change (last (map f (a :: b :: l))) with (last (map f (b :: l))).
  rewrite IH. reflexivity.
Qed.

Lemma last_tagged_filter (k : pystr) (xs : list Element) :
  last_tagged k xs = last (filter (fun c => prettify_tag (ET.tag c) = k) xs).
Proof.
  induction xs as [|x xs IH]; [reflexivity|].
  cbn [last_tagged]. rewrite IH, filter_cons.
  case_decide.
  - rewrite last_cons. by destruct (last _).
  - by destruct (last _).
Qed.

(** A loop whose turns write [K] leaves under it the last value written. *)
Lemma fold_left_writes {B W : Type} (f : pydict -> B -> pydict) (K : pystr)
    (g : B -> list W) (val : W -> pyval) (xs : list B) (d : pydict) :
  (forall d x, f d x !! K
               = match last (g x) with Some w => Some (val w) | None => d !! K end) ->
  fold_left f xs d !! K
  = match last (flat_map g xs) with Some w => Some (val w) | None => d !! K end.
Proof.
  intros Hf. revert d. induction xs as [|x xs IH]; intros d; [reflexivity|].
  cbn [fold_left flat_map]. rewrite IH, last_app.
  destruct (last (flat_map g xs)); [reflexivity | apply Hf].
Qed.

Lemma for_each_writes {W : Type} (body : pydict -> Element -> outcome pydict)
    (K : pystr) (g : Element -> list W) (val : W -> pyval)
    (cs : list Element) (d0 d : pydict) :
  (forall d c d', body d c = Ok d' ->
     d' !! K = match last (g c) with Some w => Some (val w) | None => d !! K end) ->
  for_each body cs d0 = Ok d ->
  d !! K = match last (flat_map g cs) with Some w => Some (val w) | None => d0 !! K end.
Proof.
  intros Hbody. revert d0.
  induction cs as [|c cs IH]; intros d0 H; cbn [for_each] in H.
  - by injection H as <-.
  - apply bind_Ok in H as (d1 & H1 & H). cbn [flat_map].
    rewrite (IH _ H), last_app.
    destruct (last (flat_map g cs)); [reflexivity | by apply Hbody].
Qed.

Lemma all_at_nil (path : list pystr) (k : pystr) : all_at [] path k = [].
Proof. induction path as [|p path IH]; [reflexivity | exact IH]. Qed.

Lemma all_at_app (xs ys : list Element) (path : list pystr) (k : pystr) :
  all_at (xs ++ ys) path k = all_at xs path k ++ all_at ys path k.
Proof.
  revert xs ys. induction path as [|p path IH]; intros xs ys; cbn [all_at].
  - apply filter_app.
  - rewrite filter_app, List.map_app, concat_app. apply IH.
Qed.

Lemma all_at_leaf (xs : list Element) (k : pystr) :
  all_at xs [] k
  = flat_map (fun x => if decide (prettify_tag (ET.tag x) = k) then [x] else []) xs.
Proof.
  induction xs as [|x xs IH]; [reflexivity|].
  cbn [all_at flat_map] in *. rewrite filter_cons, <- IH.
  by case_decide.
Qed.

Lemma all_at_step (xs : list Element) (p : pystr) (path : list pystr)
    (k : pystr) :
  all_at xs (p :: path) k
  = flat_map
      (fun x => if decide (prettify_tag (ET.tag x) = p)
                then all_at (ET.children x) path k else [])
      xs.
Proof.
  induction xs as [|x xs IH]; [apply all_at_nil|].
  change (x :: xs) with ([x] ++ xs) at 1. rewrite all_at_app, IH.
  cbn [flat_map]. f_equal. cbn [all_at]. rewrite filter_cons, filter_nil.
  case_decide; cbn [map concat].
  - by rewrite app_nil_r.
  - apply all_at_nil.
Qed.

(** The [TaxTotal] branch leaves under each of its three keys the text
    of the last leaf of that tag among all the tax categories of all the
    tax subtotals of the block. *)
Lemma line_tax_total_writes (d : pydict) (child : Element) (key K : pystr) :
  (key, K) ∈ tax_keys ->
  line_tax_total d child !! K
  = match last (all_at (ET.children child)
                  [py "TaxSubtotal"; py "TaxCategory"] key) with
    | Some l => Some (of_text (ET.text l))
    | None => d !! K
    end.
Proof.
  intros Hkeys.
  assert (HK : K <> py "TaxAmount").
  { unfold tax_keys in Hkeys. rewrite !elem_of_cons, elem_of_nil in Hkeys.
    destruct Hkeys as [[= -> ->]|[[= -> ->]|[[= -> ->]|[]]]]; lit_neq. }
  assert (Hfourth : forall (d : pydict) (fourth : Element),
    (let p_fourth_tag := prettify_tag (ET.tag fourth) in
     let d1 :=
       if decide (p_fourth_tag = py "ID")
       then <[py "TaxID" := of_text (ET.text fourth)]> d else d in
     let d2 :=
       if decide (p_fourth_tag = py "Percent")
       then <[py "TaxPercent" := of_text (ET.text fourth)]> d1 else d1 in
     if decide (p_fourth_tag = py "TaxExemptionReason")
     then <[py "TaxExemptionReason" := of_text (ET.text fourth)]> d2
     else d2) !! K
    = match last (if decide (prettify_tag (ET.tag fourth) = key)
                  then [fourth] else []) with
      | Some l => Some (of_text (ET.text l))
      | None => d !! K
      end).
  { intros d0 fourth. cbn zeta.
    unfold tax_keys in Hkeys. rewrite !elem_of_cons, elem_of_nil in Hkeys.
    destruct Hkeys as [[= -> ->]|[[= -> ->]|[[= -> ->]|[]]]];
      repeat case_decide; try lit_absurd; cbn [last];
      rewrite ?lookup_insert_eq;
      rewrite ?lookup_insert_ne by lit_neq;
      rewrite ?lookup_insert_eq; reflexivity. }
  clear Hkeys.
  unfold line_tax_total. rewrite all_at_step.
  apply (fold_left_writes _ K _ (fun l => of_text (ET.text l))).
  intros d1 sub. cbn zeta.
  assert (Hd1 : (if decide (prettify_tag (ET.tag sub) = py "TaxAmount")
                 then <[py "TaxAmount" := of_text (ET.text sub)]> d1 else d1) !! K
                = d1 !! K).
  { case_decide; [|reflexivity]. by rewrite lookup_insert_ne. }
  destruct (decide (prettify_tag (ET.tag sub) = py "TaxSubtotal")) as [_|_];
    [|exact Hd1].
  rewrite all_at_step, <- Hd1.
  apply (fold_left_writes _ K _ (fun l => of_text (ET.text l))).
  intros d2 third.
  destruct (decide (prettify_tag (ET.tag third) = py "TaxCategory")) as [_|_];
    [|reflexivity].
  rewrite all_at_leaf.
  apply (fold_left_writes _ K _ (fun l => of_text (ET.text l))).
  exact Hfourth.
Qed.

(** Settles one turn of a line loop for the key of a tax field. *)
Ltac tax_turn Hbody :=
  cbn beta zeta in Hbody; cbn [reads_line_tax];
  repeat case_decide;
  try lit_absurd;
  first [ injection Hbody as <-
        | apply store_attrib_inv in Hbody as [? ->] ];
  cbn [last];
  first
    [ apply line_tax_total_writes; unfold tax_keys; rewrite !elem_of_cons; tauto
    | match goal with
      | H : prettify_tag _ = py _ |- _ =>
          rewrite H; first [ apply lookup_insert_eq
                           | rewrite !lookup_insert_ne by lit_neq; reflexivity ]
      end
    | rewrite !lookup_insert_ne by first [assumption | lit_neq]; reflexivity ].

(** The line dict holds, under the key of a tax field, the line-level
    value read off the line element. *)
Lemma line_tax_slot (v : variant) (line : Element) (d : pydict) (key K : pystr) :
  parseInvoiceLine_of v line = Ok (VDict d) ->
  (key, K) ∈ tax_keys ->
  default VNone (d !! K) = line_tax v key K (ET.children line).
Proof.
  intros H Hkeys. unfold line_tax, line_tax_writers.
  assert (Hgoal : forall body,
            (forall d0 c d', body d0 c = Ok d' ->
               d' !! K
               = match last
                         (if decide (prettify_tag (ET.tag c) = py "TaxTotal")
                          then if reads_line_tax v
                               then all_at (ET.children c)
                                      [py "TaxSubtotal"; py "TaxCategory"] key
                               else []
                          else if decide (prettify_tag (ET.tag c) = K)
                               then [c] else []) with
                 | Some l => Some (of_text (ET.text l))
                 | None => d0 !! K
                 end) ->
            for_each body (ET.children line) ∅ = Ok d ->
            default VNone (d !! K)
            = match last
                      (flat_map
                         (fun c =>
                            if decide (prettify_tag (ET.tag c) = py "TaxTotal")
                            then if reads_line_tax v
                                 then all_at (ET.children c)
                                        [py "TaxSubtotal"; py "TaxCategory"] key
                                 else []
                            else if decide (prettify_tag (ET.tag c) = K)
                                 then [c] else [])
                         (ET.children line)) with
              | Some l => of_text (ET.text l)
              | None => VNone
              end).
  { intros body Hbody Hloop.
    rewrite (for_each_writes body K _ (fun l => of_text (ET.text l)) _ ∅ d
               Hbody Hloop).
    by destruct (last _). }
  unfold tax_keys in Hkeys. rewrite !elem_of_cons, elem_of_nil in Hkeys.
  destruct v; cbn [parseInvoiceLine_of] in H;
    [unfold InvoiceParser.parseInvoiceLine in H
    |unfold CreditNoteParser.parseInvoiceLine in H];
    apply bind_Ok in H as (d1 & Hloop & [= ->]);
    (eapply Hgoal; [|exact Hloop]);
    clear Hloop Hgoal;
    intros d0 c d' Hbody;
    destruct Hkeys as [[= -> ->]|[[= -> ->]|[[= -> ->]|[]]]];
    tax_turn Hbody.
Qed.

(** The line dict holds under ['Items'] what the last child of tag
    [Item] or [Items] has written. *)
Lemma line_items_writes (v : variant) (line : Element) (d : pydict) :
  parseInvoiceLine_of v line = Ok (VDict d) ->
  d !! py "Items" = last (flat_map items_writes (ET.children line)).
Proof.
  intros H.
  assert (Hgoal : forall body,
            (forall d0 c d', body d0 c = Ok d' ->
               d' !! py "Items"
               = match last (items_writes c) with
                 | Some w => Some w
                 | None => d0 !! py "Items"
                 end) ->
            for_each body (ET.children line) ∅ = Ok d ->
            d !! py "Items" = last (flat_map items_writes (ET.children line))).
  { intros body Hbody Hloop.
    rewrite (for_each_writes body (py "Items") items_writes (fun w => w) _ ∅ d
               Hbody Hloop).
    by destruct (last _). }
  destruct v; cbn [parseInvoiceLine_of] in H;
    [unfold InvoiceParser.parseInvoiceLine in H
    |unfold CreditNoteParser.parseInvoiceLine in H];
    apply bind_Ok in H as (d1 & Hloop & [= ->]);
    (eapply Hgoal; [|exact Hloop]);
    clear Hloop Hgoal;
    intros d0 c d' Hbody; unfold items_writes;
    cbn beta zeta in Hbody;
    repeat case_decide;
    try lit_absurd;
    first [ injection Hbody as <-
          | apply store_attrib_inv in Hbody as [? ->] ];
    cbn [last];
    first
      [ apply lookup_insert_eq
      | match goal with
        | H : prettify_tag _ = py "Items" |- _ =>
            rewrite H; apply lookup_insert_eq
        end
      | rewrite line_tax_total_frame by py_notin; reflexivity
      | rewrite !lookup_insert_ne by first [assumption | lit_neq]; reflexivity ].
Qed.

Lemma parseInvoiceLineItem_dict (item : Element) :
  exists it, _parseInvoiceLineItem item = VDict it.
Proof. by eexists. Qed.

(** When that value is a dict, it is the dict of the last [Item] child;
    when there is none, the line has no [Item] child. *)
Lemma items_writes_last (cs : list Element) :
  match last (flat_map items_writes cs) with
  | Some (VDict it) =>
      exists c, last_tagged (py "Item") cs = Some c
                /\ _parseInvoiceLineItem c = VDict it
  | Some _ => True
  | None => last_tagged (py "Item") cs = None
  end.
Proof.
  induction cs as [|x cs IH]; [reflexivity|].
  cbn [flat_map last_tagged]. rewrite last_app.
  destruct (last (flat_map items_writes cs)) as [w|].
  - destruct w; try exact I. destruct IH as (c & -> & Hc). by exists c.
  - rewrite IH. unfold items_writes. repeat case_decide; cbn [last].
    + destruct (parseInvoiceLineItem_dict x) as [it Hit]. rewrite Hit.
      by exists x.
    + by destruct (ET.text x).
    + reflexivity.
Qed.

(** The item dict holds under ['ClassifiedTaxCategory'] what the last
    child that writes it has written. *)
Lemma category_writes_lookup (item : Element) :
  exists it,
    _parseInvoiceLineItem item = VDict it
    /\ it !! py "ClassifiedTaxCategory"
       = last (flat_map category_writes (ET.children item)).
Proof.
  eexists. split; [reflexivity|].
  rewrite (fold_left_writes _ (py "ClassifiedTaxCategory") category_writes
             (fun w => w)).
  - rewrite lookup_empty. by destruct (last _).
  - intros d sub. cbn zeta. unfold category_writes.
    repeat case_decide; try lit_absurd; cbn [last].
    + rewrite text_fields_lookup, last_tagged_filter, last_map.
      by destruct (last _).
    + by rewrite lookup_insert_eq.
    + reflexivity.
    + exfalso. rewrite !elem_of_cons, elem_of_nil in *. tauto.
    + exfalso. rewrite !elem_of_cons, elem_of_nil in *. tauto.
    + by rewrite lookup_insert_ne.
Qed.

Lemma category_writes_last (subs : list Element) :
  match last (flat_map category_writes subs) with
  | Some (VDict td) =>
      exists c, last_tagged (py "ClassifiedTaxCategory") subs = Some c
                /\ td = fields_with (py "TaxScheme") c
  | Some _ => True
  | None => last_tagged (py "ClassifiedTaxCategory") subs = None
  end.
Proof.
  induction subs as [|x subs IH]; [reflexivity|].
  cbn [flat_map last_tagged]. rewrite last_app.
  destruct (last (flat_map category_writes subs)) as [w|].
  - destruct w; try exact I. destruct IH as (c & -> & Hc). by exists c.
  - rewrite IH. unfold category_writes. repeat case_decide; try lit_absurd.
    + rewrite last_map. destruct (last _) as [c|]; [|reflexivity].
      cbn. by destruct (ET.text c).
    + cbn [last]. by exists x.
    + reflexivity.
Qed.

(** The item-level value that the projector reads is the text reached
    through the last [Item] child and its last [ClassifiedTaxCategory]
    child. *)
Lemma line_item_tax (v : variant) (line : Element) (d : pydict)
    (key : pystr) (x : pyval) :
  parseInvoiceLine_of v line = Ok (VDict d) ->
  key <> py "TaxScheme" ->
  chain (VDict d) [py "Items"; py "ClassifiedTaxCategory"] key = Ok x ->
  x = item_tax_leaf (ET.children line) key.
Proof.
  intros Hparse Hkey H. unfold item_tax_leaf. cbn [chain get leaf_at] in *.
  rewrite (line_items_writes v line d Hparse) in H.
  pose proof (items_writes_last (ET.children line)) as Hitems.
  destruct (last (flat_map items_writes (ET.children line))) as [w|].
  - destruct w as [| | | | |it]; try discriminate H.
    destruct Hitems as (c & -> & Hc). cbn [default from_option id mbind outcome_bind get chain] in H.
    destruct (category_writes_lookup c) as (it' & Hit' & Hcat).
    rewrite Hc in Hit'. injection Hit' as <-. rewrite Hcat in H.
    pose proof (category_writes_last (ET.children c)) as Hlast.
    destruct (last (flat_map category_writes (ET.children c))) as [w|].
    + destruct w as [| | | | |td]; try discriminate H.
      destruct Hlast as (c2 & -> & ->). cbn [default from_option id mbind outcome_bind get chain] in H.
      pose proof (fields_with_get (py "TaxScheme") c2 key Hkey) as Hget.
      cbn [get] in Hget. rewrite Hget in H. injection H as <-.
      reflexivity.
    + rewrite Hlast. cbn [default from_option id mbind outcome_bind get chain] in H. rewrite lookup_empty in H.
      by injection H as <-.
  - rewrite Hitems. cbn [default from_option id mbind outcome_bind get chain] in H.
    rewrite !lookup_empty in H. cbn [default from_option id mbind outcome_bind get chain] in H.
    rewrite lookup_empty in H. by injection H as <-.
Qed.

Lemma item_or_line_choice (v : variant) (line : Element) (d : pydict)
    (key K : pystr) (y : pyval) :
  parseInvoiceLine_of v line = Ok (VDict d) ->
  (key, K) ∈ tax_keys ->
  item_or_line (VDict d) key K = Ok y ->
  y = tax_choice (item_tax_leaf (ET.children line) key)
        (line_tax v key K (ET.children line)).
Proof.
  intros Hparse Hkeys H. unfold item_or_line in H.
  apply bind_Ok in H as (x & Hx & H).
  assert (Hkey : key <> py "TaxScheme").
  { unfold tax_keys in Hkeys. rewrite !elem_of_cons, elem_of_nil in Hkeys.
    destruct Hkeys as [[= -> ->]|[[= -> ->]|[[= -> ->]|[]]]]; lit_neq. }
  rewrite <- (line_item_tax v line d key x Hparse Hkey Hx).
  rewrite <- (line_tax_slot v line d key K Hparse Hkeys).
  unfold tax_choice. destruct (truthy x); cbn [negb] in H.
  - by injection H as <-.
  - cbn [chain get] in H. by injection H as <-.
Qed.

(** C3 (amended): each of the tax-category id, the tax percent and the
    tax exemption reason of the record of a line is decided on its own.
    The item-level value is the text of the leaf of that name in the last
    [ClassifiedTaxCategory] of the last [Item] child of the line; it is
    taken when it is a non-empty text.  Otherwise the field is the
    line-level value: the text of the last leaf of that name, in document
    order, among the tax categories of the tax subtotals of the line's
    [TaxTotal] children (which only the invoice class reads) and the
    children of the line named [TaxID], [TaxPercent], resp.
    [TaxExemptionReason]; null when there is none. *)
Theorem C3_tax_fields_per_field (v : variant) (line : Element) (d : pyval)
    (r : Line.t) :
  parseInvoiceLine_of v line = Ok d ->
  flatten_invoice_line d = Ok r ->
  Line.tax_category_id r
  = tax_choice (item_tax_leaf (ET.children line) (py "ID"))
      (line_tax v (py "ID") (py "TaxID") (ET.children line))
  /\ Line.tax_percent r
     = tax_choice (item_tax_leaf (ET.children line) (py "Percent"))
         (line_tax v (py "Percent") (py "TaxPercent") (ET.children line))
  /\ Line.tax_exemption_reason r
     = tax_choice (item_tax_leaf (ET.children line) (py "TaxExemptionReason"))
         (line_tax v (py "TaxExemptionReason") (py "TaxExemptionReason")
            (ET.children line)).
Proof.
  intros Hparse Hflat.
  destruct (parseInvoiceLine_of_dict v line d Hparse) as [d' ->].
  unfold flatten_invoice_line in Hflat.
  apply bind_Ok in Hflat as (tax_id & Hid & Hflat).
  apply bind_Ok in Hflat as (tax_percent & Hpercent & Hflat).
  apply bind_Ok in Hflat as (tax_exempt & Hexempt & Hflat).
  binds Hflat. injection Hflat as <-.
  cbn [Line.tax_category_id Line.tax_percent Line.tax_exemption_reason].
  split; [|split].
  - apply (item_or_line_choice v line d' _ _ _ Hparse); [|exact Hid].
    unfold tax_keys. rewrite !elem_of_cons. tauto.
  - apply (item_or_line_choice v line d' _ _ _ Hparse); [|exact Hpercent].
    unfold tax_keys. rewrite !elem_of_cons. tauto.
  - apply (item_or_line_choice v line d' _ _ _ Hparse); [|exact Hexempt].
    unfold tax_keys. rewrite !elem_of_cons. tauto.
Qed.

Lemma C3_tax_fields_per_field_witness :
  exists d r,
    parseInvoiceLine_of Invoice line_E0 = Ok d
    /\ flatten_invoice_line d = Ok r
    /\ Line.tax_category_id r = VStr (py "E")
    /\ Line.tax_percent r = VStr (py "0").
Proof.
  do 2 eexists. split; [vm_compute; reflexivity|].
  split; [vm_compute; reflexivity|].
  destruct (C3_tax_fields_per_field Invoice line_E0 _ _
              ltac:(vm_compute; reflexivity) ltac:(vm_compute; reflexivity))
    as (Hid & Hpercent & _).
  split; [rewrite Hid | rewrite Hpercent]; vm_compute; reflexivity.
Defined.

(** The line-level value is the last one written, over all the blocks of
    the line; a credit-note line does not read its [TaxTotal] block. *)
Example line_tax_two_totals :
  line_tax Invoice (py "ID") (py "TaxID") (ET.children line_two_totals)
  = VStr (py "S")
  /\ line_tax Invoice (py "Percent") (py "TaxPercent")
       (ET.children line_two_totals) = VStr (py "13")
  /\ line_tax CreditNote (py "ID") (py "TaxID") (ET.children line_two_totals)
     = VNone.
Proof. by vm_compute. Qed.

(** ** Attachment of a returned document *)

Lemma Run_step_pdf_frame (v : variant) (sol sol' : pydict) (elem : Element) :
  prettify_tag (ET.tag elem) <> py "AdditionalDocumentReference" ->
  prettify_tag (ET.tag elem) <> py "PdfDocument" ->
  Run_step (line_tag_of v) (parseInvoiceLine_of v) sol elem = Ok sol' ->
  sol' !! py "PdfDocument" = sol !! py "PdfDocument".
Proof.
  intros Href Htag H.
  destruct (decide (prettify_tag (ET.tag elem) ∈ special_tags v)) as [Hs|Hs].
  - unfold special_tags in Hs. rewrite !elem_of_cons, elem_of_nil in Hs.
    destruct Hs as [Hs|[Hs|[Hs|[Hs|[]]]]]; [| |done|].
    + rewrite (Run_step_extensions v sol elem Hs) in H. by injection H as <-.
    + unfold Run_step in H. rewrite Hs in H.
      rewrite decide_False in H by (destruct v; lit_neq).
      rewrite decide_True in H by reflexivity.
      destruct (getitem sol (py "InvoiceLines")); try discriminate H.
      binds H. injection H as <-. apply lookup_insert_ne. lit_neq.
    + rewrite (Run_step_note v sol elem Hs) in H. unfold add_note in H.
      destruct (ET.text elem); [|by injection H as <-].
      destruct (negb _).
      * injection H as <-. apply lookup_insert_ne. lit_neq.
      * binds H. injection H as <-. apply lookup_insert_ne. lit_neq.
  - rewrite (Run_step_own v sol elem Hs) in H. injection H as <-.
    by apply lookup_insert_ne.
Qed.

Lemma Run_step_pdf (v : variant) (sol sol' : pydict) (elem : Element) :
  prettify_tag (ET.tag elem) = py "AdditionalDocumentReference" ->
  Run_step (line_tag_of v) (parseInvoiceLine_of v) sol elem = Ok sol' ->
  exists r, parsePdfDocument elem = Ok r /\ sol' !! py "PdfDocument" = Some r.
Proof.
  intros Htag. unfold Run_step. rewrite Htag.
  rewrite !decide_False by (destruct v; lit_neq).
  rewrite decide_True by reflexivity. intros H.
  apply bind_Ok in H as (r & Hr & H). injection H as <-.
  exists r. split; [exact Hr | apply lookup_insert_eq].
Qed.

Lemma walk_pdf (v : variant) (xs : list Element) (sol sol' : pydict) :
  for_each (Run_step (line_tag_of v) (parseInvoiceLine_of v)) xs sol = Ok sol' ->
  Forall (fun elem => prettify_tag (ET.tag elem) <> py "PdfDocument") xs ->
  match last_tagged (py "AdditionalDocumentReference") xs with
  | Some elem =>
      exists r, parsePdfDocument elem = Ok r /\ sol' !! py "PdfDocument" = Some r
  | None => sol' !! py "PdfDocument" = sol !! py "PdfDocument"
  end.
Proof.
  intros H Hxs. revert sol H.
  induction Hxs as [|x xs Hx _ IH]; intros sol H; cbn [for_each] in H.
  - by injection H as <-.
  - apply bind_Ok in H as (s1 & H1 & H). specialize (IH s1 H).
    cbn [last_tagged].
    destruct (last_tagged (py "AdditionalDocumentReference") xs) as [e|];
      [exact IH|].
    case_decide as Href.
    + destruct (Run_step_pdf v sol s1 x Href H1) as (r & Hr & Hs1).
      exists r. split; [exact Hr | by rewrite IH].
    + rewrite IH. by apply (Run_step_pdf_frame v sol s1 x).
Qed.

Lemma post_process_of_pdf (v : variant) (result : pydict) out :
  post_process_of v result = Ok out ->
  pdf_document out = default VNone (result !! py "PdfDocument").
Proof.
  assert (Hinv : forall o, InvoiceParser._post_process_result_dict result = Ok o ->
            pdf_document o = default VNone (result !! py "PdfDocument")).
  { unfold InvoiceParser._post_process_result_dict. intros o H. binds H.
    injection H as <-. cbn [pdf_document].
    match goal with Hp : chain _ [] (py "PdfDocument") = _ |- _ =>
      cbn [chain get] in Hp; by injection Hp as <- end. }
  destruct v; cbn [post_process_of]; [apply Hinv|].
  unfold CreditNoteParser._post_process_result_dict. intros H. binds H.
  injection H as <-. cbn [pdf_document]. by apply Hinv.
Qed.

(** X12: in a returned document, when no top-level element has the tag
    [PdfDocument], the attachment is what [parsePdfDocument] returns for
    the last [AdditionalDocumentReference] element, whatever the earlier
    ones hold, and null when the document has none. *)
Theorem X12_attachment_of_last_reference (v : variant) (xml_root : Element)
    (out : ParsedDocument) :
  Run_of v xml_root = Ok out ->
  Forall (fun elem => prettify_tag (ET.tag elem) <> py "PdfDocument")
    (ET.children xml_root) ->
  match last_tagged (py "AdditionalDocumentReference") (ET.children xml_root) with
  | Some elem => parsePdfDocument elem = Ok (pdf_document out)
  | None => pdf_document out = VNone
  end.
Proof.
  rewrite Run_of_unfold. intros H Hno.
  apply bind_Ok in H as (sol & Hwalk & Hout).
  apply post_process_of_pdf in Hout. rewrite Hout.
  pose proof (walk_pdf v _ sol_init sol Hwalk Hno) as Hpdf.
  destruct (last_tagged _ (ET.children xml_root)) as [e|].
  - destruct Hpdf as (r & Hr & ->). exact Hr.
  - rewrite Hpdf. rewrite sol_init_lookup; [reflexivity | py_notin].
Qed.

Lemma X12_attachment_of_last_reference_witness :
  exists out,
    Run_of Invoice doc_two_refs = Ok out
    /\ parsePdfDocument ref_blank = Ok (pdf_document out).
Proof.
  eexists. split; [vm_compute; reflexivity|].
  apply (X12_attachment_of_last_reference Invoice doc_two_refs).
  - vm_compute. reflexivity.
  - repeat constructor; lit_neq.
Defined.

(** ** Documents that [Run] accepts *)

Lemma fold_left_inv_on {A B} (P : A -> Prop) (f : A -> B -> A) (xs : list B)
    (a : A) :
  P a -> Forall (fun x => forall a, P a -> P (f a x)) xs -> P (fold_left f xs a).
Proof.
  intros Ha Hf. revert a Ha.
  induction Hf as [|x xs Hx _ IH]; intros a Ha; [done|].
  cbn [fold_left]. apply IH. by apply Hx.
Qed.

(** The tax category of the item dict of an accepted item is absent or
    a dict of the shape that [fields_with] builds. *)
Lemma item_dict_shape (item : Element) :
  item_ok item ->
  exists it,
    _parseInvoiceLineItem item = VDict it
    /\ (it !! py "ClassifiedTaxCategory" = None
        \/ exists c, it !! py "ClassifiedTaxCategory"
                     = Some (VDict (fields_with (py "TaxScheme") c))).
Proof.
  intros Hok. eexists. split; [reflexivity|].
  apply (fold_left_inv_on
           (fun it => it !! py "ClassifiedTaxCategory" = None
                      \/ exists c, it !! py "ClassifiedTaxCategory"
                                   = Some (VDict (fields_with (py "TaxScheme") c))));
    [by left|].
  eapply Forall_impl; [exact Hok|]. cbn beta. intros sub Hsub it Hit.
  cbn zeta. repeat case_decide.
  - rewrite text_fields_lookup.
    rewrite (proj2 (last_tagged_none _ _)) by (by apply Hsub). exact Hit.
  - right. exists sub. apply lookup_insert_eq.
  - exact Hit.
  - rewrite lookup_insert_ne; [exact Hit|].
    rewrite !elem_of_cons, elem_of_nil in *. intros Heq. tauto.
Qed.

Lemma item_chain_ok (item : Element) (ks : list pystr) (k : pystr) :
  item_ok item ->
  ks ∈ [[]; [py "ClassifiedTaxCategory"];
        [py "ClassifiedTaxCategory"; py "TaxScheme"]] ->
  exists x, chain (_parseInvoiceLineItem item) ks k = Ok x.
Proof.
  intros Hok Hks. destruct (item_dict_shape item Hok) as (it & -> & Hit).
  rewrite !elem_of_cons, elem_of_nil in Hks.
  destruct Hks as [->|[->|[->|[]]]]; cbn [chain get]; [by eexists| |].
  - destruct Hit as [-> | [c ->]]; cbn; by eexists.
  - destruct Hit as [Hit | [c Hit]]; rewrite Hit; cbn [default].
    + exists VNone. apply (chain_empty [py "TaxScheme"] k).
    + eexists. apply (fields_with_chain (py "TaxScheme") c k).
Qed.

Lemma line_chain_ok (v : variant) (line : Element) (d : pydict)
    (ks : list pystr) (k : pystr) :
  parseInvoiceLine_of v line = Ok (VDict d) ->
  line_ok v line ->
  ks ∈ [[]; [py "ClassifiedTaxCategory"];
        [py "ClassifiedTaxCategory"; py "TaxScheme"]] ->
  exists x, chain (VDict d) (py "Items" :: ks) k = Ok x.
Proof.
  intros Hparse Hok Hks. cbn [chain get].
  rewrite (line_items v line d Hparse)
    by (eapply Forall_impl; [exact Hok|]; cbn beta; tauto).
  destruct (last_tagged (py "Item") (ET.children line)) as [item|] eqn:Hitem;
    cbn.
  - apply item_chain_ok; [|exact Hks].
    apply last_tagged_tag in Hitem as [Htag Hin].
    unfold line_ok in Hok. rewrite Forall_forall in Hok.
    by apply (Hok item Hin).
  - rewrite chain_empty. by eexists.
Qed.

Lemma item_or_line_ok (d : pydict) (item_key line_key : pystr) :
  (exists x, chain (VDict d) [py "Items"; py "ClassifiedTaxCategory"] item_key
             = Ok x) ->
  exists y, item_or_line (VDict d) item_key line_key = Ok y.
Proof.
  intros [x Hx]. unfold item_or_line. rewrite Hx. cbn.
  destruct (negb (truthy x)); by eexists.
Qed.

(** The dict of an accepted line can be projected. *)
Lemma flatten_invoice_line_ok (v : variant) (line : Element) (d : pyval) :
  parseInvoiceLine_of v line = Ok d ->
  line_ok v line ->
  exists r, flatten_invoice_line d = Ok r.
Proof.
  intros Hparse Hok.
  destruct (parseInvoiceLine_of_dict v line d Hparse) as [d' ->].
  pose proof (fun ks k => line_chain_ok v line d' ks k Hparse Hok) as Hitems.
  pose proof (line_slot v line d' (py "Price") Hparse
                ltac:(rewrite !elem_of_cons; tauto)) as Hprice.
  clear Hparse Hok.
  assert (Hp : exists x, chain (VDict d') [py "Price"] (py "PriceAmount") = Ok x).
  { cbn [chain get]. rewrite Hprice.
    destruct (last_tagged (py "Price") _) as [c|] eqn:Hc; cbn.
    - apply last_tagged_tag in Hc as [Hc _]. unfold line_value.
      rewrite decide_True by exact Hc. by eexists.
    - rewrite lookup_empty. by eexists. }
  clear Hprice.
  assert (Hin1 : [py "ClassifiedTaxCategory"]
                 ∈ [[]; [py "ClassifiedTaxCategory"];
                    [py "ClassifiedTaxCategory"; py "TaxScheme"]])
    by (rewrite !elem_of_cons; tauto).
  assert (Hin0 : ([] : list pystr)
                 ∈ [[]; [py "ClassifiedTaxCategory"];
                    [py "ClassifiedTaxCategory"; py "TaxScheme"]])
    by (rewrite !elem_of_cons; tauto).
  assert (Hin2 : [py "ClassifiedTaxCategory"; py "TaxScheme"]
                 ∈ [[]; [py "ClassifiedTaxCategory"];
                    [py "ClassifiedTaxCategory"; py "TaxScheme"]])
    by (rewrite !elem_of_cons; tauto).
  unfold flatten_invoice_line.
  destruct (item_or_line_ok d' (py "ID") (py "TaxID")
              (Hitems _ _ Hin1)) as [tax_id ->].
  destruct (item_or_line_ok d' (py "Percent") (py "TaxPercent")
              (Hitems _ _ Hin1)) as [tax_percent ->].
  destruct (item_or_line_ok d' (py "TaxExemptionReason") (py "TaxExemptionReason")
              (Hitems _ _ Hin1)) as [tax_exempt ->].
  destruct (Hitems _ (py "Name") Hin0) as [l2 ->].
  destruct (Hitems _ (py "Description") Hin0) as [l3 ->].
  destruct (Hitems _ (py "ID") Hin2) as [l10 ->].
  destruct Hp as [l6 ->].
  cbn. by eexists.
Qed.

Lemma flatten_loop_ok (items : list pyval) (acc : list Line.t) :
  Forall (fun i => exists r, flatten_invoice_line i = Ok r) items ->
  exists rs,
    for_each
      (fun flattened_invoice_lines i =>
         line ← flatten_invoice_line i; Ok (flattened_invoice_lines ++ [line]))
      items acc = Ok rs.
Proof.
  intros Hitems. revert acc.
  induction Hitems as [|i items [r Hr] _ IH]; intros acc; cbn [for_each].
  - by eexists.
  - rewrite Hr. cbn. apply IH.
Qed.

(** One turn of the loop on an accepted element. *)
Lemma Run_step_ok (v : variant) (sol : pydict) (elem : Element) ls :
  top_ok v elem ->
  note_is_str sol ->
  sol !! py "InvoiceLines" = Some (VList ls) ->
  exists sol', Run_step (line_tag_of v) (parseInvoiceLine_of v) sol elem = Ok sol'.
Proof.
  intros (_ & Hline & Href) [n Hnote] Hls.
  destruct (decide (prettify_tag (ET.tag elem) ∈ special_tags v)) as [Hs|Hs].
  - unfold special_tags in Hs. rewrite !elem_of_cons, elem_of_nil in Hs.
    destruct Hs as [Hs|[Hs|[Hs|[Hs|[]]]]].
    + rewrite (Run_step_extensions v sol elem Hs). by eexists.
    + specialize (Hline Hs).
      destruct (parseInvoiceLine_of_accepts v elem) as [d Hd].
      { eapply Forall_impl; [exact Hline|]. cbn beta. tauto. }
      unfold Run_step, getitem. rewrite Hs, Hls.
      rewrite decide_False by (destruct v; lit_neq).
      rewrite decide_True by reflexivity. cbn [default]. rewrite Hd. cbn.
      by eexists.
    + destruct (parsePdfDocument_accepts elem (Href Hs)) as [r Hr].
      unfold Run_step. rewrite Hs.
      rewrite !decide_False by (destruct v; lit_neq).
      rewrite decide_True by reflexivity. rewrite Hr. cbn. by eexists.
    + rewrite (Run_step_note v sol elem Hs), (add_note_str sol elem n Hnote).
      by eexists.
  - rewrite (Run_step_own v sol elem Hs). by eexists.
Qed.

Lemma walk_ok (v : variant) (xs : list Element) (sol : pydict) ls :
  Forall (top_ok v) xs ->
  note_is_str sol ->
  sol !! py "InvoiceLines" = Some (VList ls) ->
  exists sol',
    for_each (Run_step (line_tag_of v) (parseInvoiceLine_of v)) xs sol = Ok sol'.
Proof.
  intros Hxs. revert sol ls.
  induction Hxs as [|x xs Hx _ IH]; intros sol ls Hnote Hls; cbn [for_each].
  - by eexists.
  - destruct (Run_step_ok v sol x ls Hx Hnote Hls) as [s1 H1]. rewrite H1. cbn.
    pose proof (note_is_str_step v sol x s1 Hnote H1) as Hnote1.
    destruct (decide (prettify_tag (ET.tag x) = line_tag_of v)) as [Hline|Hline].
    + destruct (Run_step_line v sol s1 x ls Hline Hls H1) as (d & _ & Hs1).
      by apply (IH s1 _ Hnote1 Hs1).
    + apply (IH s1 ls Hnote1).
      rewrite (Run_step_lines_frame v sol s1 x Hline (proj1 Hx) H1). exact Hls.
Qed.

Lemma walked_party_ok (v : variant) (xs : list Element) (sol : pydict)
    (slot : pystr) :
  slot = py "AccountingSupplierParty" \/ slot = py "AccountingCustomerParty" ->
  for_each (Run_step (line_tag_of v) (parseInvoiceLine_of v)) xs sol_init = Ok sol ->
  is_Some (last_tagged slot xs) ->
  exists p, party_fields sol slot = Ok p.
Proof.
  intros Hslot Hwalk [block Hlast].
  assert (Hs : (slot ∉ special_tags v) /\ slot <> py "InvoiceLines"
               /\ slot <> py "PdfDocument").
  { unfold special_tags. clear Hwalk Hlast.
    destruct Hslot as [->| ->]; repeat split;
      first [lit_neq | destruct v; py_notin]. }
  destruct Hs as (Hs & Hl & Hpdf).
  pose proof (walk_slot v xs sol_init sol slot Hwalk Hs Hl Hpdf) as Hsol.
  rewrite Hlast in Hsol. apply last_tagged_tag in Hlast as [Htag _].
  rewrite (top_value_party block slot Hslot Htag) in Hsol.
  rewrite (party_fields_of_block sol slot block Hsol). by eexists.
Qed.

(** X13: [Run] of either class returns a document whenever the envelope
    has a supplier and a customer block, no top-level element of tag
    [InvoiceLines], line elements whose quantity and amount children have
    their attribute, which have no child of tag [Items] and whose items
    keep their tax category dict, and document references whose embedded
    objects all have a text that encodes. *)
Theorem X13_run_returns (v : variant) (xml_root : Element) :
  is_Some (last_tagged (py "AccountingSupplierParty") (ET.children xml_root)) ->
  is_Some (last_tagged (py "AccountingCustomerParty") (ET.children xml_root)) ->
  Forall (top_ok v) (ET.children xml_root) ->
  exists out, Run_of v xml_root = Ok out.
Proof.
  intros Hsup Hcus Hok. rewrite Run_of_unfold. unfold walk.
  destruct (walk_ok v (ET.children xml_root) sol_init [] Hok) as [sol Hwalk].
  { exists []. vm_compute. reflexivity. }
  { vm_compute. reflexivity. }
  rewrite Hwalk. cbn [mbind outcome_bind].
  destruct (walked_party_ok v _ sol _ (or_introl eq_refl) Hwalk Hsup)
    as [s Hs].
  destruct (walked_party_ok v _ sol _ (or_intror eq_refl) Hwalk Hcus)
    as [c Hc].
  destruct (header_fields_walked v _ sol Hwalk) as [Hh Hdate].
  assert (Hlines : exists rs, _flatten_invoice_lines sol = Ok rs).
  { destruct (walk_lines v _ sol_init sol [] Hwalk) as (ds & Hds & Hparse).
    { eapply Forall_impl; [exact Hok|]. intros x Hx. exact (proj1 Hx). }
    { vm_compute. reflexivity. }
    unfold _flatten_invoice_lines. rewrite Hds. cbn [app py_iter].
    cbn [mbind outcome_bind]. apply flatten_loop_ok.
    assert (Hsrc : Forall (line_ok v)
              (filter (fun elem => prettify_tag (ET.tag elem) = line_tag_of v)
                 (ET.children xml_root))).
    { rewrite Forall_forall. intros x [Hx Hin]%list_elem_of_filter.
      rewrite Forall_forall in Hok. by apply (proj1 (proj2 (Hok x Hin))). }
    clear Hds. induction Hparse as [|e d es ds' He _ IH]; [constructor|].
    apply Forall_cons in Hsrc as [He' Hes]. constructor; [|by apply IH].
    by apply (flatten_invoice_line_ok v e d). }
  destruct Hlines as [rs Hrs].
  assert (Hinv : exists o, InvoiceParser._post_process_result_dict sol = Ok o).
  { unfold InvoiceParser._post_process_result_dict.
    rewrite Hs, Hc, Hh, Hrs. cbn. by eexists. }
  destruct Hinv as [o Ho].
  destruct v; cbn [post_process_of]; [by exists o|].
  unfold CreditNoteParser._post_process_result_dict. rewrite Ho, Hdate. cbn.
  by eexists.
Qed.

Lemma X13_run_returns_witness : exists out, Run_of Invoice doc_merged = Ok out.
Proof.
  apply (X13_run_returns Invoice doc_merged).
  - by eexists.
  - by eexists.
  - repeat first [ lit_neq | constructor | intros _ ].
Defined.

(** ** Line elements of the other variant *)

Lemma post_process_of_walked_ok (v : variant) (xs : list Element) (sol : pydict) :
  for_each (Run_step (line_tag_of v) (parseInvoiceLine_of v)) xs sol_init = Ok sol ->
  is_Some (last_tagged (py "AccountingSupplierParty") xs) ->
  is_Some (last_tagged (py "AccountingCustomerParty") xs) ->
  (exists rs, _flatten_invoice_lines sol = Ok rs) ->
  exists out, post_process_of v sol = Ok out.
Proof.
  intros Hwalk Hsup Hcus [rs Hrs].
  destruct (walked_party_ok v _ sol _ (or_introl eq_refl) Hwalk Hsup)
    as [s Hs].
  destruct (walked_party_ok v _ sol _ (or_intror eq_refl) Hwalk Hcus)
    as [c Hc].
  destruct (header_fields_walked v _ sol Hwalk) as [Hh Hdate].
  assert (Hinv : exists o, InvoiceParser._post_process_result_dict sol = Ok o).
  { unfold InvoiceParser._post_process_result_dict.
    rewrite Hs, Hc, Hh, Hrs. cbn. by eexists. }
  destruct Hinv as [o Ho].
  destruct v; cbn [post_process_of]; [by exists o|].
  unfold CreditNoteParser._post_process_result_dict. rewrite Ho, Hdate. cbn.
  by eexists.
Qed.

(** C9: when no top-level child carries the line tag of the walker's
    variant, as for a credit-note walker given [InvoiceLine] elements or
    an invoice walker given [CreditNoteLine] elements, every parse that
    completes has an empty line sequence; the line elements of the other
    variant raise nothing and leave no trace, the outcome being that of
    the document without them; and the parse does complete, with an
    empty line sequence, when the envelope has a supplier and a customer
    block, no top-level element of tag [InvoiceLines], and document
    references whose embedded objects all have a text that encodes. *)
Theorem C9_mismatch_is_silent (v : variant) (xml_root : Element) :
  Forall (fun elem => prettify_tag (ET.tag elem) <> line_tag_of v)
    (ET.children xml_root) ->
  (forall out, Run_of v xml_root = Ok out -> invoice_lines out = [])
  /\ Run_of v xml_root = Run_of v (without (line_tag_of (other v)) xml_root)
  /\ (is_Some (last_tagged (py "AccountingSupplierParty") (ET.children xml_root)) ->
      is_Some (last_tagged (py "AccountingCustomerParty") (ET.children xml_root)) ->
      Forall
        (fun elem =>
           prettify_tag (ET.tag elem) <> py "InvoiceLines"
           /\ (prettify_tag (ET.tag elem) = py "AdditionalDocumentReference" ->
               Forall (fun child => is_Some (stripped_octets (ET.text child)))
                 (embedded_objects elem)))
        (ET.children xml_root) ->
      exists out, Run_of v xml_root = Ok out /\ invoice_lines out = []).
Proof.
  intros Hno.
  assert (Hempty : forall out, Run_of v xml_root = Ok out -> invoice_lines out = []).
  { intros out. rewrite Run_of_unfold. intros H.
    apply bind_Ok in H as (sol & Hwalk & Hout).
    apply (flatten_no_lines sol); [|by apply (post_process_of_lines v)].
    apply (walk_no_lines _ _ _ _ _ Hno Hwalk). left. vm_compute. reflexivity. }
  split; [exact Hempty|]. split; [apply Run_of_without_mismatch|].
  intros Hsup Hcus Hrest.
  assert (Hout : exists out, Run_of v xml_root = Ok out).
  { rewrite Run_of_unfold. unfold walk.
    assert (Hok : Forall (top_ok v) (ET.children xml_root)).
    { rewrite Forall_forall in Hno, Hrest. apply Forall_forall. intros x Hx.
      destruct (Hrest x Hx) as [Hl Hpdf].
      split; [exact Hl|]. split; [|exact Hpdf].
      intros Hline. destruct (Hno x Hx Hline). }
    destruct (walk_ok v (ET.children xml_root) sol_init [] Hok) as [sol Hwalk].
    { exists []. vm_compute. reflexivity. }
    { vm_compute. reflexivity. }
    rewrite Hwalk. cbn [mbind outcome_bind].
    apply (post_process_of_walked_ok v _ sol Hwalk Hsup Hcus).
    assert (Hinit : no_lines sol_init) by (left; vm_compute; reflexivity).
    destruct (walk_no_lines _ _ _ _ _ Hno Hwalk Hinit) as [Hl|[t Hl]].
    - exists []. unfold _flatten_invoice_lines. by rewrite Hl.
    - exfalso.
      destruct (walk_lines v _ sol_init sol [] Hwalk) as (ds & Hds & _).
      + eapply Forall_impl; [exact Hrest|]. cbn beta. tauto.
      + vm_compute. reflexivity.
      + rewrite Hds in Hl. destruct t; discriminate Hl. }
  destruct Hout as [out Hout]. exists out. split; [exact Hout | by apply Hempty].
Qed.

Lemma C9_mismatch_is_silent_witness :
  exists out,
    Run_of CreditNote doc_mismatch = Ok out /\ invoice_lines out = [].
Proof.
  destruct (C9_mismatch_is_silent CreditNote doc_mismatch) as (_ & _ & H).
  - repeat constructor; lit_neq.
  - apply H.
    + by eexists.
    + by eexists.
    + repeat constructor; lit_neq.
Defined.
